(** * libinput-gestures-qt: the configuration engine of [main.py]

    A shallow embedding of the parts of [main.py] that read, check, repair and
    rewrite [~/.config/libinput-gestures.conf], and the properties of them that
    the specification states.

    Conventions of the embedding.
    - A Python [str] is a [string]; a character is a code point below 256.
    - A Python exception is a value of [exn]; a function that may raise
      returns a [result].
    - The configuration file is the only store.  Its state is [file_state]:
      [None] when the file does not exist, [Some s] when it holds the text [s].
      [read_config] and [write_config] are the two accesses to it. *)

From Stdlib Require Import Strings.String Strings.Ascii Lists.List Bool.Bool
  Arith.PeanoNat NArith.NArith Numbers.DecimalString Numbers.DecimalPos
  micromega.Lia Sorting.Permutation Sorting.Sorted
  Structures.OrderedTypeEx.
Import ListNotations.

Local Open Scope list_scope.
Local Open Scope string_scope.

(** ** Exceptions *)

Inductive exn : Type :=
| IndexError   (* list index out of range *)
| KeyError     (* key missing from a dict *)
| SystemExit.  (* raised by [sys.exit()] *)

Inductive result (A : Type) : Type :=
| Ok (a : A)
| Raise (e : exn).

Arguments Ok {A} a.
Arguments Raise {A} e.

Definition bind {A B : Type} (m : result A) (k : A -> result B) : result B :=
  match m with
  | Ok a => k a
  | Raise e => Raise e
  end.

Notation "x <- m ;; k" := (bind m (fun x => k))
  (at level 61, m at next level, right associativity).

(** ** Python's string primitives *)

Module Py.

(** Code points of the characters the program names. *)
Definition TAB : ascii := "009"%char.
Definition LF : ascii := "010"%char.
Definition CR : ascii := "013"%char.
Definition SPACE : ascii := " "%char.

(** [str.isspace] on one character, for code points below 256:
    U+0009..U+000D, U+001C..U+001F, U+0020, U+0085 and U+00A0. *)
Definition isspace (c : ascii) : bool :=
  let n := nat_of_ascii c in
  (((9 <=? n) && (n <=? 13)) || ((28 <=? n) && (n <=? 32))
   || (n =? 133) || (n =? 160))%nat.

(** [str.lower] on one character, for code points below 256: the upper-case
    letters are A..Z, U+00C0..U+00D6 and U+00D8..U+00DE, each 32 below its
    lower-case form. *)
Definition lower_char (c : ascii) : ascii :=
  let n := nat_of_ascii c in
  if (((65 <=? n) && (n <=? 90)) || ((192 <=? n) && (n <=? 214))
      || ((216 <=? n) && (n <=? 222)))%nat
  then ascii_of_nat (n + 32) else c.

Fixpoint lower (s : string) : string :=
  match s with
  | EmptyString => EmptyString
  | String c s' => String (lower_char c) (lower s')
  end.

(** [s.replace(a, b)] for one-character [a] and [b]. *)
Fixpoint replace (a b : ascii) (s : string) : string :=
  match s with
  | EmptyString => EmptyString
  | String c s' => String (if Ascii.eqb c a then b else c) (replace a b s')
  end.

(** [s.startswith(p)]. *)
Definition startswith (s p : string) : bool := String.prefix p s.

(** [sep.join(l)]. *)
Definition join (sep : string) (l : list string) : string := String.concat sep l.

(** [s.split()]: the maximal runs of non-white-space characters, in order.
    [w] is the word being read. *)
Fixpoint split_from (w : string) (s : string) : list string :=
  match s with
  | EmptyString => if String.eqb w "" then [] else [w]
  | String c s' =>
      if isspace c
      then (if String.eqb w "" then split_from "" s' else w :: split_from "" s')
      else split_from (w ++ String c "") s'
  end.

Definition split (s : string) : list string := split_from "" s.

(** [s.split(sep)] for a one-character [sep]: the pieces between the
    separators, of which there is one more than separators. *)
Fixpoint split_on_from (sep : ascii) (w : string) (s : string) : list string :=
  match s with
  | EmptyString => [w]
  | String c s' =>
      if Ascii.eqb c sep then w :: split_on_from sep "" s'
      else split_on_from sep (w ++ String c "") s'
  end.

Definition split_on (sep : ascii) (s : string) : list string :=
  split_on_from sep "" s.

(** [l[i]] for [i >= 0]. *)
Definition getitem {A : Type} (l : list A) (i : nat) : result A :=
  match nth_error l i with
  | Some a => Ok a
  | None => Raise IndexError
  end.

(** [l[i:]]. *)
Definition slice_from {A : Type} (l : list A) (i : nat) : list A := skipn i l.

(** A dict with string keys, in the order of its display. *)
Definition dict : Type := list (string * string).

Fixpoint get (d : dict) (k : string) : option string :=
  match d with
  | [] => None
  | (k', v) :: d' => if String.eqb k k' then Some v else get d' k
  end.

(** [k in d]. *)
Definition contains (d : dict) (k : string) : bool :=
  match get d k with
  | Some _ => true
  | None => false
  end.

(** [d[k]]. *)
Definition subscript (d : dict) (k : string) : result string :=
  match get d k with
  | Some v => Ok v
  | None => Raise KeyError
  end.

Definition keys (d : dict) : list string := map fst d.

(** [k in l] for a list of strings. *)
Definition mem (k : string) (l : list string) : bool :=
  existsb (String.eqb k) l.

(** [str(n)] for an [int] that is not negative. *)
Definition str (n : N) : string := NilEmpty.string_of_uint (N.to_uint n).

(** Text-mode reading translates the line ends [\r\n] and [\r] to [\n].
    [after_cr] tells that the character before was a [\r]. *)
Fixpoint universal_newlines (after_cr : bool) (s : string) : string :=
  match s with
  | EmptyString => EmptyString
  | String c s' =>
      if Ascii.eqb c CR then String LF (universal_newlines true s')
      else if Ascii.eqb c LF then
        (if after_cr then universal_newlines false s'
         else String LF (universal_newlines false s'))
      else String c (universal_newlines false s')
  end.

(** The lines of a text, each with its [\n]; only the last can lack it.
    [w] is the line being read. *)
Fixpoint lines_from (w : string) (s : string) : list string :=
  match s with
  | EmptyString => if String.eqb w "" then [] else [w]
  | String c s' =>
      if Ascii.eqb c LF then (w ++ String LF "") :: lines_from "" s'
      else lines_from (w ++ String c "") s'
  end.

(** [f.readlines()] of a file opened with [open(path, 'r')]. *)
Definition readlines (content : string) : list string :=
  lines_from "" (universal_newlines false content).

End Py.

(** One-character strings for the separators the program writes. *)
Definition tab : string := String Py.TAB "".
Definition nl : string := String Py.LF "".

(** ['{} {} {}'.format(a, b, c)] *)
Definition format_triple (a b c : string) : string := a ++ " " ++ b ++ " " ++ c.

(** ** The translation tables *)

Definition actions_mapping : Py.dict :=
  [ ("Swipe Up", "gesture swipe up");
    ("Swipe Down", "gesture swipe down");
    ("Swipe Left", "gesture swipe left");
    ("Swipe LeftUp", "gesture swipe left_up");
    ("Swipe LeftDown", "gesture swipe  left_down");
    ("Swipe Right", "gesture swipe right");
    ("Swipe RightUp", "gesture swipe right_up");
    ("Swipe RightDown", "gesture swipe right_down");
    ("Pinch In", "gesture pinch in");
    ("Pinch Out", "gesture pinch out");
    ("Pinch Clockwise", "gesture pinch clockwise");
    ("Pinch Anticlockwise", "gesture pinch anticlockwise") ].

Definition reversed_mapping : Py.dict :=
  [ ("gesture swipe up", "Swipe Up");
    ("gesture swipe down", "Swipe Down");
    ("gesture swipe left", "Swipe Left");
    ("gesture swipe left_up", "Swipe LeftUp");
    ("gesture swipe left_down", "Swipe LeftDown");
    ("gesture swipe right", "Swipe Right");
    ("gesture swipe right_up", "Swipe RightUp");
    ("gesture swipe right_down", "Swipe RightDown");
    ("gesture pinch in", "Pinch In");
    ("gesture pinch out", "Pinch Out");
    ("gesture pinch clockwise", "Pinch Clockwise");
    ("gesture pinch anticlockwise", "Pinch Anticlockwise") ].

Definition keys_mapping : Py.dict :=
  [ ("meta", "super");
    ("pgdown", "Page_Down");
    ("pgup", "Page_Up");
    ("right", "Right");
    ("left", "Left");
    ("up", "Up");
    ("down", "Down");
    ("f1", "F1");
    ("f2", "F2");
    ("f3", "F3");
    ("f4", "F4");
    ("f5", "F5");
    ("f6", "F6");
    ("f7", "F7");
    ("f8", "F8");
    ("f9", "F9");
    ("f10", "F10");
    ("f11", "F11");
    ("f12", "F12") ].

(** ** The configuration file *)

Definition file_state : Type := option string.

(** [read_config]: the lines of the file; [''], which has no line, when the
    file does not exist. *)
Definition read_config (fs : file_state) : list string :=
  match fs with
  | Some content => Py.readlines content
  | None => []
  end.

(** [write_config]: the file holds [''.join(new_conf)] afterwards (on Linux,
    where the program runs, writing leaves [\n] as it is). *)
Definition write_config (new_conf : list string) : file_state :=
  Some (Py.join "" new_conf).

(** The items of a [str] taken as a sequence: its characters.  [fix_config]
    hands [write_config] a [str], not a list. *)
Fixpoint chars (s : string) : list string :=
  match s with
  | EmptyString => []
  | String c s' => String c "" :: chars s'
  end.

(** ** [fix_config] *)

(** The body of the loop of [fix_config], for one line. *)
Definition fix_line (line : string) (fixed_conf : list string)
  : result (list string) :=
  if Py.startswith line "#" then Ok (fixed_conf ++ [line])%list
  else
    let splitted := Py.split (Py.replace Py.TAB Py.SPACE line) in
    first <- Py.getitem splitted 0 ;;
    if Py.mem first ["gesture"; "device"; "swipe_threshold"] then
      if first =? "gesture" then
        fifth <- Py.getitem splitted 4 ;;
        if fifth =? "xdotool" then
          sixth <- Py.getitem splitted 5 ;;
          if (sixth =? "key") && (List.length splitted =? 7)%nat
          then Ok (fixed_conf ++ [line])%list
          else Ok fixed_conf
        else Ok (fixed_conf ++ [line])%list
      else
        if (List.length splitted =? 2)%nat
        then Ok (fixed_conf ++ [line])%list
        else Ok fixed_conf
    else Ok fixed_conf.

Fixpoint fix_loop (conf : list string) (fixed_conf : list string)
  : result (list string) :=
  match conf with
  | [] => Ok fixed_conf
  | line :: rest => fixed_conf' <- fix_line line fixed_conf ;; fix_loop rest fixed_conf'
  end.

(** [fix_config]: the outcome and the file afterwards.  An exception leaves
    the loop before [write_config] is reached, so the file is as it was. *)
Definition fix_config (fs : file_state) : result unit * file_state :=
  match fix_loop (read_config fs) [] with
  | Ok fixed_conf => (Ok tt, write_config (chars (Py.join "" fixed_conf)))
  | Raise e => (Raise e, fs)
  end.

(** ** [find_key_combo] *)

Fixpoint find_key_combo_loop (qt_keys : list string) (xdotool_key_combo : list string)
  : list string :=
  match qt_keys with
  | [] => xdotool_key_combo
  | qt_key :: rest =>
      let lowered_key := Py.lower qt_key in
      match Py.get keys_mapping lowered_key with
      | Some xdotool_key =>
          find_key_combo_loop rest (xdotool_key_combo ++ [xdotool_key])%list
      | None =>
          find_key_combo_loop rest (xdotool_key_combo ++ [lowered_key])%list
      end
  end.

Definition find_key_combo (qt_key_combo : string) : string :=
  Py.join "+" (find_key_combo_loop (Py.split_on "+"%char qt_key_combo) []).

(** ** The main window, [GesturesApp] *)

Module GesturesApp.

(** The attributes of the window that hold the configuration read: five
    lists, one item per row shown. *)
Record t : Type := mk {
  gestures : list string;
  fingers : list string;
  shortcuts : list string;
  buttons : list string;
  actions : list string
}.

Definition empty : t := mk [] [] [] [] [].

(** A method: it reads and changes the attributes and may raise.  What it had
    appended before raising stays in the attributes. *)
Definition method (A : Type) : Type := t -> result A * t.

Definition ret {A : Type} (a : A) : method A := fun self => (Ok a, self).

Definition lift {A : Type} (r : result A) : method A := fun self => (r, self).

Definition seq {A B : Type} (m : method A) (k : A -> method B) : method B :=
  fun self =>
    match m self with
    | (Ok a, self') => k a self'
    | (Raise e, self') => (Raise e, self')
    end.

Notation "x <~ m ;; k" := (seq m (fun x => k))
  (at level 61, m at next level, right associativity).
Notation "m ;;; k" := (seq m (fun _ => k))
  (at level 61, right associativity).

Definition gestures_append (x : string) : method unit :=
  fun self => (Ok tt, mk (gestures self ++ [x])%list (fingers self)
                         (shortcuts self) (buttons self) (actions self)).
Definition fingers_append (x : string) : method unit :=
  fun self => (Ok tt, mk (gestures self) (fingers self ++ [x])%list
                         (shortcuts self) (buttons self) (actions self)).
Definition shortcuts_append (x : string) : method unit :=
  fun self => (Ok tt, mk (gestures self) (fingers self)
                         (shortcuts self ++ [x])%list (buttons self) (actions self)).
Definition buttons_append (x : string) : method unit :=
  fun self => (Ok tt, mk (gestures self) (fingers self)
                         (shortcuts self) (buttons self ++ [x])%list (actions self)).
Definition actions_append (x : string) : method unit :=
  fun self => (Ok tt, mk (gestures self) (fingers self)
                         (shortcuts self) (buttons self) (actions self ++ [x])%list).

(** [splitted[4] == 'xdotool' and splitted[5] == 'key']: the second item is
    read only when the first test holds. *)
Definition is_xdotool_key (splitted : list string) : result bool :=
  fifth <- Py.getitem splitted 4 ;;
  if fifth =? "xdotool" then
    sixth <- Py.getitem splitted 5 ;; Ok (sixth =? "key")
  else Ok false.

(** The body of the loop of [prepare_config_for_displaying], for one line. *)
Definition prepare_line (line : string) : method unit :=
  if Py.startswith line "gesture" then
    let splitted := Py.split (Py.replace Py.TAB Py.SPACE line) in
    a <~ lift (Py.getitem splitted 0) ;;
    b <~ lift (Py.getitem splitted 1) ;;
    c <~ lift (Py.getitem splitted 2) ;;
    let action := format_triple a b c in
    label <~ lift (Py.subscript reversed_mapping (format_triple a b c)) ;;
    gestures_append label ;;;
    count <~ lift (Py.getitem splitted 3) ;;
    fingers_append count ;;;
    xdotool_key <~ lift (is_xdotool_key splitted) ;;
    (if xdotool_key : bool then
       actions_append "shortcut" ;;;
       combo <~ lift (Py.getitem splitted 6) ;;
       shortcuts_append combo
     else
       actions_append "command" ;;;
       shortcuts_append (Py.join " " (Py.slice_from splitted 4))) ;;;
    buttons_append action
  else ret tt.

Fixpoint prepare_loop (conf : list string) : method unit :=
  match conf with
  | [] => ret tt
  | line :: rest => prepare_line line ;;; prepare_loop rest
  end.

(** [prepare_config_for_displaying]: the five lists are emptied, then filled
    from the lines of the file. *)
Definition prepare_config_for_displaying (fs : file_state) : method unit :=
  fun _ => prepare_loop (read_config fs) empty.

(** An item of [for_sorting]: [[el, (fingers[i], shortcuts[i], buttons[i],
    actions[i])]]. *)
Definition row : Type := string * (string * string * string * string).

Fixpoint for_sorting_from (self : t) (i : nat) (rest : list string)
  : result (list row) :=
  match rest with
  | [] => Ok []
  | el :: rest' =>
      f <- Py.getitem (fingers self) i ;;
      s <- Py.getitem (shortcuts self) i ;;
      b <- Py.getitem (buttons self) i ;;
      a <- Py.getitem (actions self) i ;;
      rows <- for_sorting_from self (S i) rest' ;;
      Ok ((el, (f, s, b, a)) :: rows)
  end.

(** [<] on the items: the first components that differ decide, strings are
    compared by code points. *)
Definition row_ltb (r1 r2 : row) : bool :=
  let '(el1, (f1, s1, b1, a1)) := r1 in
  let '(el2, (f2, s2, b2, a2)) := r2 in
  if negb (el1 =? el2) then String.ltb el1 el2
  else if negb (f1 =? f2) then String.ltb f1 f2
  else if negb (s1 =? s2) then String.ltb s1 s2
  else if negb (b1 =? b2) then String.ltb b1 b2
  else String.ltb a1 a2.

(** [sorted], a stable sort: an item goes before the first item that is
    greater. *)
Fixpoint insert (r : row) (l : list row) : list row :=
  match l with
  | [] => [r]
  | r' :: l' => if row_ltb r r' then r :: l else r' :: insert r l'
  end.

Definition sorted (l : list row) : list row :=
  fold_left (fun acc r => insert r acc) l [].

Definition sort_config : method unit :=
  fun self =>
    match for_sorting_from self 0 (gestures self) with
    | Raise e => (Raise e, self)
    | Ok for_sorting =>
        let sorted_conf := sorted for_sorting in
        (Ok tt,
         mk (map (fun line : row => fst line) sorted_conf)
            (map (fun line : row => let '(_, (f, _, _, _)) := line in f) sorted_conf)
            (map (fun line : row => let '(_, (_, s, _, _)) := line in s) sorted_conf)
            (map (fun line : row => let '(_, (_, _, b, _)) := line in b) sorted_conf)
            (map (fun line : row => let '(_, (_, _, _, a)) := line in a) sorted_conf))
    end.

(** [display_config], up to the widgets: the outcome, the attributes and the
    file afterwards.  [reply_yes] is the answer to "Fix it?", asked when
    reading the file raised. *)
Definition display_config (reply_yes : bool) (fs : file_state) (self : t)
  : result unit * t * file_state :=
  match prepare_config_for_displaying fs self with
  | (Ok _, self1) => (sort_config self1, fs)
  | (Raise _, self1) =>
      if reply_yes then
        match fix_config fs with
        | (Ok _, fs') =>
            match prepare_config_for_displaying fs' self1 with
            | (Ok _, self2) => (sort_config self2, fs')
            | (Raise e, self2) => ((Raise e, self2), fs')
            end
        | (Raise e, fs') => ((Raise e, self1), fs')
        end
      else ((Raise SystemExit, self1), fs)
  end.

(** [display_config] gives the Delete button of row [i] the accessible name
    [buttons[i]]. *)
Definition delete_button_name (self : t) (i : nat) : result string :=
  Py.getitem (buttons self) i.

(** [delete_entry], for the button of accessible name [accessibleName]: the
    outcome, the attributes and the file afterwards.  [reply_yes] is the
    answer to "Are you sure to delete?", [reply_fix] the answer to "Fix it?",
    which the [display_config] at the end asks when it cannot read the file
    just written. *)
Definition delete_entry (accessibleName : string) (reply_yes reply_fix : bool)
  (fs : file_state) (self : t) : result unit * t * file_state :=
  if reply_yes then
    let conf := read_config fs in
    let new_conf :=
      filter (fun line => negb (Py.startswith line accessibleName)) conf in
    let fs' := write_config new_conf in
    display_config reply_fix fs' self
  else ((Ok tt, self), fs).

End GesturesApp.

(** ** The editing window, [EditGestures] *)

Module EditGestures.

(** The attributes that hold the binding being edited.  [fingers] is the
    value of the spin box, whose minimum is 2 or 3. *)
Record t : Type := mk {
  action : string;
  fingers : N;
  shortcut : string
}.

(** The attributes after [__init__]. *)
Definition init : t := mk "gesture swipe up" 3 "".

(** [action_chosen]: [self.action = actions_mapping[text]]. *)
Definition action_chosen (text : string) (self : t) : result t :=
  token <- Py.subscript actions_mapping text ;;
  Ok (mk token (fingers self) (shortcut self)).

Definition fingers_chosen (value : N) (self : t) : t :=
  mk (action self) value (shortcut self).

(** [shortcut_chosen]; [text] is [text.toString()], the key sequence as a
    string. *)
Definition shortcut_chosen (text : string) (self : t) : result t :=
  first <- Py.getitem (Py.split_on ","%char text) 0 ;;
  Ok (mk (action self) (fingers self) ("xdotool key " ++ find_key_combo first)).

Definition command_chosen (text : string) (self : t) : t :=
  mk (action self) (fingers self) text.

(** ['{} {}'.format(self.action, str(self.fingers))] *)
Definition line_prefix (self : t) : string :=
  action self ++ " " ++ Py.str (fingers self).

(** ['{}\t{} {}\n'.format(self.action, str(self.fingers), self.shortcut)] *)
Definition new_line (self : t) : string :=
  action self ++ tab ++ Py.str (fingers self) ++ " " ++ shortcut self ++ nl.

Fixpoint save_loop (self : t) (conf : list string) (new_conf : list string)
  : list string :=
  match conf with
  | [] => new_conf
  | line :: rest =>
      if negb (Py.startswith (Py.replace Py.TAB Py.SPACE line) (line_prefix self))
      then save_loop self rest (new_conf ++ [line])%list
      else save_loop self rest new_conf
  end.

(** The truth value of [self.action and self.fingers and self.shortcut]. *)
Definition all_filled (self : t) : bool :=
  negb (action self =? "") && negb (N.eqb (fingers self) 0)
  && negb (shortcut self =? "").

(** [save_changes]: the outcome, the attributes of the main window [parent]
    and the file afterwards.  The file is written, then the main window shows
    it again with [display_config], which asks "Fix it?" when it cannot read
    it: [reply_fix] is the answer.  The editing window is closed at the end
    and its own widgets are left out. *)
Definition save_changes (reply_fix : bool) (self : t) (parent : GesturesApp.t)
  (fs : file_state) : result unit * GesturesApp.t * file_state :=
  if all_filled self then
    let conf := read_config fs in
    let new_conf := save_loop self conf [] in
    let fs' := write_config (new_conf ++ [new_line self])%list in
    GesturesApp.display_config reply_fix fs' parent
  else ((Ok tt, parent), fs).

End EditGestures.

(** ** Vocabulary of the statements *)

(** The tokens of a line, as [fix_config], [prepare_config_for_displaying]
    take them: [line.replace('\t', ' ').split()]. *)
Definition tokens (line : string) : list string :=
  Py.split (Py.replace Py.TAB Py.SPACE line).

Fixpoint all_chars (p : ascii -> bool) (s : string) : bool :=
  match s with
  | EmptyString => true
  | String c s' => p c && all_chars p s'
  end.

(** A word: not empty, no white space. *)
Definition is_word (s : string) : bool :=
  negb (s =? "") && all_chars (fun c => negb (Py.isspace c)) s.

(** No line end inside. *)
Definition one_line (s : string) : bool :=
  all_chars (fun c => negb (Ascii.eqb c Py.LF) && negb (Ascii.eqb c Py.CR)) s.

(** What [fix_config] does with one line: keep it, drop it, or raise. *)
Definition keeps (line : string) : result bool :=
  match fix_line line [] with
  | Ok [] => Ok false
  | Ok (_ :: _) => Ok true
  | Raise e => Raise e
  end.

Definition kept (line : string) : bool :=
  match keeps line with
  | Ok b => b
  | Raise _ => false
  end.

(** The lines on which [fix_config] reads a token that is not there: no token
    at all, or a first token [gesture] with fewer than five tokens, or with
    [xdotool] as the fifth and last. *)
Definition out_of_range (line : string) : bool :=
  negb (Py.startswith line "#") &&
  match tokens line with
  | [] => true
  | first :: _ =>
      (first =? "gesture") &&
      match nth_error (tokens line) 4 with
      | None => true
      | Some fifth => (fifth =? "xdotool") && (List.length (tokens line) =? 5)%nat
      end
  end.

(** The lines on which [prepare_config_for_displaying] raises. *)
Definition parse_rejects (line : string) : bool :=
  Py.startswith line "gesture" &&
  match tokens line with
  | a :: b :: c :: rest =>
      negb (Py.contains reversed_mapping (format_triple a b c)) ||
      match rest with
      | _ :: fifth :: rest' =>
          (fifth =? "xdotool") &&
          match rest' with
          | [] => true
          | sixth :: rest'' =>
              (sixth =? "key") && match rest'' with [] => true | _ :: _ => false end
          end
      | _ => true
      end
  | _ => true
  end.

(** The two forms of action that [fix_config] tells apart on a [gesture]
    line: [xdotool key <combo>] with seven tokens in all is kept, any other
    [xdotool ...] is dropped, anything else is kept. *)
Definition action_form_ok (toks : list string) : bool :=
  match nth_error toks 4 with
  | None => false
  | Some fifth =>
      if fifth =? "xdotool" then
        match nth_error toks 5 with
        | Some sixth => (sixth =? "key") && (List.length toks =? 7)%nat
        | None => false
        end
      else true
  end.

(** A line that is well formed when the finger count is left unchecked;
    [check_pair] tells whether the first three tokens of a [gesture] line have
    to be a key of [reversed_mapping]. *)
Definition line_ok (check_pair : bool) (line : string) : bool :=
  Py.startswith line "#" ||
  match tokens line with
  | [] => false
  | first :: _ =>
      if Py.mem first ["device"; "swipe_threshold"] then
        (List.length (tokens line) =? 2)%nat
      else if first =? "gesture" then
        match tokens line with
        | a :: b :: c :: _ =>
            (negb check_pair || Py.contains reversed_mapping (format_triple a b c))
            && action_form_ok (tokens line)
        | _ => false
        end
      else false
  end.

(** The test of [save_changes] for the lines it replaces. *)
Definition replaced_by (self : EditGestures.t) (line : string) : bool :=
  Py.startswith (Py.replace Py.TAB Py.SPACE line) (EditGestures.line_prefix self).

(** The file as [delete_entry] writes it and as [save_changes] writes it,
    before [display_config] reads it. *)
Definition deleted (name : string) (fs : file_state) : file_state :=
  write_config
    (filter (fun line => negb (Py.startswith line name)) (read_config fs)).

Definition written (self : EditGestures.t) (fs : file_state) : file_state :=
  write_config
    (EditGestures.save_loop self (read_config fs) []
     ++ [EditGestures.new_line self])%list.

(** A file that [prepare_config_for_displaying] reads without raising. *)
Definition readable (fs : file_state) : bool :=
  negb (existsb parse_rejects (read_config fs)).

(** Whether [display_config] rewrites the file: it could not read it, the
    answer to "Fix it?" is Yes, and [fix_config] returns.  And the lines that
    are in the file afterwards. *)
Definition repairs (reply_fix : bool) (fs : file_state) : bool :=
  negb (readable fs) && reply_fix && negb (existsb out_of_range (read_config fs)).

Definition survives (reply_fix : bool) (fs : file_state) (line : string) : bool :=
  if repairs reply_fix fs then kept line else true.

(** The file after a call of a method that gives an outcome, the attributes
    and the file. *)
Definition file_after (r : result unit * GesturesApp.t * file_state)
  : file_state := snd r.

Definition outcome (r : result unit * GesturesApp.t * file_state)
  : result unit := fst (fst r).

Definition window_after (r : result unit * GesturesApp.t * file_state)
  : GesturesApp.t := snd (fst r).

(** The rows read from the file that show gesture [label] with [count]
    fingers. *)
Definition rows_with_key (self : GesturesApp.t) (label count : string) : nat :=
  List.length
    (filter (fun row => (fst row =? label) && (snd row =? count))
       (combine (GesturesApp.gestures self) (GesturesApp.fingers self))).

(** A comment, and a directive ([device], [swipe_threshold]) of any number of
    tokens. *)
Definition is_comment (line : string) : bool := Py.startswith line "#".

Definition is_directive (line : string) : bool :=
  negb (is_comment line) &&
  match tokens line with
  | first :: _ => Py.mem first ["device"; "swipe_threshold"]
  | [] => false
  end.

(** The key translator in the words of the specification: every key name is
    lower-cased and replaced by its daemon key name when the table has one. *)
Definition spec_key (qt_key : string) : string :=
  match Py.get keys_mapping (Py.lower qt_key) with
  | Some xdotool_key => xdotool_key
  | None => Py.lower qt_key
  end.

Definition spec_key_combo (chord : string) : string :=
  Py.join "+" (map spec_key (Py.split_on "+"%char chord)).

(** The Line Grammar in the words of the specification (its section 4.3). *)
Module Grammar.

Definition is_digit (c : ascii) : bool :=
  ((48 <=? nat_of_ascii c) && (nat_of_ascii c <=? 57))%nat.

(** "parses as an integer": digits, after an optional sign. *)
Definition parses_as_integer (s : string) : bool :=
  match s with
  | EmptyString => false
  | String c s' =>
      if Ascii.eqb c "+"%char || Ascii.eqb c "-"%char
      then negb (s' =? "") && all_chars is_digit s'
      else all_chars is_digit s
  end.

Definition well_formed_binding (toks : list string) : bool :=
  match toks with
  | a :: b :: c :: count :: action =>
      Py.contains reversed_mapping (format_triple a b c)
      && parses_as_integer count
      && match action with
         | fifth :: rest =>
             if fifth =? "xdotool" then
               match rest with
               | sixth :: _ => (sixth =? "key") && (List.length toks =? 7)%nat
               | [] => false
               end
             else true
         | [] => true
         end
  | _ => false
  end.

Definition is_binding_line (line : string) : bool :=
  negb (is_comment line) &&
  match tokens line with
  | first :: _ => first =? "gesture"
  | [] => false
  end.

Definition well_formed (line : string) : bool :=
  is_comment line
  || (is_directive line && (List.length (tokens line) =? 2)%nat)
  || (is_binding_line line && well_formed_binding (tokens line)).

Definition malformed_binding_line (line : string) : bool :=
  is_binding_line line && negb (well_formed_binding (tokens line)).

End Grammar.

(** The attributes with one more row. *)
Definition add_row (self : GesturesApp.t)
  (label count value button kind : string) : GesturesApp.t :=
  GesturesApp.mk
    (GesturesApp.gestures self ++ [label])%list
    (GesturesApp.fingers self ++ [count])%list
    (GesturesApp.shortcuts self ++ [value])%list
    (GesturesApp.buttons self ++ [button])%list
    (GesturesApp.actions self ++ [kind])%list.

(** The words of a command that is read back as a command: it is not
    [xdotool] alone and does not start with [xdotool key]. *)
Definition read_as_command (words : list string) : bool :=
  match words with
  | [] => false
  | first :: rest =>
      negb (first =? "xdotool")
      || match rest with
         | [] => false
         | second :: _ => negb (second =? "key")
         end
  end.

(** A gesture token with single spaces, as the Delete buttons carry it. *)
Definition button_of (token : string) : string := Py.join " " (tokens token).

(** ** Lines *)

(** A line as [readlines] gives it when it is not the last: no line end but
    the final [\n]. *)
Fixpoint terminated_line (l : string) : bool :=
  match l with
  | EmptyString => false
  | String c EmptyString => Ascii.eqb c Py.LF
  | String c l' =>
      negb (Ascii.eqb c Py.LF) && negb (Ascii.eqb c Py.CR) && terminated_line l'
  end.

(** The last line of a file can lack its [\n]. *)
Definition last_line (l : string) : bool :=
  terminated_line l || (negb (l =? "") && one_line l).

(** The lists of lines that [readlines] can give. *)
Fixpoint lines_ok (ls : list string) : bool :=
  match ls with
  | [] => true
  | [l] => last_line l
  | l :: ls' => terminated_line l && lines_ok ls'
  end.

(** A text whose last character, if it has one, is [\n]. *)
Fixpoint lf_terminated (s : string) : bool :=
  match s with
  | EmptyString => true
  | String c EmptyString => Ascii.eqb c Py.LF
  | String _ s' => lf_terminated s'
  end.

Definition no_cr (s : string) : bool :=
  all_chars (fun c => negb (Ascii.eqb c Py.CR)) s.

(** ** Example files and edits *)

(** A file from its lines, each given without its line end. *)
Definition file_of (ls : list string) : file_state :=
  Some (Py.join "" (map (fun l => l ++ nl) ls)).

Definition blank_line_file : file_state :=
  file_of ["# touchpad"; ""; "device touchpad"].

Definition short_gesture_file : file_state :=
  file_of ["gesture swipe up"].

Definition mixed_file : file_state :=
  file_of [ "# comment, preserved";
            "gesture swipe up 3 xdotool key super+Up";
            "gesture pinch in 2 notify-send pinch";
            "device touchpad";
            "device touchpad extra";
            "gesture swipe up 3 xdotool type hello";
            "timeout 5" ].

Definition word_count_file : file_state :=
  file_of ["gesture swipe up three echo hi"].

Definition sideways_file : file_state :=
  file_of ["# comment"; "gesture swipe sideways 3 xdotool key F1"].

Definition two_counts_file : file_state :=
  file_of [ "gesture swipe up" ++ tab ++ "3 xdotool key super+Up";
            "gesture swipe up" ++ tab ++ "4 echo four";
            "# note" ].

(** The edits of a user who picks "Swipe LeftDown" and types a command. *)
Definition left_down_edit : result EditGestures.t :=
  self <- EditGestures.action_chosen "Swipe LeftDown" EditGestures.init ;;
  Ok (EditGestures.command_chosen "echo x" self).

(** A file whose last line has no line end. *)
Definition unterminated_file : file_state := Some "device touchpad".

Definition swipe_up_edit (command : string) : EditGestures.t :=
  EditGestures.command_chosen command EditGestures.init.

(** The file after that edit is saved to an empty file. *)
Definition left_down_file : file_state :=
  match left_down_edit with
  | Ok self =>
      file_after (EditGestures.save_changes false self GesturesApp.empty (Some ""))
  | Raise _ => None
  end.

(** The rows that the main window reads from a file. *)
Definition rows_of (fs : file_state) : GesturesApp.t :=
  snd (GesturesApp.prepare_config_for_displaying fs GesturesApp.empty).

(** The rows that the main window shows for a file, in the order shown. *)
Definition rows_shown (fs : file_state) : GesturesApp.t :=
  snd (fst (GesturesApp.display_config false fs GesturesApp.empty)).

(** A file written by hand, with two spaces before the finger count. *)
Definition wide_file : file_state :=
  file_of ["gesture swipe up  3 echo old"].

(** Two edits for "Swipe Up" with 3 fingers, and [wide_file] after the first
    is saved, and after both are. *)
Definition first_edit : EditGestures.t := swipe_up_edit "echo a".
Definition second_edit : EditGestures.t := swipe_up_edit "echo b".

Definition saved_once : file_state :=
  file_after (EditGestures.save_changes true first_edit GesturesApp.empty wide_file).

Definition saved_twice : file_state :=
  file_after
    (EditGestures.save_changes true second_edit
       (window_after
          (EditGestures.save_changes true first_edit GesturesApp.empty wide_file))
       saved_once).

(** A file whose second [gesture] line stops after the direction. *)
Definition partial_file : file_state :=
  file_of ["gesture swipe up 3 echo a"; "gesture swipe down"].

Definition three_gestures_file : file_state :=
  file_of ["gesture swipe up 3 a"; "gesture pinch in 2 b"; "gesture swipe down 3 c"].

(** ** Round trips through the tables *)

Definition label_round_trip (label : string) : result string :=
  token <- Py.subscript actions_mapping label ;;
  Py.subscript reversed_mapping token.

Definition token_round_trip (token : string) : result string :=
  label <- Py.subscript reversed_mapping token ;;
  Py.subscript actions_mapping label.

Definition returns (r : result string) (v : string) : bool :=
  match r with
  | Ok v' => v' =? v
  | Raise _ => false
  end.

(** ** Vocabulary of the further properties *)

(** The lines that [prepare_config_for_displaying] looks at. *)
Definition starts_gesture (line : string) : bool := Py.startswith line "gesture".

(** The rows that the five lists hold, side by side. *)
Definition rows (self : GesturesApp.t) : list GesturesApp.row :=
  combine (GesturesApp.gestures self)
    (combine (combine (combine (GesturesApp.fingers self)
                               (GesturesApp.shortcuts self))
                      (GesturesApp.buttons self))
             (GesturesApp.actions self)).

(** The five lists have [n] items each. *)
Definition row_count (self : GesturesApp.t) (n : nat) : Prop :=
  List.length (GesturesApp.gestures self) = n
  /\ List.length (GesturesApp.fingers self) = n
  /\ List.length (GesturesApp.shortcuts self) = n
  /\ List.length (GesturesApp.buttons self) = n
  /\ List.length (GesturesApp.actions self) = n.

(** What is known of the rows read so far. *)
Definition rows_read (self : GesturesApp.t) (n : nat) : Prop :=
  row_count self n
  /\ Forall2 (fun button label => Py.get reversed_mapping button = Some label)
       (GesturesApp.buttons self) (GesturesApp.gestures self)
  /\ Forall (fun kind => kind = "shortcut" \/ kind = "command")
       (GesturesApp.actions self).

(** The five strings of an item of [for_sorting], in the order in which they
    are compared, and the comparison of two items. *)
Definition row_list (r : GesturesApp.row) : list string :=
  let '(el, (f, s, b, a)) := r in [el; f; s; b; a].

Definition row_compare (r1 r2 : GesturesApp.row) : comparison :=
  list_compare String.compare (row_list r1) (row_list r2).

(** [<=] on the items of [for_sorting]. *)
Definition row_leb (r1 r2 : GesturesApp.row) : bool :=
  negb (GesturesApp.row_ltb r2 r1).

(** A string without the character [c]. *)
Definition without (c : ascii) (s : string) : bool :=
  all_chars (fun x => negb (Ascii.eqb x c)) s.

(** Files for the further properties. *)
Definition two_lines : list string := ["# note" ++ nl; "device touchpad"].

Definition plain_text : string := "# note" ++ nl ++ "device touchpad".

(** The tests of [delete_entry] and [save_changes] for the lines they keep. *)
Definition not_named (name line : string) : bool :=
  negb (Py.startswith line name).

Definition not_replaced (self : EditGestures.t) (line : string) : bool :=
  negb (replaced_by self line).

(** How a method ends that shows the file [fs] with [display_config] as its
    last step.  It returns exactly when the file it leaves can be read.
    Otherwise it raises [SystemExit], when the repair is declined, or
    [IndexError], from [fix_config], both with the file as it was shown, or
    [KeyError], from reading the file that [fix_config] left. *)
Definition ends_with_display (reply_fix : bool) (fs : file_state)
  (r : result unit * GesturesApp.t * file_state) : Prop :=
  (outcome r = Ok tt <-> readable (file_after r) = true)
  /\ (outcome r = Ok tt \/ outcome r = Raise SystemExit
      \/ outcome r = Raise IndexError \/ outcome r = Raise KeyError)
  /\ (outcome r = Raise SystemExit -> reply_fix = false /\ file_after r = fs)
  /\ (outcome r = Raise IndexError -> reply_fix = true /\ file_after r = fs)
  /\ (outcome r = Raise KeyError ->
      reply_fix = true /\ file_after r = snd (fix_config fs)).

(** The edit of a user who clears the key sequence: "Swipe Up" with 3 fingers
    and no key. *)
Definition empty_key_edit : EditGestures.t :=
  EditGestures.mk "gesture swipe up" 3 "xdotool key ".

(** An edit for "Pinch In" with 2 fingers, and a file it can be saved to. *)
Definition pinch_edit : EditGestures.t :=
  EditGestures.mk "gesture pinch in" 2 "xdotool key ctrl+minus".

Definition pinch_file : file_state :=
  file_of [ "# zoom"; "gesture pinch in 2 echo old"; "gesture pinch out 2 echo out" ].

(** A key name that the key table does not have, case apart. *)
Definition unmapped (qt_key : string) : bool :=
  negb (Py.contains keys_mapping (Py.lower qt_key)).

(** The token of an edit is one of the twelve tokens. *)
Definition known_action (self : EditGestures.t) : Prop :=
  In (EditGestures.action self) (map snd actions_mapping).

(** * Properties *)

(** ** Strings *)

Section StringFacts.

Lemma append_nil_r (s : string) : s ++ "" = s.
Proof. induction s as [|c s IH]; simpl; [reflexivity | now rewrite IH]. Qed.

Lemma append_assoc (s t u : string) : (s ++ t) ++ u = s ++ t ++ u.
Proof. induction s as [|c s IH]; simpl; [reflexivity | now rewrite IH]. Qed.

Lemma append_snoc (w : string) (c : ascii) (s : string) :
  (w ++ String c "") ++ s = w ++ String c s.
Proof. now rewrite append_assoc. Qed.

Lemma append_eq_nil (s t : string) : s ++ t = "" -> s = "" /\ t = "".
Proof. destruct s; simpl; [now split | discriminate]. Qed.

Lemma snoc_not_nil (w : string) (c : ascii) : (w ++ String c "" =? "") = false.
Proof. now destruct w. Qed.

Lemma all_chars_app (p : ascii -> bool) (s t : string) :
  all_chars p (s ++ t) = all_chars p s && all_chars p t.
Proof.
  induction s as [|c s IH]; simpl; [reflexivity|].
  now rewrite IH, andb_assoc.
Qed.

Lemma all_chars_impl (p q : ascii -> bool) (s : string) :
  (forall c, p c = true -> q c = true) ->
  all_chars p s = true -> all_chars q s = true.
Proof.
  intros Hpq; induction s as [|c s IH]; simpl; [reflexivity|].
  intros [Hc Hs]%andb_prop. now rewrite (Hpq _ Hc), IH.
Qed.

Lemma concat_cons (x : string) (xs : list string) :
  Py.join "" (x :: xs) = x ++ Py.join "" xs.
Proof.
  unfold Py.join. destruct xs; simpl; [now rewrite append_nil_r | reflexivity].
Qed.

Lemma concat_app (xs ys : list string) :
  Py.join "" (xs ++ ys)%list = Py.join "" xs ++ Py.join "" ys.
Proof.
  induction xs as [|x xs IH]; [reflexivity|].
  change ((x :: xs) ++ ys)%list with (x :: (xs ++ ys))%list.
  now rewrite !concat_cons, IH, append_assoc.
Qed.

Lemma join_chars (s : string) : Py.join "" (chars s) = s.
Proof.
  induction s as [|c s IH]; [reflexivity|].
  simpl chars. now rewrite concat_cons, IH.
Qed.

Lemma replace_app (a b : ascii) (s t : string) :
  Py.replace a b (s ++ t) = Py.replace a b s ++ Py.replace a b t.
Proof. induction s as [|c s IH]; simpl; [reflexivity | now rewrite IH]. Qed.

Lemma replace_absent (a b : ascii) (s : string) :
  all_chars (fun c => negb (Ascii.eqb c a)) s = true -> Py.replace a b s = s.
Proof.
  induction s as [|c s IH]; simpl; [reflexivity|].
  intros [Hc Hs]%andb_prop. apply negb_true_iff in Hc. now rewrite Hc, IH.
Qed.

Lemma startswith_app (p s : string) : Py.startswith (p ++ s) p = true.
Proof.
  unfold Py.startswith. induction p as [|c p IH]; simpl.
  - now destruct s.
  - destruct (ascii_dec c c); [exact IH | congruence].
Qed.

Lemma startswith_cons (c d : ascii) (s p : string) :
  Py.startswith (String c s) (String d p) = Ascii.eqb d c && Py.startswith s p.
Proof.
  unfold Py.startswith; simpl.
  destruct (Ascii.eqb_spec d c) as [->|Hne].
  - now destruct (ascii_dec c c).
  - now destruct (ascii_dec d c).
Qed.

End StringFacts.

(** ** Tokens *)

Section SplitFacts.

Lemma split_from_space (w : string) (c : ascii) (s : string) :
  Py.isspace c = true ->
  Py.split_from w (String c s)
  = ((if w =? "" then [] else [w]) ++ Py.split_from "" s)%list.
Proof. intros Hc; simpl; rewrite Hc; now destruct (w =? ""). Qed.

Lemma split_from_app (w a : string) (c : ascii) (b : string) :
  Py.isspace c = true ->
  Py.split_from w (a ++ String c b)
  = (Py.split_from w a ++ Py.split_from "" b)%list.
Proof.
  intros Hc; revert w; induction a as [|x a IH]; intros w.
  - simpl append. rewrite split_from_space by assumption. reflexivity.
  - simpl. destruct (Py.isspace x).
    + destruct (w =? ""); rewrite IH; reflexivity.
    + apply IH.
Qed.

Lemma split_from_word (w u s : string) :
  all_chars (fun c => negb (Py.isspace c)) u = true ->
  Py.split_from w (u ++ s) = Py.split_from (w ++ u) s.
Proof.
  revert w; induction u as [|x u IH]; intros w; simpl.
  - now rewrite append_nil_r.
  - intros [Hx Hu]%andb_prop. apply negb_true_iff in Hx. rewrite Hx.
    rewrite IH by assumption. now rewrite append_snoc.
Qed.

Lemma split_word (u : string) : is_word u = true -> Py.split u = [u].
Proof.
  unfold is_word, Py.split. intros [Hne Hu]%andb_prop.
  rewrite <- (append_nil_r u) at 1. rewrite split_from_word by assumption.
  simpl. apply negb_true_iff in Hne. now rewrite Hne.
Qed.

Lemma split_app (a : string) (c : ascii) (b : string) :
  Py.isspace c = true ->
  Py.split (a ++ String c b) = (Py.split a ++ Py.split b)%list.
Proof. apply split_from_app. Qed.

Lemma split_from_replace (w s : string) :
  Py.split_from w (Py.replace Py.TAB Py.SPACE s) = Py.split_from w s.
Proof.
  revert w; induction s as [|x s IH]; intros w; simpl; [reflexivity|].
  destruct (Ascii.eqb_spec x Py.TAB) as [->|_].
  - change (Py.isspace Py.SPACE) with true. change (Py.isspace Py.TAB) with true.
    destruct (w =? ""); now rewrite IH.
  - destruct (Py.isspace x); [destruct (w =? "")|]; now rewrite IH.
Qed.

Lemma tokens_split (line : string) : tokens line = Py.split line.
Proof. apply split_from_replace. Qed.

Lemma tokens_app (a : string) (c : ascii) (b : string) :
  Py.isspace c = true -> tokens (a ++ String c b) = (tokens a ++ tokens b)%list.
Proof. intros Hc. rewrite !tokens_split. now apply split_app. Qed.

Lemma tokens_word (u : string) : is_word u = true -> tokens u = [u].
Proof. rewrite tokens_split. apply split_word. Qed.

Lemma tokens_newline (a : string) : tokens (a ++ nl) = tokens a.
Proof.
  unfold nl. rewrite tokens_app by reflexivity.
  change (tokens "") with (@nil string). apply app_nil_r.
Qed.

Lemma join_space_cons (x y : string) (ys : list string) :
  Py.join " " (x :: y :: ys) = x ++ String Py.SPACE (Py.join " " (y :: ys)).
Proof. reflexivity. Qed.

Lemma tokens_join (ws : list string) :
  Forall (fun w => is_word w = true) ws -> tokens (Py.join " " ws) = ws.
Proof.
  induction 1 as [|x ws Hx Hws IH]; [reflexivity|].
  destruct ws as [|y ys].
  - now apply tokens_word.
  - rewrite join_space_cons, tokens_app by reflexivity.
    now rewrite IH, tokens_word.
Qed.

End SplitFacts.

(** ** Lines of the file *)

Section LineFacts.

Lemma terminated_line_cons (c : ascii) (l : string) :
  l <> "" ->
  terminated_line (String c l)
  = negb (Ascii.eqb c Py.LF) && negb (Ascii.eqb c Py.CR) && terminated_line l.
Proof. destruct l; [congruence | reflexivity]. Qed.

Lemma terminated_line_snoc (w : string) :
  one_line w = true -> terminated_line (w ++ nl) = true.
Proof.
  induction w as [|c w IH]; [reflexivity|].
  simpl one_line. intros [Hc Hw]%andb_prop.
  change (String c w ++ nl) with (String c (w ++ nl)).
  rewrite terminated_line_cons by (destruct w; discriminate).
  now rewrite Hc, IH.
Qed.

Lemma terminated_line_no_cr (l : string) :
  terminated_line l = true -> no_cr l = true.
Proof.
  induction l as [|c l IH]; [discriminate|].
  destruct l as [|d l].
  - simpl. intros ->%Ascii.eqb_eq. reflexivity.
  - rewrite terminated_line_cons by discriminate.
    intros [[_ Hc]%andb_prop Hl]%andb_prop.
    unfold no_cr in *. simpl all_chars in *. rewrite Hc. now apply IH.
Qed.

Lemma one_line_no_cr (l : string) : one_line l = true -> no_cr l = true.
Proof.
  apply all_chars_impl. now intros c [_ H]%andb_prop.
Qed.

(** Reading up to the end of a terminated line gives that line. *)
Lemma lines_from_terminated (l w rest : string) :
  terminated_line l = true ->
  Py.lines_from w (l ++ rest) = (w ++ l) :: Py.lines_from "" rest.
Proof.
  revert w; induction l as [|c l IH]; intros w; [discriminate|].
  destruct l as [|d l].
  - simpl. intros ->%Ascii.eqb_eq. reflexivity.
  - rewrite terminated_line_cons by discriminate.
    intros [[Hc _]%andb_prop Hl]%andb_prop. apply negb_true_iff in Hc.
    change (String c (String d l) ++ rest) with (String c (String d l ++ rest)).
    cbn [Py.lines_from]. rewrite Hc, IH by assumption.
    now rewrite append_snoc.
Qed.

Lemma lines_from_one_line (l w : string) :
  one_line l = true ->
  Py.lines_from w l = if w ++ l =? "" then [] else [w ++ l].
Proof.
  revert w; induction l as [|c l IH]; intros w.
  - simpl. now rewrite append_nil_r.
  - simpl one_line. intros [[Hc _]%andb_prop Hl]%andb_prop.
    apply negb_true_iff in Hc. simpl. rewrite Hc, IH by assumption.
    now rewrite append_snoc.
Qed.

Lemma universal_newlines_no_cr (s : string) :
  no_cr s = true -> Py.universal_newlines false s = s.
Proof.
  unfold no_cr. induction s as [|c s IH]; [reflexivity|].
  simpl. intros [Hc Hs]%andb_prop. apply negb_true_iff in Hc. rewrite Hc.
  destruct (Ascii.eqb_spec c Py.LF) as [->|_]; now rewrite IH.
Qed.

Lemma no_cr_universal_newlines (b : bool) (s : string) :
  no_cr (Py.universal_newlines b s) = true.
Proof.
  unfold no_cr. revert b; induction s as [|c s IH]; intros b; [reflexivity|].
  simpl. destruct (Ascii.eqb_spec c Py.CR) as [->|Hcr].
  - simpl. apply IH.
  - destruct (Ascii.eqb_spec c Py.LF) as [->|Hlf].
    + destruct b; simpl; apply IH.
    + simpl. rewrite IH. apply Ascii.eqb_neq in Hcr. now rewrite Hcr.
Qed.

Lemma no_cr_app (s t : string) : no_cr (s ++ t) = no_cr s && no_cr t.
Proof. apply all_chars_app. Qed.

Lemma lines_ok_no_cr (ls : list string) :
  lines_ok ls = true -> no_cr (Py.join "" ls) = true.
Proof.
  induction ls as [|l ls IH]; [reflexivity|].
  rewrite concat_cons, no_cr_app. destruct ls as [|l' ls].
  - simpl lines_ok. unfold last_line. intros [H|[_ H]%andb_prop]%orb_prop.
    + now rewrite terminated_line_no_cr.
    + now rewrite one_line_no_cr.
  - intros [Hl Hls]%andb_prop. now rewrite terminated_line_no_cr, IH.
Qed.

Lemma lines_from_join (ls : list string) :
  lines_ok ls = true -> Py.lines_from "" (Py.join "" ls) = ls.
Proof.
  induction ls as [|l ls IH]; [reflexivity|].
  rewrite concat_cons. destruct ls as [|l' ls].
  - simpl lines_ok. unfold last_line. intros [H|[Hne H]%andb_prop]%orb_prop.
    + now rewrite lines_from_terminated.
    + change (Py.join "" []) with "". rewrite append_nil_r.
      rewrite lines_from_one_line by assumption. simpl.
      apply negb_true_iff in Hne. now rewrite Hne.
  - intros [Hl Hls]%andb_prop.
    rewrite lines_from_terminated by assumption. now rewrite IH.
Qed.

(** Writing lines that were read, or some of them, and reading again gives
    the same lines. *)
Lemma readlines_join (ls : list string) :
  lines_ok ls = true -> Py.readlines (Py.join "" ls) = ls.
Proof.
  intros H. unfold Py.readlines.
  rewrite universal_newlines_no_cr by now apply lines_ok_no_cr.
  now apply lines_from_join.
Qed.

Lemma lines_ok_cons (l : string) (ls : list string) :
  terminated_line l = true -> lines_ok ls = true -> lines_ok (l :: ls) = true.
Proof.
  intros Hl Hls. destruct ls; simpl.
  - unfold last_line. now rewrite Hl.
  - simpl in Hls. now rewrite Hl, Hls.
Qed.

Lemma lines_ok_tail (l : string) (ls : list string) :
  lines_ok (l :: ls) = true -> lines_ok ls = true.
Proof. destruct ls; [reflexivity|]. now intros [_ H]%andb_prop. Qed.

Lemma lines_ok_filter (p : string -> bool) (ls : list string) :
  lines_ok ls = true -> lines_ok (filter p ls) = true.
Proof.
  induction ls as [|l ls IH]; [reflexivity|].
  intros H. pose proof (lines_ok_tail _ _ H) as Ht.
  cbn [filter]. destruct (p l); [|now apply IH].
  destruct ls as [|l' ls]; [exact H|].
  apply andb_prop in H as [Hl _]. apply lines_ok_cons; [exact Hl | now apply IH].
Qed.

Lemma lines_ok_lines_from (s w : string) :
  no_cr s = true -> one_line w = true -> lines_ok (Py.lines_from w s) = true.
Proof.
  unfold no_cr. revert w; induction s as [|c s IH]; intros w.
  - intros _ Hw. simpl. destruct (w =? "") eqn:E; [reflexivity|].
    simpl. unfold last_line. now rewrite E, Hw, orb_true_r.
  - simpl all_chars. intros [Hc Hs]%andb_prop Hw. simpl.
    destruct (Ascii.eqb_spec c Py.LF) as [->|Hlf].
    + apply lines_ok_cons; [now apply terminated_line_snoc | now apply IH].
    + apply IH; [assumption|].
      unfold one_line. rewrite all_chars_app. fold (one_line w). rewrite Hw.
      simpl. apply Ascii.eqb_neq in Hlf. now rewrite Hlf, Hc.
Qed.

Lemma lines_ok_readlines (content : string) :
  lines_ok (Py.readlines content) = true.
Proof.
  apply lines_ok_lines_from; [apply no_cr_universal_newlines | reflexivity].
Qed.

Lemma lines_ok_read_config (fs : file_state) : lines_ok (read_config fs) = true.
Proof. destruct fs; [apply lines_ok_readlines | reflexivity]. Qed.

End LineFacts.

(** ** [fix_config] line by line *)

Section FixFacts.

Local Arguments String.eqb : simpl never.
Local Arguments Py.startswith : simpl never.
Local Arguments tokens : simpl never.

Lemma fix_line_keeps (line : string) (acc : list string) :
  fix_line line acc
  = (b <- keeps line ;; Ok (if b : bool then (acc ++ [line])%list else acc)).
Proof.
  unfold keeps, fix_line, bind. fold (tokens line).
  destruct (Py.startswith line "#"); [reflexivity|].
  destruct (Py.getitem (tokens line) 0) as [first|e]; [|reflexivity].
  destruct (Py.mem first _); [|reflexivity].
  destruct (first =? "gesture").
  - destruct (Py.getitem (tokens line) 4) as [fifth|e]; [|reflexivity].
    destruct (fifth =? "xdotool"); [|reflexivity].
    destruct (Py.getitem (tokens line) 5) as [sixth|e]; [|reflexivity].
    now destruct ((sixth =? "key") && _).
  - now destruct (_ =? 2)%nat.
Qed.

Lemma getitem_raises {A : Type} (l : list A) (i : nat) (e : exn) :
  Py.getitem l i = Raise e -> e = IndexError.
Proof. unfold Py.getitem. destruct (nth_error l i); congruence. Qed.

(** [fix_config] raises nothing but [IndexError]. *)
Lemma keeps_raises (line : string) (e : exn) :
  keeps line = Raise e -> e = IndexError.
Proof.
  unfold keeps, fix_line, bind. fold (tokens line).
  destruct (Py.startswith line "#"); [discriminate|].
  destruct (Py.getitem (tokens line) 0) as [first|e0] eqn:E0;
    [|intros [= <-]; now apply getitem_raises in E0].
  destruct (Py.mem first _); [|discriminate].
  destruct (first =? "gesture").
  - destruct (Py.getitem (tokens line) 4) as [fifth|e4] eqn:E4;
      [|intros [= <-]; now apply getitem_raises in E4].
    destruct (fifth =? "xdotool"); [|discriminate].
    destruct (Py.getitem (tokens line) 5) as [sixth|e5] eqn:E5;
      [|intros [= <-]; now apply getitem_raises in E5].
    now destruct ((sixth =? "key") && _).
  - now destruct (_ =? 2)%nat.
Qed.

Lemma mem_gesture (first : string) :
  (first =? "gesture") = true ->
  Py.mem first ["gesture"; "device"; "swipe_threshold"] = true.
Proof. intros H. unfold Py.mem. simpl. now rewrite H. Qed.

Lemma mem_directive (first : string) :
  (first =? "gesture") = false ->
  Py.mem first ["gesture"; "device"; "swipe_threshold"]
  = Py.mem first ["device"; "swipe_threshold"].
Proof. intros H. unfold Py.mem. simpl. now rewrite H. Qed.

(** The lines on which [fix_config] raises are those of [out_of_range]. *)
Lemma keeps_out_of_range (line : string) :
  out_of_range line = true <-> keeps line = Raise IndexError.
Proof.
  unfold out_of_range, keeps, fix_line, bind. fold (tokens line).
  destruct (Py.startswith line "#"); [simpl; split; discriminate|].
  destruct (tokens line) as [|first rest] eqn:Et; [simpl; tauto|].
  change (Py.getitem (first :: rest) 0) with (Ok first).
  cbn [negb andb]. destruct (first =? "gesture") eqn:Eg.
  - rewrite mem_gesture by assumption. cbn [andb]. unfold Py.getitem.
    destruct (nth_error (first :: rest) 4) as [fifth|] eqn:E4; [|tauto].
    destruct (fifth =? "xdotool"); [|split; discriminate].
    destruct rest as [|t1 [|t2 [|t3 [|t4 [|t5 rest]]]]];
      try discriminate E4; cbn; [tauto|].
    now destruct ((t5 =? "key") && _).
  - cbn [andb]. destruct (Py.mem first _); [|split; discriminate].
    now destruct (_ =? 2)%nat.
Qed.

Lemma keeps_in_range (line : string) :
  out_of_range line = false -> keeps line = Ok (kept line).
Proof.
  intros H. unfold kept. destruct (keeps line) as [b|e] eqn:E; [reflexivity|].
  pose proof (keeps_raises _ _ E) as ->.
  apply keeps_out_of_range in E. congruence.
Qed.

Lemma kept_keeps (line : string) : kept line = true -> keeps line = Ok true.
Proof. unfold kept. destruct (keeps line) as [[|]|]; congruence. Qed.

(** The loop of [fix_config] is a filter when no line is out of range... *)
Lemma fix_loop_in_range (conf acc : list string) :
  forallb (fun l => negb (out_of_range l)) conf = true ->
  fix_loop conf acc = Ok (acc ++ filter kept conf)%list.
Proof.
  revert acc; induction conf as [|l conf IH]; intros acc.
  - intros _. simpl. now rewrite app_nil_r.
  - cbn [forallb]. intros [Hl Hconf]%andb_prop. apply negb_true_iff in Hl.
    cbn [fix_loop filter]. rewrite fix_line_keeps, keeps_in_range by assumption.
    cbn [bind]. destruct (kept l).
    + rewrite IH by assumption. now rewrite <- app_assoc.
    + now apply IH.
Qed.

(** ... and raises [IndexError] when one is. *)
Lemma fix_loop_out_of_range (conf acc : list string) :
  existsb out_of_range conf = true -> fix_loop conf acc = Raise IndexError.
Proof.
  revert acc; induction conf as [|l conf IH]; intros acc; [discriminate|].
  cbn [existsb fix_loop]. rewrite fix_line_keeps.
  destruct (out_of_range l) eqn:El.
  - intros _. apply keeps_out_of_range in El. now rewrite El.
  - cbn [orb]. intros H. rewrite keeps_in_range by assumption. cbn [bind].
    now apply IH.
Qed.

Lemma existsb_forallb_negb {A : Type} (p : A -> bool) (l : list A) :
  existsb p l = negb (forallb (fun a => negb (p a)) l).
Proof.
  induction l as [|a l IH]; [reflexivity|].
  cbn [existsb forallb]. rewrite IH. now destruct (p a).
Qed.

Lemma filter_kept_again (conf : list string) :
  forallb (fun l => negb (out_of_range l)) (filter kept conf) = true
  /\ filter kept (filter kept conf) = filter kept conf.
Proof.
  induction conf as [|l conf [IH1 IH2]]; [now split|].
  cbn [filter]. destruct (kept l) eqn:El; [|now split].
  cbn [forallb filter]. rewrite El, IH1, IH2. split; [|reflexivity].
  destruct (out_of_range l) eqn:Eo; [|reflexivity].
  apply keeps_out_of_range in Eo. apply kept_keeps in El. congruence.
Qed.

End FixFacts.

(** ** The Repair Procedure *)

Section Repair.

Local Arguments String.eqb : simpl never.
Local Arguments Py.startswith : simpl never.
Local Arguments tokens : simpl never.

Lemma line_ok_weaken (line : string) :
  line_ok true line = true -> line_ok false line = true.
Proof.
  unfold line_ok. destruct (Py.startswith line "#"); [reflexivity|].
  cbn [orb negb]. destruct (tokens line) as [|first rest]; [discriminate|].
  destruct (Py.mem first _); [trivial|].
  destruct (first =? "gesture"); [|discriminate].
  destruct rest as [|b [|c rest]]; try discriminate.
  now intros [_ H]%andb_prop.
Qed.

(** What [fix_config] keeps, in terms of the tokens of the line. *)
Lemma kept_line_ok (line : string) : kept line = line_ok false line.
Proof.
  unfold kept, keeps, fix_line, line_ok, action_form_ok, bind.
  fold (tokens line).
  destruct (Py.startswith line "#"); [reflexivity|].
  destruct (tokens line) as [|first rest] eqn:Et; [reflexivity|].
  change (Py.getitem (first :: rest) 0) with (Ok first).
  cbn [orb negb]. destruct (first =? "gesture") eqn:Eg.
  - rewrite mem_gesture by assumption.
    assert (Py.mem first ["device"; "swipe_threshold"] = false) as ->.
    { apply String.eqb_eq in Eg. now subst first. }
    unfold Py.getitem.
    destruct rest as [|t1 [|t2 [|t3 [|t4 rest]]]]; try reflexivity.
    cbn [nth_error]. destruct (t4 =? "xdotool"); [|reflexivity].
    destruct rest as [|t5 rest]; [reflexivity|].
    cbn [nth_error]. now destruct ((t5 =? "key") && _).
  - rewrite mem_directive by assumption.
    destruct (Py.mem first _); [|reflexivity].
    now destruct (_ =? 2)%nat.
Qed.

Lemma line_ok_in_range (line : string) :
  line_ok false line = true -> out_of_range line = false.
Proof.
  rewrite <- kept_line_ok. intros H%kept_keeps.
  destruct (out_of_range line) eqn:E; [|reflexivity].
  apply keeps_out_of_range in E. congruence.
Qed.

Lemma fix_config_in_range (fs : file_state) :
  forallb (fun l => negb (out_of_range l)) (read_config fs) = true ->
  fix_config fs = (Ok tt, write_config (filter kept (read_config fs))).
Proof.
  intros H. unfold fix_config. rewrite fix_loop_in_range by assumption.
  cbn [app]. unfold write_config. now rewrite join_chars.
Qed.

Lemma fix_config_out_of_range (fs : file_state) :
  existsb out_of_range (read_config fs) = true ->
  fix_config fs = (Raise IndexError, fs).
Proof.
  intros H. unfold fix_config. now rewrite fix_loop_out_of_range.
Qed.

Lemma read_write_filter (p : string -> bool) (fs : file_state) :
  read_config (write_config (filter p (read_config fs)))
  = filter p (read_config fs).
Proof.
  unfold write_config. cbn [read_config]. apply readlines_join.
  apply lines_ok_filter, lines_ok_read_config.
Qed.

End Repair.

(** C3, as it holds of the code.  On a file with no line out of range,
    [fix_config] returns and leaves in the file a subsequence of its lines: the
    lines that pass a test [keep].  Every comment, every directive of two
    tokens and every [gesture] line with a known gesture and an action that is
    not [xdotool], or is [xdotool key <combo>] with seven tokens in all, passes
    it; a line that passes is a comment, a directive of two tokens or a
    [gesture] line with such an action.  The finger count is not looked at. *)
Theorem fix_config_keeps_well_formed (fs : file_state) :
  forallb (fun l => negb (out_of_range l)) (read_config fs) = true ->
  exists keep : string -> bool,
    fix_config fs = (Ok tt, write_config (filter keep (read_config fs)))
    /\ read_config (snd (fix_config fs)) = filter keep (read_config fs)
    /\ (forall l, line_ok true l = true -> keep l = true)
    /\ (forall l, keep l = true -> line_ok false l = true).
Proof.
  intros H. exists kept.
  rewrite (fix_config_in_range fs H). cbn [snd].
  split; [reflexivity|]. split; [apply read_write_filter|].
  split; intros l Hl.
  - rewrite kept_line_ok. now apply line_ok_weaken.
  - now rewrite <- kept_line_ok.
Qed.

(** C3 at [mixed_file]. *)
Lemma fix_config_keeps_well_formed_witness :
  forallb (fun l => negb (out_of_range l)) (read_config mixed_file) = true
  /\ exists keep : string -> bool,
       fix_config mixed_file
       = (Ok tt, write_config (filter keep (read_config mixed_file)))
       /\ read_config (snd (fix_config mixed_file))
          = filter keep (read_config mixed_file)
       /\ (forall l, line_ok true l = true -> keep l = true)
       /\ (forall l, keep l = true -> line_ok false l = true).
Proof.
  split; [reflexivity|].
  apply (fix_config_keeps_well_formed mixed_file). reflexivity.
Defined.

(** C3 in the words of the specification does not hold: a [gesture] line whose
    finger count is the word [three] is not well formed for the Line Grammar,
    and [fix_config] keeps it. *)
Lemma fix_config_keeps_word_count :
  Grammar.well_formed ("gesture swipe up three echo hi" ++ nl) = false
  /\ read_config (snd (fix_config word_count_file))
     = ["gesture swipe up three echo hi" ++ nl]
  /\ read_config (snd (fix_config word_count_file))
     <> filter Grammar.well_formed (read_config word_count_file).
Proof. vm_compute. repeat split. discriminate. Qed.

(** C9.  Running [fix_config] a second time gives the outcome of the first
    run and leaves the file as the first run left it. *)
Theorem fix_config_idempotent (fs : file_state) :
  fix_config (snd (fix_config fs)) = fix_config fs.
Proof.
  destruct (existsb out_of_range (read_config fs)) eqn:E.
  - rewrite (fix_config_out_of_range fs E). cbn [snd].
    now apply fix_config_out_of_range.
  - rewrite existsb_forallb_negb in E. apply negb_false_iff in E.
    rewrite (fix_config_in_range fs E). cbn [snd].
    destruct (filter_kept_again (read_config fs)) as [Hr Hf].
    rewrite fix_config_in_range; rewrite read_write_filter; [|exact Hr].
    now rewrite Hf.
Qed.

(** C10.  [fix_config] is partial: a line that is no comment and has no
    token, or whose first token is [gesture] with fewer than five tokens in
    all, makes it raise [IndexError]; no line is dropped and the file is not
    written. *)
Theorem fix_config_raises_index_error (fs : file_state) (line : string) :
  In line (read_config fs) ->
  is_comment line = false ->
  (tokens line = []
   \/ exists rest, tokens line = "gesture" :: rest /\ List.length rest < 4) ->
  fix_config fs = (Raise IndexError, fs).
Proof.
  intros Hin Hc Ht. apply fix_config_out_of_range.
  apply existsb_exists. exists line. split; [exact Hin|].
  unfold out_of_range. unfold is_comment in Hc. rewrite Hc. cbn [negb andb].
  destruct Ht as [->|(rest & -> & Hlen)]; [reflexivity|].
  destruct rest as [|t1 [|t2 [|t3 [|t4 rest]]]]; try reflexivity.
  simpl in Hlen. lia.
Qed.

(** C10 at a file with a blank line and at a file with a [gesture] line of
    three tokens. *)
Lemma fix_config_raises_index_error_witness :
  fix_config blank_line_file = (Raise IndexError, blank_line_file)
  /\ fix_config short_gesture_file = (Raise IndexError, short_gesture_file).
Proof.
  split.
  - apply (fix_config_raises_index_error blank_line_file nl).
    + vm_compute. tauto.
    + reflexivity.
    + left. reflexivity.
  - apply (fix_config_raises_index_error short_gesture_file
             ("gesture swipe up" ++ nl)).
    + vm_compute. tauto.
    + reflexivity.
    + right. exists ["swipe"; "up"]. split; [reflexivity | simpl; lia].
Defined.

(** ** The translation tables *)

(** C1 does not hold of the code.  [actions_mapping] writes the token of
    "Swipe LeftDown" with two spaces, [reversed_mapping] has it with one: the
    label is the only one of the twelve that does not come back, and the
    token [gesture swipe left_down] the only one. *)
Theorem left_down_does_not_round_trip :
  Py.subscript actions_mapping "Swipe LeftDown" = Ok "gesture swipe  left_down"
  /\ label_round_trip "Swipe LeftDown" = Raise KeyError
  /\ token_round_trip "gesture swipe left_down" = Ok "gesture swipe  left_down"
  /\ filter (fun label => negb (returns (label_round_trip label) label))
       (Py.keys actions_mapping) = ["Swipe LeftDown"]
  /\ filter (fun token => negb (returns (token_round_trip token) token))
       (Py.keys reversed_mapping) = ["gesture swipe left_down"].
Proof. repeat split; reflexivity. Qed.

(** ** The key translator *)

Lemma find_key_combo_loop_map (qt_keys acc : list string) :
  find_key_combo_loop qt_keys acc = (acc ++ map spec_key qt_keys)%list.
Proof.
  revert acc; induction qt_keys as [|k ks IH]; intros acc;
    cbn [find_key_combo_loop map].
  - now rewrite app_nil_r.
  - unfold spec_key at 1.
    destruct (Py.get keys_mapping (Py.lower k)); rewrite IH, <- app_assoc;
      reflexivity.
Qed.

Lemma split_on_from_not_nil (sep : ascii) (w s : string) :
  Py.split_on_from sep w s <> [].
Proof.
  revert w; induction s as [|c s IH]; intros w; simpl; [discriminate|].
  destruct (Ascii.eqb c sep); [discriminate | apply IH].
Qed.

(** The pieces of [s.split(sep)], joined with [sep], are [s]. *)
Lemma join_split_on_from (sep : ascii) (w s : string) :
  Py.join (String sep "") (Py.split_on_from sep w s) = w ++ s.
Proof.
  revert w; induction s as [|c s IH]; intros w; simpl.
  - now rewrite append_nil_r.
  - destruct (Ascii.eqb_spec c sep) as [->|_].
    + pose proof (split_on_from_not_nil sep "" s) as Hne.
      specialize (IH ""). unfold Py.join in *.
      destruct (Py.split_on_from sep "" s) as [|p ps]; [congruence|].
      cbn [String.concat]. cbn [String.concat] in IH. now rewrite IH.
    + now rewrite IH, append_snoc.
Qed.

Lemma join_split_on (sep : ascii) (s : string) :
  Py.join (String sep "") (Py.split_on sep s) = s.
Proof. apply (join_split_on_from sep "" s). Qed.

(** C8.  [find_key_combo] splits the chord on [+], lower-cases each key name,
    replaces it by its daemon key name when the table has one, and joins the
    results with [+]; the empty chord gives the empty chord. *)
Theorem find_key_combo_spec :
  (forall chord, find_key_combo chord = spec_key_combo chord)
  /\ find_key_combo "" = ""
  /\ find_key_combo "Meta+PgDown" = "super+Page_Down"
  /\ find_key_combo "Ctrl+A" = "ctrl+a".
Proof.
  split; [|repeat split; reflexivity].
  intros chord. unfold find_key_combo, spec_key_combo.
  now rewrite find_key_combo_loop_map.
Qed.

(** ** Deleting and saving *)

(** C4 does not hold of the code.  The Delete button of a row carries the
    gesture token without the finger count, so deleting the row of three
    fingers removes the row of four fingers as well.  And the row of a line
    saved for "Swipe LeftDown" carries the token with one space, which that
    line, written with two, does not start with: deleting it removes nothing.
    In both cases the [display_config] at the end of [delete_entry] reads the
    file that was written and leaves it, whatever the answer to "Fix it?"
    would be. *)
Theorem delete_entry_ignores_finger_count (reply_fix : bool)
  (self : GesturesApp.t) :
  GesturesApp.fingers (rows_shown two_counts_file) = ["3"; "4"]
  /\ GesturesApp.delete_button_name (rows_shown two_counts_file) 0
     = Ok "gesture swipe up"
  /\ read_config
       (file_after
          (GesturesApp.delete_entry "gesture swipe up" true reply_fix
             two_counts_file self))
     = ["# note" ++ nl]
  /\ GesturesApp.delete_entry "gesture swipe up" true reply_fix
       two_counts_file self
     = ((Ok tt, GesturesApp.empty), file_of ["# note"])
  /\ left_down_file = file_of ["gesture swipe  left_down" ++ tab ++ "3 echo x"]
  /\ GesturesApp.delete_button_name (rows_shown left_down_file) 0
     = Ok "gesture swipe left_down"
  /\ file_after
       (GesturesApp.delete_entry "gesture swipe left_down" true reply_fix
          left_down_file self)
     = left_down_file
  /\ GesturesApp.delete_entry "gesture swipe left_down" true reply_fix
       left_down_file self
     = ((Ok tt, rows_shown left_down_file), left_down_file).
Proof. repeat split; reflexivity. Qed.

(** C7 does not hold of the code.  When the last line of the file has no line
    end, [save_changes] writes the new line right after it: the directive that
    was the last line is no line of the file any more.  The [display_config]
    at the end of [save_changes] reads the file that was written and leaves
    it. *)
Theorem save_changes_merges_last_line (reply_fix : bool) (parent : GesturesApp.t) :
  read_config unterminated_file = ["device touchpad"]
  /\ is_directive "device touchpad" = true
  /\ read_config
       (file_after
          (EditGestures.save_changes reply_fix (swipe_up_edit "echo hi") parent
             unterminated_file))
     = ["device touchpadgesture swipe up" ++ tab ++ "3 echo hi" ++ nl]
  /\ ~ In "device touchpad"
         (read_config
            (file_after
               (EditGestures.save_changes reply_fix (swipe_up_edit "echo hi") parent
                  unterminated_file)))
  /\ outcome
       (EditGestures.save_changes reply_fix (swipe_up_edit "echo hi") parent
          unterminated_file)
     = Ok tt.
Proof.
  repeat split; try reflexivity.
  vm_compute. intros [H|[]]. discriminate H.
Qed.

Section SaveFacts.

Local Arguments String.eqb : simpl never.
Local Arguments Py.startswith : simpl never.

Lemma digit_plain (c : ascii) :
  Grammar.is_digit c = true ->
  Py.isspace c = false
  /\ Ascii.eqb c Py.TAB = false
  /\ Ascii.eqb c Py.LF = false
  /\ Ascii.eqb c Py.CR = false.
Proof.
  destruct c as [[] [] [] [] [] [] [] []]; vm_compute;
    first [discriminate | repeat split].
Qed.

Lemma string_of_uint_digits (d : Decimal.uint) :
  all_chars Grammar.is_digit (NilEmpty.string_of_uint d) = true.
Proof. induction d; simpl; auto. Qed.

Lemma str_digits (n : N) : all_chars Grammar.is_digit (Py.str n) = true.
Proof. apply string_of_uint_digits. Qed.

Lemma str_not_empty (n : N) : (Py.str n =? "") = false.
Proof.
  unfold Py.str. assert (N.to_uint n <> Decimal.Nil) as H.
  { destruct n; [discriminate | apply Unsigned.to_uint_nonnil]. }
  destruct (N.to_uint n); [congruence | reflexivity ..].
Qed.

Lemma str_is_word (n : N) : is_word (Py.str n) = true.
Proof.
  unfold is_word. rewrite str_not_empty. cbn [negb andb].
  apply (all_chars_impl Grammar.is_digit); [|apply str_digits].
  intros c Hc. apply digit_plain in Hc as (-> & _). reflexivity.
Qed.

Lemma str_one_line (n : N) : one_line (Py.str n) = true.
Proof.
  apply (all_chars_impl Grammar.is_digit); [|apply str_digits].
  intros c Hc. apply digit_plain in Hc as (_ & _ & -> & ->). reflexivity.
Qed.

Lemma str_no_tab (n : N) : Py.replace Py.TAB Py.SPACE (Py.str n) = Py.str n.
Proof.
  apply replace_absent.
  apply (all_chars_impl Grammar.is_digit); [|apply str_digits].
  intros c Hc. apply digit_plain in Hc as (_ & -> & _). reflexivity.
Qed.

(** The tokens of [actions_mapping] have neither tab nor line end. *)
Lemma action_plain (action : string) :
  In action (map snd actions_mapping) ->
  one_line action = true /\ Py.replace Py.TAB Py.SPACE action = action.
Proof.
  cbn [map snd actions_mapping In].
  intros H; repeat destruct H as [<-|H]; try (split; reflexivity).
  destruct H.
Qed.

Lemma save_loop_filter (self : EditGestures.t) (conf acc : list string) :
  EditGestures.save_loop self conf acc
  = (acc ++ filter (fun l => negb (replaced_by self l)) conf)%list.
Proof.
  revert acc; induction conf as [|l conf IH]; intros acc;
    cbn [EditGestures.save_loop filter].
  - now rewrite app_nil_r.
  - fold (replaced_by self l). destruct (replaced_by self l); cbn [negb].
    + apply IH.
    + rewrite IH. now rewrite <- app_assoc.
Qed.

Lemma written_content (self : EditGestures.t) (fs : file_state) :
  written self fs
  = Some (Py.join "" (filter (fun l => negb (replaced_by self l)) (read_config fs))
          ++ EditGestures.new_line self).
Proof.
  unfold written. rewrite save_loop_filter. cbn [app]. unfold write_config.
  rewrite concat_app. reflexivity.
Qed.

(** The new line starts with the prefix it is looked up by. *)
Lemma new_line_replaced (self : EditGestures.t) :
  In (EditGestures.action self) (map snd actions_mapping) ->
  replaced_by self (EditGestures.new_line self) = true.
Proof.
  intros [_ Ha]%action_plain.
  unfold replaced_by, EditGestures.new_line, EditGestures.line_prefix.
  rewrite !replace_app, Ha, str_no_tab.
  change (Py.replace Py.TAB Py.SPACE tab) with " ".
  set (a := EditGestures.action self). set (n := Py.str _).
  match goal with
  | |- Py.startswith (a ++ " " ++ n ++ ?r) _ = true =>
      replace (a ++ " " ++ n ++ r) with ((a ++ " " ++ n) ++ r)
        by now rewrite !append_assoc
  end.
  apply startswith_app.
Qed.

Lemma new_line_terminated (self : EditGestures.t) :
  In (EditGestures.action self) (map snd actions_mapping) ->
  one_line (EditGestures.shortcut self) = true ->
  terminated_line (EditGestures.new_line self) = true.
Proof.
  intros [Ha _]%action_plain Hs. unfold EditGestures.new_line.
  rewrite <- !append_assoc. apply terminated_line_snoc.
  unfold one_line in *. rewrite !all_chars_app, Ha, Hs.
  fold (one_line (Py.str (EditGestures.fingers self))).
  now rewrite str_one_line.
Qed.

End SaveFacts.

Section SaveTwice.

Lemma lf_terminated_cons (c : ascii) (t : string) :
  lf_terminated t = true -> (t = "" -> c = Py.LF) ->
  lf_terminated (String c t) = true.
Proof.
  destruct t as [|d t]; simpl.
  - intros _ H. rewrite H by reflexivity. reflexivity.
  - intros H _. exact H.
Qed.

(** A text that ends with [\n] still does after the line ends are
    translated. *)
Lemma universal_newlines_snoc (s : string) (after_cr : bool) :
  lf_terminated (Py.universal_newlines after_cr (s ++ nl)) = true
  /\ (after_cr = false -> Py.universal_newlines after_cr (s ++ nl) <> "").
Proof.
  revert after_cr; induction s as [|c s IH]; intros after_cr.
  - destruct after_cr; simpl; split; congruence.
  - change (String c s ++ nl) with (String c (s ++ nl)).
    cbn [Py.universal_newlines].
    destruct (Ascii.eqb c Py.CR).
    + split; [|discriminate].
      destruct (IH true) as [Ht _]. apply lf_terminated_cons; auto.
    + destruct (Ascii.eqb c Py.LF).
      * destruct after_cr.
        -- split; [apply IH | discriminate].
        -- split; [|discriminate].
           destruct (IH false) as [Ht _]. apply lf_terminated_cons; auto.
      * split; [|discriminate].
        destruct (IH false) as [Ht Hne]. apply lf_terminated_cons; auto.
        intros E. now destruct Hne.
Qed.

Lemma one_line_snoc (w : string) (c : ascii) :
  one_line w = true -> Ascii.eqb c Py.LF = false -> Ascii.eqb c Py.CR = false ->
  one_line (w ++ String c "") = true.
Proof.
  intros Hw Hlf Hcr. unfold one_line in *. rewrite all_chars_app, Hw.
  simpl. now rewrite Hlf, Hcr.
Qed.

Lemma lines_from_lf_terminated (t w : string) :
  one_line w = true -> no_cr t = true -> lf_terminated t = true ->
  (t = "" -> w = "") ->
  forallb terminated_line (Py.lines_from w t) = true.
Proof.
  unfold no_cr. revert w; induction t as [|c t IH]; intros w Hw Hcr Hlf Hnil.
  - rewrite Hnil by reflexivity. reflexivity.
  - simpl in Hcr. apply andb_prop in Hcr as [Hc Hcr].
    apply negb_true_iff in Hc. cbn [Py.lines_from].
    destruct (Ascii.eqb c Py.LF) eqn:Ec.
    + cbn [forallb]. rewrite terminated_line_snoc by assumption.
      apply IH; auto. now destruct t.
    + destruct t as [|d t]; [simpl in Hlf; congruence|].
      apply IH; auto; [now apply one_line_snoc | discriminate].
Qed.

Lemma readlines_snoc (s : string) :
  forallb terminated_line (Py.readlines (s ++ nl)) = true.
Proof.
  destruct (universal_newlines_snoc s false) as [Hlf _].
  apply lines_from_lf_terminated; auto. apply no_cr_universal_newlines.
Qed.

Lemma universal_newlines_app (a t : string) :
  no_cr a = true ->
  Py.universal_newlines false (a ++ t) = a ++ Py.universal_newlines false t.
Proof.
  unfold no_cr. induction a as [|c a IH]; [reflexivity|].
  simpl. intros [Hc Ha]%andb_prop. apply negb_true_iff in Hc. rewrite Hc.
  destruct (Ascii.eqb_spec c Py.LF) as [->|_]; now rewrite IH.
Qed.

Lemma terminated_lines_no_cr (ls : list string) :
  forallb terminated_line ls = true -> no_cr (Py.join "" ls) = true.
Proof.
  induction ls as [|l ls IH]; [reflexivity|].
  cbn [forallb]. intros [Hl Hls]%andb_prop.
  rewrite concat_cons, no_cr_app. now rewrite terminated_line_no_cr, IH.
Qed.

Lemma lines_from_join_app (ls : list string) (t : string) :
  forallb terminated_line ls = true ->
  Py.lines_from "" (Py.join "" ls ++ t) = (ls ++ Py.lines_from "" t)%list.
Proof.
  induction ls as [|l ls IH]; [reflexivity|].
  cbn [forallb]. intros [Hl Hls]%andb_prop.
  rewrite concat_cons, append_assoc, lines_from_terminated by assumption.
  now rewrite IH.
Qed.

(** Text appended to terminated lines starts on a line of its own. *)
Lemma readlines_join_app (ls : list string) (t : string) :
  forallb terminated_line ls = true ->
  Py.readlines (Py.join "" ls ++ t) = (ls ++ Py.readlines t)%list.
Proof.
  intros H. unfold Py.readlines.
  rewrite universal_newlines_app by now apply terminated_lines_no_cr.
  now apply lines_from_join_app.
Qed.

Lemma readlines_terminated (l : string) :
  terminated_line l = true -> Py.readlines l = [l].
Proof.
  intros H. apply (readlines_join [l]). simpl. unfold last_line. now rewrite H.
Qed.

Lemma forallb_filter {A : Type} (p q : A -> bool) (l : list A) :
  forallb p l = true -> forallb p (filter q l) = true.
Proof.
  induction l as [|a l IH]; [reflexivity|].
  cbn [forallb filter]. intros [Ha Hl]%andb_prop.
  destruct (q a); cbn [forallb]; [rewrite Ha|]; now apply IH.
Qed.

Lemma filter_filter_negb {A : Type} (p : A -> bool) (l : list A) :
  filter p (filter (fun a => negb (p a)) l) = [].
Proof.
  induction l as [|a l IH]; [reflexivity|].
  cbn [filter]. destruct (p a) eqn:E; cbn [negb filter]; [|rewrite E]; exact IH.
Qed.

(** Every line of the file that [save_changes] writes has its line end. *)
Lemma written_terminated (self : EditGestures.t) (fs : file_state) :
  forallb terminated_line (read_config (written self fs)) = true.
Proof.
  rewrite written_content. cbn [read_config].
  unfold EditGestures.new_line. rewrite <- !append_assoc. apply readlines_snoc.
Qed.

(** What [save_changes] writes to a file whose lines all have their line end:
    the lines that do not start with the prefix, then the new line. *)
Lemma written_lines (self : EditGestures.t) (fs : file_state) :
  In (EditGestures.action self) (map snd actions_mapping) ->
  one_line (EditGestures.shortcut self) = true ->
  forallb terminated_line (read_config fs) = true ->
  read_config (written self fs)
  = (filter (fun l => negb (replaced_by self l)) (read_config fs)
     ++ [EditGestures.new_line self])%list.
Proof.
  intros Ha Hs Ht. rewrite written_content.
  cbn [read_config]. rewrite readlines_join_app by now apply forallb_filter.
  now rewrite readlines_terminated by now apply new_line_terminated.
Qed.

End SaveTwice.

(** ** [prepare_config_for_displaying] line by line *)

Section PrepareFacts.

Local Arguments String.eqb : simpl never.
Local Arguments Py.startswith : simpl never.
Local Arguments Py.get : simpl never.
Local Arguments tokens : simpl never.

Lemma prepare_line_skip (line : string) (self : GesturesApp.t) :
  Py.startswith line "gesture" = false ->
  GesturesApp.prepare_line line self = (Ok tt, self).
Proof. intros H. unfold GesturesApp.prepare_line. now rewrite H. Qed.

Lemma prepare_line_command (line : string) (self : GesturesApp.t)
  (a b c count label : string) (words : list string) :
  Py.startswith line "gesture" = true ->
  tokens line = a :: b :: c :: count :: words ->
  Py.get reversed_mapping (format_triple a b c) = Some label ->
  read_as_command words = true ->
  GesturesApp.prepare_line line self
  = (Ok tt, add_row self label count (Py.join " " words)
              (format_triple a b c) "command").
Proof.
  intros Hs Ht Hl Hw. unfold GesturesApp.prepare_line. rewrite Hs.
  fold (tokens line). rewrite Ht.
  unfold GesturesApp.seq, GesturesApp.lift, Py.subscript. cbn [Py.getitem nth_error].
  rewrite Hl. cbn [GesturesApp.gestures_append GesturesApp.fingers_append].
  unfold GesturesApp.is_xdotool_key, bind, Py.getitem, read_as_command in *.
  destruct words as [|x rest]; [discriminate|]. cbn [nth_error].
  destruct (x =? "xdotool"); [|reflexivity].
  destruct rest as [|y rest]; [discriminate|]. cbn [nth_error].
  cbn [negb orb] in Hw. apply negb_true_iff in Hw. rewrite Hw. reflexivity.
Qed.

Lemma prepare_line_shortcut (line : string) (self : GesturesApp.t)
  (a b c count label combo : string) (more : list string) :
  Py.startswith line "gesture" = true ->
  tokens line = a :: b :: c :: count :: "xdotool" :: "key" :: combo :: more ->
  Py.get reversed_mapping (format_triple a b c) = Some label ->
  GesturesApp.prepare_line line self
  = (Ok tt, add_row self label count combo (format_triple a b c) "shortcut").
Proof.
  intros Hs Ht Hl. unfold GesturesApp.prepare_line. rewrite Hs.
  fold (tokens line). rewrite Ht.
  unfold GesturesApp.seq, GesturesApp.lift, Py.subscript. cbn [Py.getitem nth_error].
  rewrite Hl. reflexivity.
Qed.

(** The lines on which the loop raises are those of [parse_rejects]. *)
Lemma prepare_line_outcome (line : string) (self : GesturesApp.t) :
  if parse_rejects line
  then exists e, fst (GesturesApp.prepare_line line self) = Raise e
  else fst (GesturesApp.prepare_line line self) = Ok tt.
Proof.
  unfold parse_rejects, GesturesApp.prepare_line, Py.contains.
  destruct (Py.startswith line "gesture"); [|reflexivity].
  fold (tokens line). cbn [andb].
  unfold GesturesApp.seq, GesturesApp.lift, Py.subscript.
  destruct (tokens line) as [|a [|b [|c rest]]];
    try (cbn; eexists; reflexivity).
  cbn [Py.getitem nth_error].
  destruct (Py.get reversed_mapping (format_triple a b c)) as [label|];
    [|cbn; eexists; reflexivity].
  cbn [negb orb GesturesApp.gestures_append].
  destruct rest as [|count [|fifth rest]]; try (cbn; eexists; reflexivity).
  cbn [Py.getitem nth_error GesturesApp.fingers_append].
  unfold GesturesApp.is_xdotool_key, bind, Py.getitem. cbn [nth_error].
  destruct (fifth =? "xdotool"); [|reflexivity].
  destruct rest as [|sixth rest]; [cbn; eexists; reflexivity|].
  cbn [nth_error andb]. destruct (sixth =? "key"); [|reflexivity].
  destruct rest as [|combo rest]; [cbn; eexists; reflexivity | reflexivity].
Qed.

Lemma prepare_loop_cons (line : string) (conf : list string) (self : GesturesApp.t) :
  GesturesApp.prepare_loop (line :: conf) self
  = match GesturesApp.prepare_line line self with
    | (Ok _, self') => GesturesApp.prepare_loop conf self'
    | (Raise e, self') => (Raise e, self')
    end.
Proof. reflexivity. Qed.

Lemma prepare_loop_rejects (conf : list string) (self : GesturesApp.t) :
  existsb parse_rejects conf = true ->
  exists e, fst (GesturesApp.prepare_loop conf self) = Raise e.
Proof.
  revert self; induction conf as [|l conf IH]; intros self; [discriminate|].
  cbn [existsb]. rewrite prepare_loop_cons.
  pose proof (prepare_line_outcome l self) as Hl.
  destruct (parse_rejects l); cbn [orb].
  - intros _. destruct Hl as [e He].
    destruct (GesturesApp.prepare_line l self) as [[u|e'] self']; [discriminate|].
    now exists e'.
  - intros H. destruct (GesturesApp.prepare_line l self) as [[u|e'] self'];
      [now apply IH | discriminate].
Qed.

Lemma prepare_loop_accepts (conf : list string) (self : GesturesApp.t) :
  existsb parse_rejects conf = false ->
  fst (GesturesApp.prepare_loop conf self) = Ok tt.
Proof.
  revert self; induction conf as [|l conf IH]; intros self; [reflexivity|].
  cbn [existsb]. rewrite prepare_loop_cons.
  pose proof (prepare_line_outcome l self) as Hl.
  destruct (parse_rejects l); cbn [orb]; [discriminate|].
  intros H. destruct (GesturesApp.prepare_line l self) as [[u|e'] self'];
    [now apply IH | discriminate].
Qed.

(** The loop raises nothing but [KeyError], from the lookup in
    [reversed_mapping], and [IndexError], from [splitted[i]]. *)
Lemma prepare_line_raises (line : string) (self : GesturesApp.t) (e : exn) :
  fst (GesturesApp.prepare_line line self) = Raise e ->
  e = KeyError \/ e = IndexError.
Proof.
  unfold GesturesApp.prepare_line.
  destruct (Py.startswith line "gesture"); [|discriminate].
  fold (tokens line).
  unfold GesturesApp.seq, GesturesApp.lift, Py.subscript.
  destruct (tokens line) as [|a [|b [|c rest]]];
    try (cbn; intros [= <-]; now right).
  cbn [Py.getitem nth_error].
  destruct (Py.get reversed_mapping (format_triple a b c)) as [label|];
    [|cbn; intros [= <-]; now left].
  cbn [GesturesApp.gestures_append].
  destruct rest as [|count [|fifth rest]]; try (cbn; intros [= <-]; now right).
  cbn [Py.getitem nth_error GesturesApp.fingers_append].
  unfold GesturesApp.is_xdotool_key, bind, Py.getitem. cbn [nth_error].
  destruct (fifth =? "xdotool"); [|discriminate].
  destruct rest as [|sixth rest]; [cbn; intros [= <-]; now right|].
  cbn [nth_error]. destruct (sixth =? "key"); [|discriminate].
  destruct rest as [|combo rest]; [cbn; intros [= <-]; now right | discriminate].
Qed.

Lemma prepare_loop_raises (conf : list string) (self : GesturesApp.t) (e : exn) :
  fst (GesturesApp.prepare_loop conf self) = Raise e ->
  e = KeyError \/ e = IndexError.
Proof.
  revert self; induction conf as [|l conf IH]; intros self; [discriminate|].
  rewrite prepare_loop_cons.
  destruct (GesturesApp.prepare_line l self) as [[u|e'] self'] eqn:E.
  - apply IH.
  - cbn [fst]. intros [= <-]. apply (prepare_line_raises l self). now rewrite E.
Qed.

(** The loop stops at the first line of [parse_rejects]: the attributes are
    left as that line left them, after the lines before it. *)
Lemma prepare_loop_stops (conf : list string) (self : GesturesApp.t) :
  existsb parse_rejects conf = true ->
  exists before line after,
    conf = (before ++ line :: after)%list
    /\ existsb parse_rejects before = false
    /\ parse_rejects line = true
    /\ GesturesApp.prepare_loop conf self
       = GesturesApp.prepare_line line
           (snd (GesturesApp.prepare_loop before self)).
Proof.
  revert self; induction conf as [|l conf IH]; intros self; [discriminate|].
  cbn [existsb]. rewrite prepare_loop_cons.
  pose proof (prepare_line_outcome l self) as Hl.
  destruct (parse_rejects l) eqn:El; cbn [orb].
  - intros _. exists [], l, conf. repeat split; try assumption.
    destruct Hl as [e He]. cbn [GesturesApp.prepare_loop GesturesApp.ret snd].
    destruct (GesturesApp.prepare_line l self) as [[u|e'] self'];
      [discriminate | reflexivity].
  - intros H.
    destruct (GesturesApp.prepare_line l self) as [[u|e'] self'] eqn:E;
      [|discriminate].
    destruct (IH self' H) as (before & line & after & -> & Hb & Hr & Ep).
    exists (l :: before), line, after. repeat split; try assumption.
    + cbn [existsb]. now rewrite El.
    + rewrite Ep. cbn [app]. rewrite prepare_loop_cons, E. reflexivity.
Qed.

End PrepareFacts.

(** [prepare_config_for_displaying] returns on every file that has no line
    of [parse_rejects]. *)
Lemma prepare_returns (fs : file_state) (self : GesturesApp.t) :
  existsb parse_rejects (read_config fs) = false ->
  fst (GesturesApp.prepare_config_for_displaying fs self) = Ok tt.
Proof. apply prepare_loop_accepts. Qed.

(** What [display_config] shows is read in one run that did not raise: the
    rows left in the attributes by a run that raised are never shown. *)
Lemma display_config_shows_whole_file (reply_yes : bool) (fs : file_state)
  (self : GesturesApp.t) :
  fst (fst (GesturesApp.display_config reply_yes fs self)) = Ok tt ->
  let fs' := snd (GesturesApp.display_config reply_yes fs self) in
  GesturesApp.prepare_config_for_displaying fs' self = (Ok tt, rows_of fs')
  /\ GesturesApp.sort_config (rows_of fs')
     = fst (GesturesApp.display_config reply_yes fs self).
Proof.
  unfold GesturesApp.display_config, rows_of.
  change (GesturesApp.prepare_config_for_displaying fs self)
    with (GesturesApp.prepare_config_for_displaying fs GesturesApp.empty).
  destruct (GesturesApp.prepare_config_for_displaying fs GesturesApp.empty)
    as [[[]|e] self1] eqn:E1.
  - cbn [fst snd]. intros _.
    change (GesturesApp.prepare_config_for_displaying fs self)
      with (GesturesApp.prepare_config_for_displaying fs GesturesApp.empty).
    rewrite E1. now split.
  - destruct reply_yes; [|discriminate].
    destruct (fix_config fs) as [[[]|e'] fs1]; [|discriminate].
    change (GesturesApp.prepare_config_for_displaying fs1 self1)
      with (GesturesApp.prepare_config_for_displaying fs1 GesturesApp.empty).
    destruct (GesturesApp.prepare_config_for_displaying fs1 GesturesApp.empty)
      as [[[]|e2] self2] eqn:E2; [|discriminate].
    cbn [fst snd]. intros _.
    change (GesturesApp.prepare_config_for_displaying fs1 self)
      with (GesturesApp.prepare_config_for_displaying fs1 GesturesApp.empty).
    rewrite E2. now split.
Qed.

(** After [fix_config] the file can still have a line that cannot be read:
    a [gesture] line with an unknown direction is kept, and reading the file
    again raises. *)
Lemma display_config_after_fix_raises :
  GesturesApp.display_config true sideways_file GesturesApp.empty
  = (Raise KeyError, GesturesApp.empty, sideways_file).
Proof. reflexivity. Qed.

(** ** The file that [display_config] leaves *)

Section FileAfter.

Lemma filter_all {A : Type} (l : list A) : filter (fun _ => true) l = l.
Proof. induction l as [|a l IH]; [reflexivity|]. cbn [filter]. now rewrite IH. Qed.

Lemma prepare_raises_kind (fs : file_state) (self : GesturesApp.t) :
  readable fs = false ->
  fst (GesturesApp.prepare_config_for_displaying fs self) = Raise KeyError
  \/ fst (GesturesApp.prepare_config_for_displaying fs self) = Raise IndexError.
Proof.
  unfold readable. intros H%negb_false_iff.
  destruct (prepare_loop_rejects _ GesturesApp.empty H) as [e He].
  unfold GesturesApp.prepare_config_for_displaying.
  destruct (prepare_loop_raises _ _ _ He) as [-> | ->]; auto.
Qed.

(** [display_config] on a file that it cannot read. *)
Lemma display_config_unreadable (reply_fix : bool) (fs : file_state)
  (self : GesturesApp.t) :
  readable fs = false ->
  GesturesApp.display_config reply_fix fs self
  = if reply_fix then
      match fix_config fs with
      | (Ok _, fs') =>
          match GesturesApp.prepare_config_for_displaying fs' self with
          | (Ok _, self2) => (GesturesApp.sort_config self2, fs')
          | (Raise e, self2) => ((Raise e, self2), fs')
          end
      | (Raise e, fs') =>
          ((Raise e, snd (GesturesApp.prepare_config_for_displaying fs self)), fs')
      end
    else
      ((Raise SystemExit, snd (GesturesApp.prepare_config_for_displaying fs self)),
       fs).
Proof.
  intros H. destruct (prepare_raises_kind fs self H) as [E|E];
    unfold GesturesApp.display_config;
    destruct (GesturesApp.prepare_config_for_displaying fs self)
      as [[u|e] self1]; try discriminate E; reflexivity.
Qed.

(** [display_config] on a file that it can read: the file stays. *)
Lemma display_config_readable (reply_fix : bool) (fs : file_state)
  (self : GesturesApp.t) :
  readable fs = true ->
  GesturesApp.display_config reply_fix fs self
  = (GesturesApp.sort_config (rows_of fs), fs).
Proof.
  unfold readable. intros H%negb_true_iff.
  pose proof (prepare_loop_accepts _ GesturesApp.empty H) as E.
  unfold GesturesApp.display_config, rows_of,
    GesturesApp.prepare_config_for_displaying.
  destruct (GesturesApp.prepare_loop (read_config fs) GesturesApp.empty)
    as [[u|e] self1]; [reflexivity | discriminate E].
Qed.

(** The file changes only when it could not be read and the answer to
    "Fix it?" is Yes: then it is the file that [fix_config] leaves. *)
Lemma display_config_file (reply_fix : bool) (fs : file_state)
  (self : GesturesApp.t) :
  file_after (GesturesApp.display_config reply_fix fs self)
  = if negb (readable fs) && reply_fix then snd (fix_config fs) else fs.
Proof.
  destruct (readable fs) eqn:E.
  - now rewrite display_config_readable.
  - rewrite display_config_unreadable by assumption. cbn [negb andb].
    destruct reply_fix; [|reflexivity].
    destruct (fix_config fs) as [[u|e] fs']; [|reflexivity].
    now destruct (GesturesApp.prepare_config_for_displaying fs' self)
      as [[u'|e] self2].
Qed.

Lemma fix_config_file (fs : file_state) :
  snd (fix_config fs)
  = if existsb out_of_range (read_config fs) then fs
    else write_config (filter kept (read_config fs)).
Proof.
  destruct (existsb out_of_range (read_config fs)) eqn:E.
  - now rewrite fix_config_out_of_range.
  - rewrite existsb_forallb_negb in E. apply negb_false_iff in E.
    now rewrite fix_config_in_range.
Qed.

Lemma fix_config_file_again (fs : file_state) :
  snd (fix_config (snd (fix_config fs))) = snd (fix_config fs).
Proof.
  rewrite (fix_config_file fs).
  destruct (existsb out_of_range (read_config fs)) eqn:E.
  - rewrite fix_config_file. now rewrite E.
  - destruct (filter_kept_again (read_config fs)) as [Hr Hf].
    rewrite fix_config_in_range; rewrite read_write_filter; [|exact Hr].
    cbn [snd]. now rewrite Hf.
Qed.

(** The lines of the file that [display_config] leaves: the lines that pass
    [survives]. *)
Lemma display_config_lines (reply_fix : bool) (fs : file_state)
  (self : GesturesApp.t) :
  read_config (file_after (GesturesApp.display_config reply_fix fs self))
  = filter (survives reply_fix fs) (read_config fs).
Proof.
  rewrite display_config_file, fix_config_file. unfold survives, repairs.
  destruct (negb (readable fs) && reply_fix); cbn [andb];
    [|now rewrite filter_all].
  destruct (existsb out_of_range (read_config fs)); cbn [negb];
    [now rewrite filter_all | apply read_write_filter].
Qed.

(** A file that is written back as it is read stays so. *)
Lemma display_config_written (reply_fix : bool) (fs : file_state)
  (self : GesturesApp.t) :
  write_config (read_config fs) = fs ->
  let fs' := file_after (GesturesApp.display_config reply_fix fs self) in
  write_config (read_config fs') = fs'.
Proof.
  intros H fs'. subst fs'. rewrite display_config_file, fix_config_file.
  destruct (negb (readable fs) && reply_fix); [|exact H].
  destruct (existsb out_of_range (read_config fs)); [exact H|].
  now rewrite read_write_filter.
Qed.

(** Shown a second time, with the same answer, the file stays. *)
Lemma display_config_again (reply_fix : bool) (fs : file_state)
  (self self' : GesturesApp.t) :
  let fs' := file_after (GesturesApp.display_config reply_fix fs self) in
  file_after (GesturesApp.display_config reply_fix fs' self') = fs'.
Proof.
  intros fs'. subst fs'. rewrite (display_config_file reply_fix fs self).
  destruct (negb (readable fs) && reply_fix) eqn:E.
  - apply andb_prop in E as [_ ->]. rewrite display_config_file.
    rewrite andb_true_r.
    destruct (negb (readable (snd (fix_config fs)))); [|reflexivity].
    apply fix_config_file_again.
  - rewrite display_config_file. now rewrite E.
Qed.

(** A line that [display_config] never drops. *)
Lemma survives_kept (reply_fix : bool) (fs : file_state) (line : string) :
  kept line = true -> survives reply_fix fs line = true.
Proof. intros H. unfold survives. now destruct (repairs reply_fix fs). Qed.

Lemma survives_all (reply_fix : bool) (fs : file_state) (line : string) :
  readable fs = true \/ reply_fix = false -> survives reply_fix fs line = true.
Proof.
  unfold survives, repairs. intros [-> | ->]; [reflexivity|].
  now rewrite andb_false_r.
Qed.

(** The file that a method leaves, by the file that it writes. *)
Lemma save_changes_file (reply_fix : bool) (self : EditGestures.t)
  (parent : GesturesApp.t) (fs : file_state) :
  EditGestures.save_changes reply_fix self parent fs
  = if EditGestures.all_filled self
    then GesturesApp.display_config reply_fix (written self fs) parent
    else ((Ok tt, parent), fs).
Proof. reflexivity. Qed.

Lemma delete_entry_file (name : string) (reply_fix : bool) (fs : file_state)
  (self : GesturesApp.t) :
  GesturesApp.delete_entry name true reply_fix fs self
  = GesturesApp.display_config reply_fix (deleted name fs) self.
Proof. reflexivity. Qed.

End FileAfter.

(** C2, as it holds of the code.  On every file with a line that starts with
    [gesture] and whose first three tokens are no key of [reversed_mapping], or
    that has fewer than five tokens, or whose action is [xdotool] alone or
    [xdotool key] alone, [prepare_config_for_displaying] does not return: it
    raises [KeyError] or [IndexError], at the first such line.  The attributes
    are left with the rows of the lines before that line and with what that
    line appended before the exception, and they are never shown:
    [display_config] then raises [SystemExit] with the file untouched (answer
    No), or leaves the file to [fix_config] and shows rows only when that file
    is read anew, in one run that returns (answer Yes).  The finger count is
    not looked at. *)
Theorem prepare_raises (fs : file_state) (self : GesturesApp.t) (line : string) :
  In line (read_config fs) ->
  parse_rejects line = true ->
  (fst (GesturesApp.prepare_config_for_displaying fs self) = Raise KeyError
   \/ fst (GesturesApp.prepare_config_for_displaying fs self) = Raise IndexError)
  /\ (exists before first after,
        read_config fs = (before ++ first :: after)%list
        /\ existsb parse_rejects before = false
        /\ parse_rejects first = true
        /\ GesturesApp.prepare_config_for_displaying fs self
           = GesturesApp.prepare_line first
               (snd (GesturesApp.prepare_loop before GesturesApp.empty)))
  /\ GesturesApp.display_config false fs self
     = ((Raise SystemExit,
         snd (GesturesApp.prepare_config_for_displaying fs self)), fs)
  /\ file_after (GesturesApp.display_config true fs self) = snd (fix_config fs)
  /\ (outcome (GesturesApp.display_config true fs self) = Ok tt ->
      GesturesApp.prepare_config_for_displaying (snd (fix_config fs)) self
      = (Ok tt, rows_of (snd (fix_config fs)))
      /\ GesturesApp.sort_config (rows_of (snd (fix_config fs)))
         = fst (GesturesApp.display_config true fs self)).
Proof.
  intros Hin Hr.
  assert (existsb parse_rejects (read_config fs) = true) as Hex.
  { apply existsb_exists. now exists line. }
  assert (readable fs = false) as Hu.
  { unfold readable. now rewrite Hex. }
  split; [now apply prepare_raises_kind|].
  split; [exact (prepare_loop_stops _ GesturesApp.empty Hex)|].
  split; [now rewrite display_config_unreadable|].
  assert (file_after (GesturesApp.display_config true fs self)
          = snd (fix_config fs)) as Ef.
  { rewrite display_config_file, Hu. reflexivity. }
  split; [exact Ef|].
  intros Hok.
  pose proof (display_config_shows_whole_file true fs self Hok) as Hs.
  cbv zeta in Hs. unfold file_after in Ef. now rewrite Ef in Hs.
Qed.

(** C2 at [sideways_file], whose line of an unknown gesture [fix_config]
    keeps. *)
Lemma prepare_raises_witness :
  (fst (GesturesApp.prepare_config_for_displaying sideways_file GesturesApp.empty)
   = Raise KeyError
   \/ fst (GesturesApp.prepare_config_for_displaying sideways_file GesturesApp.empty)
      = Raise IndexError)
  /\ (exists before first after,
        read_config sideways_file = (before ++ first :: after)%list
        /\ existsb parse_rejects before = false
        /\ parse_rejects first = true
        /\ GesturesApp.prepare_config_for_displaying sideways_file
             GesturesApp.empty
           = GesturesApp.prepare_line first
               (snd (GesturesApp.prepare_loop before GesturesApp.empty)))
  /\ GesturesApp.display_config false sideways_file GesturesApp.empty
     = ((Raise SystemExit,
         snd (GesturesApp.prepare_config_for_displaying sideways_file
                GesturesApp.empty)), sideways_file)
  /\ file_after (GesturesApp.display_config true sideways_file GesturesApp.empty)
     = snd (fix_config sideways_file)
  /\ (outcome (GesturesApp.display_config true sideways_file GesturesApp.empty)
      = Ok tt ->
      GesturesApp.prepare_config_for_displaying (snd (fix_config sideways_file))
        GesturesApp.empty
      = (Ok tt, rows_of (snd (fix_config sideways_file)))
      /\ GesturesApp.sort_config (rows_of (snd (fix_config sideways_file)))
         = fst (GesturesApp.display_config true sideways_file GesturesApp.empty)).
Proof.
  apply (prepare_raises sideways_file GesturesApp.empty
           ("gesture swipe sideways 3 xdotool key F1" ++ nl)).
  - vm_compute. tauto.
  - reflexivity.
Defined.

(** The lists that a run that raised leaves behind are of unequal length: on
    a [gesture] line of three tokens the label is appended and the finger
    count is missed. *)
Example prepare_leaves_partial_rows :
  GesturesApp.prepare_config_for_displaying partial_file GesturesApp.empty
  = (Raise IndexError,
     GesturesApp.mk ["Swipe Up"; "Swipe Down"] ["3"] ["echo a"]
       ["gesture swipe up"] ["command"]).
Proof. reflexivity. Qed.

(** C2 in the words of the specification does not hold: a [gesture] line whose
    finger count is the word [three] is malformed for the Line Grammar, and it
    is read as a row. *)
Lemma prepare_reads_word_count :
  existsb Grammar.malformed_binding_line (read_config word_count_file) = true
  /\ GesturesApp.prepare_config_for_displaying word_count_file GesturesApp.empty
     = (Ok tt, add_row GesturesApp.empty "Swipe Up" "three" "echo hi"
                 "gesture swipe up" "command").
Proof. split; reflexivity. Qed.

(** ** A saved line read back *)

Lemma get_In (d : Py.dict) (k v : string) :
  Py.get d k = Some v -> In (k, v) d.
Proof.
  induction d as [|[k' v'] d IH]; [discriminate|].
  simpl. destruct (String.eqb_spec k k') as [->|_].
  - intros [= ->]. now left.
  - intros H. right. now apply IH.
Qed.

Section ReadBack.

Local Arguments String.eqb : simpl never.
Local Arguments Py.startswith : simpl never.
Local Arguments Py.get : simpl never.
Local Arguments tokens : simpl never.

Lemma startswith_split (s p : string) :
  Py.startswith s p = true -> exists r, s = p ++ r.
Proof.
  revert s; induction p as [|c p IH]; intros s.
  - intros _. now exists s.
  - destruct s as [|d s]; [discriminate|].
    rewrite startswith_cons. intros [->%Ascii.eqb_eq Hs]%andb_prop.
    destruct (IH s Hs) as [r ->]. now exists r.
Qed.

Lemma startswith_app_l (s p t : string) :
  Py.startswith s p = true -> Py.startswith (s ++ t) p = true.
Proof.
  intros [r ->]%startswith_split. rewrite append_assoc. apply startswith_app.
Qed.

Lemma tokens_new_line (self : EditGestures.t) :
  tokens (EditGestures.new_line self)
  = (tokens (EditGestures.action self)
     ++ [Py.str (EditGestures.fingers self)]
     ++ tokens (EditGestures.shortcut self))%list.
Proof.
  unfold EditGestures.new_line, tab.
  change (String Py.TAB "" ++ ?x) with (String Py.TAB x).
  rewrite tokens_app by reflexivity.
  change (" " ++ ?x) with (String Py.SPACE x).
  rewrite tokens_app by reflexivity.
  now rewrite tokens_newline, (tokens_word _ (str_is_word _)).
Qed.

Lemma word_one_line (w : string) : is_word w = true -> one_line w = true.
Proof.
  unfold is_word. intros [_ H]%andb_prop. revert H. apply all_chars_impl.
  intros c Hc.
  destruct (Ascii.eqb_spec c Py.LF) as [->|_]; [discriminate Hc|].
  destruct (Ascii.eqb_spec c Py.CR) as [->|_]; [discriminate Hc|].
  reflexivity.
Qed.

Lemma one_line_app (s t : string) :
  one_line (s ++ t) = one_line s && one_line t.
Proof. apply all_chars_app. Qed.

Lemma words_one_line (words : list string) :
  forallb is_word words = true -> one_line (Py.join " " words) = true.
Proof.
  induction words as [|x ws IH]; [reflexivity|].
  cbn [forallb]. intros [Hx Hws]%andb_prop. destruct ws as [|y ws].
  - now apply word_one_line.
  - rewrite join_space_cons.
    change (String Py.SPACE ?s) with (" " ++ s).
    rewrite !one_line_app, (word_one_line _ Hx), IH by assumption.
    reflexivity.
Qed.

Lemma tokens_words (words : list string) :
  forallb is_word words = true -> tokens (Py.join " " words) = words.
Proof.
  intros H. apply tokens_join, Forall_forall. intros w Hw.
  now apply (proj1 (forallb_forall _ _) H).
Qed.

(** The file that holds one saved line is read as that line. *)
Lemma read_new_line (self : EditGestures.t) :
  In (EditGestures.action self) (map snd actions_mapping) ->
  one_line (EditGestures.shortcut self) = true ->
  read_config (Some (EditGestures.new_line self)) = [EditGestures.new_line self].
Proof.
  intros Ha Hs. cbn [read_config].
  now apply readlines_terminated, new_line_terminated.
Qed.

Lemma prepare_one_line (line : string) (self : GesturesApp.t) :
  GesturesApp.prepare_loop [line] self = GesturesApp.prepare_line line self.
Proof.
  rewrite prepare_loop_cons.
  now destruct (GesturesApp.prepare_line line self) as [[[]|e] self'].
Qed.

Variables (label token a b c : string).
Hypothesis Hvalue : In token (map snd actions_mapping).
Hypothesis Hstarts : Py.startswith token "gesture" = true.
Hypothesis Htokens : tokens token = [a; b; c].
Hypothesis Hlabel : Py.get reversed_mapping (format_triple a b c) = Some label.

Lemma read_back_shortcut (n : N) (combo : string) (self : GesturesApp.t) :
  is_word combo = true ->
  GesturesApp.prepare_config_for_displaying
    (Some (EditGestures.new_line (EditGestures.mk token n ("xdotool key " ++ combo))))
    self
  = (Ok tt, add_row GesturesApp.empty label (Py.str n) combo
              (button_of token) "shortcut").
Proof.
  intros Hc. set (e := EditGestures.mk token n _).
  assert (tokens (EditGestures.shortcut e) = ["xdotool"; "key"; combo]) as Hsh.
  { apply (tokens_words ["xdotool"; "key"; combo]).
    cbn [forallb]. now rewrite Hc. }
  unfold GesturesApp.prepare_config_for_displaying.
  rewrite read_new_line; [|exact Hvalue|].
  - rewrite prepare_one_line. unfold button_of. rewrite Htokens.
    apply prepare_line_shortcut with (more := []); [| |exact Hlabel].
    + unfold EditGestures.new_line. now apply startswith_app_l.
    + rewrite tokens_new_line, Hsh. cbn [EditGestures.action e].
      now rewrite Htokens.
  - apply (words_one_line ["xdotool"; "key"; combo]).
    cbn [forallb]. now rewrite Hc.
Qed.

Lemma read_back_command (n : N) (words : list string) (self : GesturesApp.t) :
  forallb is_word words = true ->
  read_as_command words = true ->
  GesturesApp.prepare_config_for_displaying
    (Some (EditGestures.new_line (EditGestures.mk token n (Py.join " " words))))
    self
  = (Ok tt, add_row GesturesApp.empty label (Py.str n) (Py.join " " words)
              (button_of token) "command").
Proof.
  intros Hw Hc. set (e := EditGestures.mk token n _).
  unfold GesturesApp.prepare_config_for_displaying.
  rewrite read_new_line; [|exact Hvalue|now apply words_one_line].
  rewrite prepare_one_line. unfold button_of. rewrite Htokens.
  apply prepare_line_command; [| |exact Hlabel|exact Hc].
  - unfold EditGestures.new_line. now apply startswith_app_l.
  - rewrite tokens_new_line. cbn [EditGestures.action EditGestures.shortcut e].
    now rewrite Htokens, tokens_words.
Qed.

End ReadBack.

(** C6, as it holds of the code.  A binding for one of the twelve labels is
    read back from its saved line with its label, its finger count and its
    action when the action is a shortcut whose key combination is one word, or
    a command made of words separated by single spaces that is not [xdotool]
    alone and does not start with [xdotool key]. *)
Theorem saved_line_reads_back (label token : string) (n : N)
  (self : GesturesApp.t) :
  Py.get actions_mapping label = Some token ->
  (forall combo, is_word combo = true ->
     GesturesApp.prepare_config_for_displaying
       (Some (EditGestures.new_line
                (EditGestures.mk token n ("xdotool key " ++ combo)))) self
     = (Ok tt, add_row GesturesApp.empty label (Py.str n) combo
                 (button_of token) "shortcut"))
  /\ (forall words, forallb is_word words = true -> read_as_command words = true ->
        GesturesApp.prepare_config_for_displaying
          (Some (EditGestures.new_line
                   (EditGestures.mk token n (Py.join " " words)))) self
        = (Ok tt, add_row GesturesApp.empty label (Py.str n) (Py.join " " words)
                    (button_of token) "command")).
Proof.
  intros H%get_In. cbn [actions_mapping In] in H.
  repeat destruct H as [[= <- <-]|H]; try destruct H;
    (split;
     [ intros combo Hc; eapply read_back_shortcut; try reflexivity; try exact Hc;
       cbn; tauto
     | intros words Hw Hc; eapply read_back_command; try reflexivity;
       try exact Hw; try exact Hc; cbn; tauto ]).
Qed.

(** C6 for "Swipe LeftDown" with 3 fingers, a shortcut and a command. *)
Lemma saved_line_reads_back_witness :
  GesturesApp.prepare_config_for_displaying
    (Some (EditGestures.new_line
             (EditGestures.mk "gesture swipe  left_down" 3
                ("xdotool key " ++ "super+Page_Down")))) GesturesApp.empty
  = (Ok tt, add_row GesturesApp.empty "Swipe LeftDown" (Py.str 3) "super+Page_Down"
              (button_of "gesture swipe  left_down") "shortcut")
  /\ GesturesApp.prepare_config_for_displaying
       (Some (EditGestures.new_line
                (EditGestures.mk "gesture swipe  left_down" 3
                   (Py.join " " ["notify-send"; "pinch"])))) GesturesApp.empty
     = (Ok tt, add_row GesturesApp.empty "Swipe LeftDown" (Py.str 3)
                 (Py.join " " ["notify-send"; "pinch"])
                 (button_of "gesture swipe  left_down") "command").
Proof.
  destruct (saved_line_reads_back "Swipe LeftDown" "gesture swipe  left_down" 3
              GesturesApp.empty eq_refl) as [Hs Hc].
  split.
  - apply Hs. reflexivity.
  - apply Hc; reflexivity.
Defined.

(** C6 in the words of the specification does not hold: a command with two
    spaces in a row is read back with one. *)
Lemma saved_command_loses_spaces :
  rows_of (Some (EditGestures.new_line (swipe_up_edit "echo  hi")))
  = add_row GesturesApp.empty "Swipe Up" "3" "echo hi" "gesture swipe up" "command"
  /\ GesturesApp.shortcuts
       (rows_of (Some (EditGestures.new_line (swipe_up_edit "echo  hi"))))
     <> [EditGestures.shortcut (swipe_up_edit "echo  hi")].
Proof. split; [reflexivity|]. vm_compute. discriminate. Qed.

(** ** Comments and directives under edits *)

Section Frame.

Local Arguments String.eqb : simpl never.
Local Arguments Py.startswith : simpl never.
Local Arguments tokens : simpl never.

(** A line that starts with [gesture] and a space, tabs read as spaces, is
    neither a comment nor a directive. *)
Lemma gesture_line_class (line rest : string) :
  Py.replace Py.TAB Py.SPACE line = "gesture" ++ String Py.SPACE rest ->
  is_comment line = false /\ is_directive line = false.
Proof.
  intros H. assert (is_comment line = false) as Hc.
  { destruct (is_comment line) eqn:E; [|reflexivity].
    apply startswith_split in E as [r ->]. discriminate H. }
  split; [exact Hc|]. unfold is_directive. rewrite Hc. cbn [negb andb].
  unfold tokens. rewrite H. rewrite split_app by reflexivity.
  now rewrite (split_word "gesture") by reflexivity.
Qed.

Lemma token_starts_with_gesture (token : string) :
  In token (map snd actions_mapping) \/ In token (Py.keys reversed_mapping) ->
  exists rest, token = "gesture" ++ String Py.SPACE rest.
Proof.
  cbn [map snd fst actions_mapping reversed_mapping Py.keys In].
  intros [H|H]; repeat destruct H as [<-|H]; try destruct H;
    eexists; reflexivity.
Qed.

Lemma kept_class_not_prefixed (line token more : string) :
  In token (map snd actions_mapping) \/ In token (Py.keys reversed_mapping) ->
  is_comment line || is_directive line = true ->
  Py.startswith (Py.replace Py.TAB Py.SPACE line) (token ++ more) = false
  /\ Py.startswith line token = false.
Proof.
  intros [q ->]%token_starts_with_gesture Hclass. split.
  - destruct (Py.startswith _ _) eqn:E; [|reflexivity].
    apply startswith_split in E as [r E]. rewrite !append_assoc in E.
    apply gesture_line_class in E as [Hc Hd]. now rewrite Hc, Hd in Hclass.
  - destruct (Py.startswith _ _) eqn:E; [|reflexivity].
    apply startswith_split in E as [r ->].
    destruct (gesture_line_class (("gesture" ++ String Py.SPACE q) ++ r)
                (Py.replace Py.TAB Py.SPACE (q ++ r))) as [Hc Hd].
    + rewrite append_assoc. now rewrite replace_app.
    + now rewrite Hc, Hd in Hclass.
Qed.

(** The file that [delete_entry] writes has every comment and every directive
    of the file it read. *)
Lemma deleted_keeps_others (fs : file_state) (name line : string) :
  In name (Py.keys reversed_mapping) ->
  In line (read_config fs) ->
  is_comment line || is_directive line = true ->
  In line (read_config (deleted name fs)).
Proof.
  intros Hn Hin Hclass. unfold deleted.
  rewrite read_write_filter. apply filter_In. split; [exact Hin|].
  destruct (kept_class_not_prefixed line name "" (or_intror Hn) Hclass) as [_ ->].
  reflexivity.
Qed.

(** The file that [save_changes] writes has every comment and every directive
    of the file it read, when the lines of that file all have their line
    end. *)
Lemma written_keeps_others (fs : file_state) (self : EditGestures.t)
  (line : string) :
  In (EditGestures.action self) (map snd actions_mapping) ->
  forallb terminated_line (read_config fs) = true ->
  In line (read_config fs) ->
  is_comment line || is_directive line = true ->
  In line (read_config (written self fs)).
Proof.
  intros Ha Ht Hin Hclass.
  rewrite written_content. cbn [read_config].
  rewrite readlines_join_app by now apply forallb_filter.
  apply in_or_app. left. apply filter_In. split; [exact Hin|].
  unfold replaced_by, EditGestures.line_prefix.
  destruct (kept_class_not_prefixed line (EditGestures.action self)
              (" " ++ Py.str (EditGestures.fingers self)) (or_introl Ha) Hclass)
    as [-> _].
  reflexivity.
Qed.

End Frame.

(** ** Worked examples *)

(** The repair of [mixed_file] drops the directive of three tokens, the
    [xdotool] action that is not [xdotool key] and the unknown directive. *)
Example fix_config_mixed_file :
  read_config (snd (fix_config mixed_file))
  = map (fun l => l ++ nl)
      [ "# comment, preserved";
        "gesture swipe up 3 xdotool key super+Up";
        "gesture pinch in 2 notify-send pinch";
        "device touchpad" ].
Proof. reflexivity. Qed.

(** The rows are shown in the order of their labels. *)
Example rows_shown_sorted :
  GesturesApp.gestures (rows_shown three_gestures_file)
  = ["Pinch In"; "Swipe Down"; "Swipe Up"].
Proof. reflexivity. Qed.

(** * Further properties *)

(** ** The file, read and written *)

Lemma join_lines_from (w s : string) :
  Py.join "" (Py.lines_from w s) = w ++ s.
Proof.
  revert w; induction s as [|c s IH]; intros w; cbn [Py.lines_from].
  - rewrite append_nil_r. destruct (String.eqb_spec w "") as [->|_]; reflexivity.
  - destruct (Ascii.eqb_spec c Py.LF) as [->|_].
    + rewrite concat_cons, IH. unfold nl. now rewrite append_snoc.
    + now rewrite IH, append_snoc.
Qed.

(** X1.  The lines that [read_config] gives: each ends with [\n] and has no
    other line end, but the last one, which can lack its [\n] and is then not
    empty. *)
Theorem read_config_gives_lines (fs : file_state) :
  lines_ok (read_config fs) = true.
Proof. destruct fs; [apply lines_ok_readlines | reflexivity]. Qed.

(** X2.  Lines of that shape, written and read again, are the same lines. *)
Theorem write_config_then_read (new_conf : list string) :
  lines_ok new_conf = true ->
  read_config (write_config new_conf) = new_conf.
Proof. intros H. cbn [write_config read_config]. now apply readlines_join. Qed.

(** X2 at an example. *)
Lemma write_config_then_read_witness :
  read_config (write_config two_lines) = two_lines.
Proof. apply (write_config_then_read two_lines). reflexivity. Defined.

(** X3.  A file without carriage return, read and written back line by line,
    is as it was. *)
Theorem read_config_then_write (content : string) :
  no_cr content = true ->
  write_config (read_config (Some content)) = Some content.
Proof.
  intros H. unfold write_config, read_config, Py.readlines.
  rewrite universal_newlines_no_cr by assumption.
  now rewrite join_lines_from.
Qed.

(** X3 at an example. *)
Lemma read_config_then_write_witness :
  write_config (read_config (Some plain_text)) = Some plain_text.
Proof. apply (read_config_then_write plain_text). reflexivity. Defined.

(** ** The outcomes of [fix_config] and of the reading that follows *)

(** X4.  [fix_config] raises on the files that have a line out of range, and
    on no other; it raises nothing but [IndexError]. *)
Theorem fix_config_outcome (fs : file_state) :
  fst (fix_config fs)
  = if existsb out_of_range (read_config fs) then Raise IndexError else Ok tt.
Proof.
  destruct (existsb out_of_range (read_config fs)) eqn:E.
  - now rewrite fix_config_out_of_range.
  - rewrite existsb_forallb_negb in E. apply negb_false_iff in E.
    now rewrite fix_config_in_range.
Qed.

Section AfterRepair.

Local Arguments String.eqb : simpl never.
Local Arguments Py.startswith : simpl never.
Local Arguments Py.get : simpl never.
Local Arguments tokens : simpl never.

Lemma split_from_first (s w : string) :
  w <> "" -> exists x rest, Py.split_from w s = (w ++ x) :: rest.
Proof.
  revert w; induction s as [|c s IH]; intros w Hw; cbn [Py.split_from].
  - apply String.eqb_neq in Hw. rewrite Hw. exists "", []. now rewrite append_nil_r.
  - destruct (Py.isspace c).
    + apply String.eqb_neq in Hw. rewrite Hw. exists "". eexists.
      now rewrite append_nil_r.
    + destruct (IH (w ++ String c "")) as (x & rest & E).
      { now destruct w. }
      rewrite E. exists (String c x), rest. now rewrite append_snoc.
Qed.

(** The first token of a line that starts with [gesture] starts with it. *)
Lemma starts_gesture_first_token (line : string) :
  Py.startswith line "gesture" = true ->
  exists x rest, tokens line = ("gesture" ++ x) :: rest.
Proof.
  intros [r ->]%startswith_split. unfold tokens, Py.split.
  rewrite replace_app.
  change (Py.replace Py.TAB Py.SPACE "gesture") with "gesture".
  rewrite split_from_word by reflexivity.
  apply split_from_first. discriminate.
Qed.

(** A line that [fix_config] keeps is read, or has an unknown gesture. *)
Lemma prepare_line_kept (line : string) (self : GesturesApp.t) :
  kept line = true ->
  fst (GesturesApp.prepare_line line self) = Ok tt
  \/ fst (GesturesApp.prepare_line line self) = Raise KeyError.
Proof.
  rewrite kept_line_ok. unfold line_ok, action_form_ok.
  destruct (Py.startswith line "gesture") eqn:Hs;
    [|intros _; left; now rewrite prepare_line_skip].
  destruct (Py.startswith line "#") eqn:Hc.
  { apply startswith_split in Hc as [r ->]. discriminate Hs. }
  destruct (starts_gesture_first_token line Hs) as (x & rest & Et).
  unfold GesturesApp.prepare_line. rewrite Hs. fold (tokens line). rewrite Et.
  cbn [orb negb].
  change (Py.mem ("gesture" ++ x) ["device"; "swipe_threshold"]) with false.
  cbv iota.
  destruct ("gesture" ++ x =? "gesture"); [|discriminate].
  destruct rest as [|b [|c rest]]; try discriminate.
  unfold GesturesApp.seq, GesturesApp.lift, Py.subscript.
  cbn [Py.getitem nth_error].
  destruct (Py.get reversed_mapping _) as [label|]; [|intros _; now right].
  cbn [GesturesApp.gestures_append].
  destruct rest as [|count [|fifth rest]]; try discriminate.
  cbn [nth_error Py.getitem GesturesApp.fingers_append].
  unfold GesturesApp.is_xdotool_key, bind, Py.getitem. cbn [nth_error].
  destruct (fifth =? "xdotool"); [|intros _; now left].
  destruct rest as [|sixth rest]; [discriminate|]. cbn [nth_error].
  destruct (sixth =? "key"); [|discriminate].
  destruct rest as [|combo rest]; [discriminate|]. intros _. now left.
Qed.

Lemma prepare_loop_kept (conf : list string) (self : GesturesApp.t) :
  forallb kept conf = true ->
  fst (GesturesApp.prepare_loop conf self) = Ok tt
  \/ fst (GesturesApp.prepare_loop conf self) = Raise KeyError.
Proof.
  revert self; induction conf as [|l conf IH]; intros self; [now left|].
  cbn [forallb]. intros [Hl Hconf]%andb_prop. rewrite prepare_loop_cons.
  destruct (prepare_line_kept l self Hl) as [H|H];
    destruct (GesturesApp.prepare_line l self) as [[u|e] self'];
    cbn [fst] in *; try discriminate.
  - now apply IH.
  - right. congruence.
Qed.

Lemma forallb_filter_same {A : Type} (p : A -> bool) (l : list A) :
  forallb p (filter p l) = true.
Proof.
  induction l as [|a l IH]; [reflexivity|].
  cbn [filter]. destruct (p a) eqn:E; [|exact IH].
  cbn [forallb]. now rewrite E.
Qed.

End AfterRepair.

(** X5.  When [fix_config] has returned, reading the file does not raise
    [IndexError] any more: it returns, or raises [KeyError] for a gesture that
    is in no table. *)
Theorem prepare_after_fix_config (fs : file_state) (self : GesturesApp.t) :
  fst (fix_config fs) = Ok tt ->
  fst (GesturesApp.prepare_config_for_displaying (snd (fix_config fs)) self) = Ok tt
  \/ fst (GesturesApp.prepare_config_for_displaying (snd (fix_config fs)) self)
     = Raise KeyError.
Proof.
  destruct (existsb out_of_range (read_config fs)) eqn:E;
    [now rewrite fix_config_out_of_range|].
  intros _. rewrite existsb_forallb_negb in E. apply negb_false_iff in E.
  rewrite (fix_config_in_range fs E). cbn [snd].
  unfold GesturesApp.prepare_config_for_displaying.
  rewrite read_write_filter. apply prepare_loop_kept, forallb_filter_same.
Qed.

(** X5 at an example. *)
Lemma prepare_after_fix_config_witness :
  fst (GesturesApp.prepare_config_for_displaying (snd (fix_config sideways_file))
         GesturesApp.empty) = Ok tt
  \/ fst (GesturesApp.prepare_config_for_displaying (snd (fix_config sideways_file))
            GesturesApp.empty) = Raise KeyError.
Proof.
  apply (prepare_after_fix_config sideways_file GesturesApp.empty). reflexivity.
Defined.

(** ** The rows that [prepare_config_for_displaying] reads *)

Section Rows.

Local Arguments String.eqb : simpl never.
Local Arguments Py.startswith : simpl never.
Local Arguments Py.get : simpl never.
Local Arguments tokens : simpl never.

Lemma rows_read_add_row (self : GesturesApp.t) (n : nat)
  (label count value button kind : string) :
  rows_read self n ->
  Py.get reversed_mapping button = Some label ->
  kind = "shortcut" \/ kind = "command" ->
  rows_read (add_row self label count value button kind) (S n).
Proof.
  intros ((Hg & Hf & Hs & Hb & Ha) & H2 & Hk) Hl Hkind.
  unfold rows_read, row_count, add_row. cbn.
  rewrite !length_app, Hg, Hf, Hs, Hb, Ha. cbn.
  repeat split; try lia.
  - apply Forall2_app; [exact H2 | now constructor].
  - apply Forall_app. split; [exact Hk | now constructor].
Qed.

(** A line that is read adds one row, taken from the tables; a line that does
    not start with [gesture] adds nothing. *)
Lemma prepare_line_row (line : string) (self : GesturesApp.t) (n : nat) :
  rows_read self n ->
  fst (GesturesApp.prepare_line line self) = Ok tt ->
  rows_read (snd (GesturesApp.prepare_line line self))
    (if starts_gesture line then S n else n).
Proof.
  intros Hself. unfold starts_gesture, GesturesApp.prepare_line.
  destruct (Py.startswith line "gesture"); [|intros _; exact Hself].
  fold (tokens line).
  unfold GesturesApp.seq, GesturesApp.lift, Py.subscript.
  destruct (tokens line) as [|a [|b [|c rest]]]; try discriminate.
  cbn [Py.getitem nth_error].
  destruct (Py.get reversed_mapping (format_triple a b c)) as [label|] eqn:El;
    [|discriminate].
  cbn [GesturesApp.gestures_append].
  destruct rest as [|count [|fifth rest]]; try discriminate.
  cbn [Py.getitem nth_error GesturesApp.fingers_append].
  unfold GesturesApp.is_xdotool_key, bind, Py.getitem. cbn [nth_error].
  destruct (fifth =? "xdotool").
  - destruct rest as [|sixth rest]; [discriminate|]. cbn [nth_error].
    destruct (sixth =? "key").
    + destruct rest as [|combo rest]; [discriminate|]. intros _.
      apply (rows_read_add_row self n label count combo
               (format_triple a b c) "shortcut"); auto.
    + intros _.
      apply (rows_read_add_row self n label count
               (Py.join " " (Py.slice_from (a :: b :: c :: count :: fifth :: sixth :: rest) 4))
               (format_triple a b c) "command"); auto.
  - intros _.
    apply (rows_read_add_row self n label count
             (Py.join " " (Py.slice_from (a :: b :: c :: count :: fifth :: rest) 4))
             (format_triple a b c) "command"); auto.
Qed.

Lemma prepare_loop_rows (conf : list string) (self : GesturesApp.t) (n : nat) :
  rows_read self n ->
  fst (GesturesApp.prepare_loop conf self) = Ok tt ->
  rows_read (snd (GesturesApp.prepare_loop conf self))
    (n + List.length (filter starts_gesture conf)).
Proof.
  revert self n; induction conf as [|l conf IH]; intros self n Hself.
  - intros _. cbn. now rewrite Nat.add_0_r.
  - rewrite prepare_loop_cons. cbn [filter].
    pose proof (prepare_line_row l self n Hself) as Hl.
    destruct (GesturesApp.prepare_line l self) as [[[]|e] self']; [|discriminate].
    cbn [fst snd] in Hl. specialize (Hl eq_refl). intros H.
    specialize (IH self' _ Hl H).
    destruct (starts_gesture l); cbn [List.length]; [|exact IH].
    now rewrite Nat.add_succ_r.
Qed.

Lemma rows_read_empty : rows_read GesturesApp.empty 0.
Proof. repeat split; constructor. Qed.

Lemma prepare_loop_skip (conf : list string) (self : GesturesApp.t) :
  GesturesApp.prepare_loop conf self
  = GesturesApp.prepare_loop (filter starts_gesture conf) self.
Proof.
  revert self; induction conf as [|l conf IH]; intros self; [reflexivity|].
  cbn [filter]. unfold starts_gesture at 1.
  destruct (Py.startswith l "gesture") eqn:E.
  - rewrite !prepare_loop_cons.
    destruct (GesturesApp.prepare_line l self) as [[u|e] self']; [apply IH|reflexivity].
  - rewrite prepare_loop_cons, prepare_line_skip by assumption. apply IH.
Qed.

End Rows.

(** X6.  [prepare_config_for_displaying] returns exactly on the files that
    have no line of [parse_rejects]. *)
Theorem prepare_outcome (fs : file_state) (self : GesturesApp.t) :
  fst (GesturesApp.prepare_config_for_displaying fs self) = Ok tt
  <-> existsb parse_rejects (read_config fs) = false.
Proof.
  split.
  - intros H. destruct (existsb parse_rejects (read_config fs)) eqn:E; [|reflexivity].
    destruct (prepare_loop_rejects (read_config fs) GesturesApp.empty E) as [e He].
    unfold GesturesApp.prepare_config_for_displaying in H. congruence.
  - apply prepare_loop_accepts.
Qed.

(** X7.  When [prepare_config_for_displaying] returns, each of the five lists
    has one item per line of the file that starts with [gesture]. *)
Theorem prepare_row_count (fs : file_state) (self : GesturesApp.t) :
  fst (GesturesApp.prepare_config_for_displaying fs self) = Ok tt ->
  row_count (snd (GesturesApp.prepare_config_for_displaying fs self))
    (List.length (filter starts_gesture (read_config fs))).
Proof.
  intros H.
  apply (prepare_loop_rows (read_config fs) GesturesApp.empty 0 rows_read_empty H).
Qed.

(** X7 at an example. *)
Lemma prepare_row_count_witness :
  row_count
    (snd (GesturesApp.prepare_config_for_displaying mixed_file GesturesApp.empty))
    (List.length (filter starts_gesture (read_config mixed_file))).
Proof.
  apply (prepare_row_count mixed_file GesturesApp.empty). reflexivity.
Defined.

(** X8.  When [prepare_config_for_displaying] returns, the label of every row
    is the entry of [reversed_mapping] for the button name of the row, and
    the kind of every row is [shortcut] or [command]. *)
Theorem prepare_rows_from_tables (fs : file_state) (self : GesturesApp.t) :
  fst (GesturesApp.prepare_config_for_displaying fs self) = Ok tt ->
  Forall2 (fun button label => Py.get reversed_mapping button = Some label)
    (GesturesApp.buttons (snd (GesturesApp.prepare_config_for_displaying fs self)))
    (GesturesApp.gestures (snd (GesturesApp.prepare_config_for_displaying fs self)))
  /\ Forall (fun kind => kind = "shortcut" \/ kind = "command")
       (GesturesApp.actions (snd (GesturesApp.prepare_config_for_displaying fs self))).
Proof.
  intros H.
  apply (prepare_loop_rows (read_config fs) GesturesApp.empty 0 rows_read_empty H).
Qed.

(** X8 at an example. *)
Lemma prepare_rows_from_tables_witness :
  Forall2 (fun button label => Py.get reversed_mapping button = Some label)
    (GesturesApp.buttons
       (snd (GesturesApp.prepare_config_for_displaying mixed_file GesturesApp.empty)))
    (GesturesApp.gestures
       (snd (GesturesApp.prepare_config_for_displaying mixed_file GesturesApp.empty)))
  /\ Forall (fun kind => kind = "shortcut" \/ kind = "command")
       (GesturesApp.actions
          (snd (GesturesApp.prepare_config_for_displaying mixed_file GesturesApp.empty))).
Proof.
  apply (prepare_rows_from_tables mixed_file GesturesApp.empty). reflexivity.
Defined.

(** X9.  The lines that do not start with [gesture] play no part in what is
    read: without them in the file, the outcome and the rows are the same. *)
Theorem prepare_ignores_other_lines (fs : file_state) (self : GesturesApp.t) :
  GesturesApp.prepare_config_for_displaying
    (write_config (filter starts_gesture (read_config fs))) self
  = GesturesApp.prepare_config_for_displaying fs self.
Proof.
  unfold GesturesApp.prepare_config_for_displaying.
  rewrite read_write_filter. symmetry. apply prepare_loop_skip.
Qed.

(** ** [sort_config] and [display_config] *)

Section Sorting.

Lemma string_compare_eq (x y : string) : String.compare x y = Eq <-> x = y.
Proof. apply String_as_OT.cmp_eq. Qed.

Lemma string_compare_opp (x y : string) :
  String.compare y x = CompOpp (String.compare x y).
Proof. apply String.compare_antisym. Qed.

Lemma string_compare_trans (x y z : string) (c : comparison) :
  String.compare x y = c -> String.compare y z = c -> String.compare x z = c.
Proof.
  destruct c; intros H1 H2.
  - apply string_compare_eq in H1, H2. subst. now apply string_compare_eq.
  - apply String_as_OT.cmp_lt in H1, H2. apply String_as_OT.cmp_lt.
    now apply String_as_OT.lt_trans with y.
  - rewrite string_compare_opp in H1, H2. rewrite string_compare_opp.
    destruct (String.compare y x) eqn:E1; try discriminate.
    destruct (String.compare z y) eqn:E2; try discriminate.
    apply String_as_OT.cmp_lt in E1, E2.
    assert (String.compare z x = Lt) as ->; [|reflexivity].
    apply String_as_OT.cmp_lt. now apply String_as_OT.lt_trans with y.
Qed.

Lemma ltb_compare (x y : string) :
  (if negb (x =? y) then String.ltb x y else false)
  = match String.compare x y with Lt => true | _ => false end.
Proof.
  unfold String.ltb. destruct (String.eqb_spec x y) as [->|Hne]; cbn [negb].
  - now rewrite (proj2 (string_compare_eq y y) eq_refl).
  - reflexivity.
Qed.

(** [row_ltb] is "less" for [row_compare]. *)
Lemma row_ltb_compare (r1 r2 : GesturesApp.row) :
  GesturesApp.row_ltb r1 r2
  = match row_compare r1 r2 with Lt => true | _ => false end.
Proof.
  destruct r1 as [el1 [[[f1 s1] b1] a1]], r2 as [el2 [[[f2 s2] b2] a2]].
  unfold GesturesApp.row_ltb, row_compare, row_list. cbn [list_compare].
  repeat match goal with
  | |- context [negb (?x =? ?y)] =>
      destruct (String.eqb_spec x y) as [->|?]; cbn [negb];
      [ rewrite (proj2 (string_compare_eq y y) eq_refl)
      | unfold String.ltb; destruct (String.compare x y) eqn:?;
        [ exfalso; match goal with H : String.compare _ _ = Eq |- _ =>
            apply string_compare_eq in H end; congruence
        | reflexivity | reflexivity ] ]
  end.
  unfold String.ltb. now destruct (String.compare a1 a2).
Qed.

Lemma row_compare_opp (r1 r2 : GesturesApp.row) :
  row_compare r2 r1 = CompOpp (row_compare r1 r2).
Proof.
  apply list_compare_antisym;
    [exact string_compare_eq | exact string_compare_opp].
Qed.

Lemma row_leb_compare (r1 r2 : GesturesApp.row) :
  row_leb r1 r2 = match row_compare r1 r2 with Gt => false | _ => true end.
Proof.
  unfold row_leb. rewrite row_ltb_compare, row_compare_opp.
  now destruct (row_compare r1 r2).
Qed.

Lemma row_leb_total (r1 r2 : GesturesApp.row) :
  row_leb r1 r2 = true \/ row_leb r2 r1 = true.
Proof.
  rewrite !row_leb_compare, (row_compare_opp r1 r2).
  destruct (row_compare r1 r2); auto.
Qed.

Lemma row_leb_trans (r1 r2 r3 : GesturesApp.row) :
  row_leb r1 r2 = true -> row_leb r2 r3 = true -> row_leb r1 r3 = true.
Proof.
  rewrite !row_leb_compare. unfold row_compare.
  destruct (list_compare String.compare (row_list r1) (row_list r2)) eqn:E12;
    [| |discriminate];
    (destruct (list_compare String.compare (row_list r2) (row_list r3)) eqn:E23;
     [| |discriminate]); intros _ _.
  - apply (list_compare_refl _ string_compare_eq) in E12. now rewrite E12, E23.
  - apply (list_compare_refl _ string_compare_eq) in E12. now rewrite E12, E23.
  - apply (list_compare_refl _ string_compare_eq) in E23. now rewrite <- E23, E12.
  - rewrite (list_compare_trans _ string_compare_eq _ _ _
               string_compare_trans string_compare_opp E12 E23).
    reflexivity.
Qed.

Lemma insert_perm (r : GesturesApp.row) (l : list GesturesApp.row) :
  Permutation (r :: l) (GesturesApp.insert r l).
Proof.
  induction l as [|r' l IH]; cbn [GesturesApp.insert]; [reflexivity|].
  destruct (GesturesApp.row_ltb r r'); [reflexivity|].
  rewrite perm_swap. now constructor.
Qed.

Lemma fold_insert_perm (l acc : list GesturesApp.row) :
  Permutation (l ++ acc)
    (fold_left (fun acc r => GesturesApp.insert r acc) l acc).
Proof.
  revert acc; induction l as [|r l IH]; intros acc; cbn [fold_left app];
    [reflexivity|].
  rewrite <- IH. rewrite <- insert_perm. apply Permutation_middle.
Qed.

Lemma sorted_perm (l : list GesturesApp.row) :
  Permutation l (GesturesApp.sorted l).
Proof.
  unfold GesturesApp.sorted. rewrite <- fold_insert_perm. now rewrite app_nil_r.
Qed.

Lemma insert_sorted (r : GesturesApp.row) (l : list GesturesApp.row) :
  StronglySorted (fun r1 r2 => row_leb r1 r2 = true) l ->
  StronglySorted (fun r1 r2 => row_leb r1 r2 = true) (GesturesApp.insert r l).
Proof.
  induction 1 as [|r' l Hl IH Hr']; cbn [GesturesApp.insert].
  - repeat constructor.
  - destruct (GesturesApp.row_ltb r r') eqn:E.
    + assert (row_leb r r' = true) as Hle.
      { rewrite row_leb_compare. rewrite row_ltb_compare in E.
        now destruct (row_compare r r'). }
      constructor; [now constructor|]. constructor; [exact Hle|].
      revert Hr'. apply Forall_impl. intros x. now apply row_leb_trans.
    + constructor; [exact IH|].
      apply (Permutation_Forall (insert_perm r l)).
      constructor; [|exact Hr']. unfold row_leb. now rewrite E.
Qed.

Lemma sorted_sorted (l : list GesturesApp.row) :
  StronglySorted (fun r1 r2 => row_leb r1 r2 = true) (GesturesApp.sorted l).
Proof.
  unfold GesturesApp.sorted.
  assert (forall acc, StronglySorted (fun r1 r2 => row_leb r1 r2 = true) acc ->
            StronglySorted (fun r1 r2 => row_leb r1 r2 = true)
              (fold_left (fun acc r => GesturesApp.insert r acc) l acc)) as H.
  { induction l as [|r l IH]; intros acc Hacc; cbn [fold_left]; [exact Hacc|].
    now apply IH, insert_sorted. }
  apply H. constructor.
Qed.

(** The items of [for_sorting] are the rows, when the lists are as long as
    [gestures]. *)
Lemma for_sorting_from_rows (g0 pf ps pb pa g f s b a : list string) (i : nat) :
  List.length pf = i -> List.length ps = i -> List.length pb = i ->
  List.length pa = i ->
  List.length f = List.length g -> List.length s = List.length g ->
  List.length b = List.length g -> List.length a = List.length g ->
  GesturesApp.for_sorting_from
    (GesturesApp.mk g0 (pf ++ f) (ps ++ s) (pb ++ b) (pa ++ a))%list i g
  = Ok (combine g (combine (combine (combine f s) b) a)).
Proof.
  revert pf ps pb pa f s b a i.
  induction g as [|el g IH]; intros pf ps pb pa f s b a i Hpf Hps Hpb Hpa Hf Hs Hb Ha;
    [reflexivity|].
  destruct f as [|x f]; [discriminate|]. destruct s as [|y s]; [discriminate|].
  destruct b as [|z b]; [discriminate|]. destruct a as [|w a]; [discriminate|].
  cbn [GesturesApp.for_sorting_from GesturesApp.fingers GesturesApp.shortcuts
       GesturesApp.buttons GesturesApp.actions].
  unfold Py.getitem.
  rewrite !nth_error_app2 by lia.
  rewrite Hpf, Hps, Hpb, Hpa, Nat.sub_diag. cbn [nth_error bind].
  replace (pf ++ x :: f)%list with ((pf ++ [x]) ++ f)%list
    by (now rewrite <- app_assoc).
  replace (ps ++ y :: s)%list with ((ps ++ [y]) ++ s)%list
    by (now rewrite <- app_assoc).
  replace (pb ++ z :: b)%list with ((pb ++ [z]) ++ b)%list
    by (now rewrite <- app_assoc).
  replace (pa ++ w :: a)%list with ((pa ++ [w]) ++ a)%list
    by (now rewrite <- app_assoc).
  rewrite IH; try (rewrite length_app; cbn; lia); try (cbn in *; lia).
  reflexivity.
Qed.

Lemma for_sorting_rows (self : GesturesApp.t) (n : nat) :
  row_count self n ->
  GesturesApp.for_sorting_from self 0 (GesturesApp.gestures self) = Ok (rows self).
Proof.
  intros (Hg & Hf & Hs & Hb & Ha). destruct self as [g f s b a]. cbn in *.
  apply (for_sorting_from_rows g [] [] [] [] g f s b a 0);
    first [reflexivity | congruence].
Qed.

(** The five lists taken from rows hold those rows. *)
Lemma rows_of_columns (l : list GesturesApp.row) :
  let self :=
    GesturesApp.mk
      (map (fun line : GesturesApp.row => fst line) l)
      (map (fun line : GesturesApp.row => let '(_, (f, _, _, _)) := line in f) l)
      (map (fun line : GesturesApp.row => let '(_, (_, s, _, _)) := line in s) l)
      (map (fun line : GesturesApp.row => let '(_, (_, _, b, _)) := line in b) l)
      (map (fun line : GesturesApp.row => let '(_, (_, _, _, a)) := line in a) l) in
  rows self = l /\ row_count self (List.length l).
Proof.
  cbn zeta. unfold rows, row_count. cbn. rewrite !length_map.
  split; [|repeat split].
  induction l as [|[el [[[f s] b] a]] l IH]; [reflexivity|].
  cbn. now rewrite IH.
Qed.

Lemma sort_config_rows (self : GesturesApp.t) (n : nat) :
  row_count self n ->
  fst (GesturesApp.sort_config self) = Ok tt
  /\ rows (snd (GesturesApp.sort_config self)) = GesturesApp.sorted (rows self)
  /\ row_count (snd (GesturesApp.sort_config self)) n.
Proof.
  intros H. unfold GesturesApp.sort_config. rewrite (for_sorting_rows self n H).
  cbn [fst snd].
  destruct (rows_of_columns (GesturesApp.sorted (rows self))) as [Hr Hc].
  cbn zeta in Hr, Hc. split; [reflexivity|]. split; [exact Hr|].
  assert (List.length (GesturesApp.sorted (rows self)) = n) as <-; [|exact Hc].
  rewrite <- (Permutation_length (sorted_perm (rows self))).
  destruct H as (Hg & Hf & Hs & Hb & Ha). unfold rows, GesturesApp.row.
  rewrite !length_combine. lia.
Qed.

End Sorting.

(** X10.  On five lists of the same length [sort_config] returns; the rows
    are the same rows, each with its own fields, in ascending order of label,
    finger count, action text, button name and kind. *)
Theorem sort_config_sorts (self : GesturesApp.t) (n : nat) :
  row_count self n ->
  fst (GesturesApp.sort_config self) = Ok tt
  /\ row_count (snd (GesturesApp.sort_config self)) n
  /\ Permutation (rows self) (rows (snd (GesturesApp.sort_config self)))
  /\ StronglySorted (fun r1 r2 => row_leb r1 r2 = true)
       (rows (snd (GesturesApp.sort_config self))).
Proof.
  intros H. destruct (sort_config_rows self n H) as (Hok & Hrows & Hcount).
  rewrite Hrows. repeat split; try assumption; try apply Hcount.
  - apply sorted_perm.
  - apply sorted_sorted.
Qed.

(** X10 at an example. *)
Lemma sort_config_sorts_witness :
  fst (GesturesApp.sort_config (rows_of three_gestures_file)) = Ok tt
  /\ row_count (snd (GesturesApp.sort_config (rows_of three_gestures_file))) 3
  /\ Permutation (rows (rows_of three_gestures_file))
       (rows (snd (GesturesApp.sort_config (rows_of three_gestures_file))))
  /\ StronglySorted (fun r1 r2 => row_leb r1 r2 = true)
       (rows (snd (GesturesApp.sort_config (rows_of three_gestures_file)))).
Proof.
  apply (sort_config_sorts (rows_of three_gestures_file) 3).
  repeat split.
Defined.

Section Display.

Lemma rows_of_count (fs : file_state) :
  fst (GesturesApp.prepare_loop (read_config fs) GesturesApp.empty) = Ok tt ->
  row_count (snd (GesturesApp.prepare_loop (read_config fs) GesturesApp.empty))
    (List.length (filter starts_gesture (read_config fs))).
Proof.
  intros H.
  apply (prepare_loop_rows (read_config fs) GesturesApp.empty 0 rows_read_empty H).
Qed.

(** After a reading that returned, [sort_config] returns. *)
Lemma sort_config_after_prepare (fs : file_state) (u : unit) (self1 : GesturesApp.t) :
  GesturesApp.prepare_loop (read_config fs) GesturesApp.empty = (Ok u, self1) ->
  fst (GesturesApp.sort_config self1) = Ok tt.
Proof.
  intros E. pose proof (rows_of_count fs) as H. rewrite E in H. destruct u.
  now apply (sort_config_rows self1 _ (H eq_refl)).
Qed.

End Display.

(** X11.  When the answer to "Fix it?" is No, [display_config] leaves the file
    as it is; it returns when the file can be read and raises [SystemExit]
    when it cannot, and nothing else. *)
Theorem display_config_declined (fs : file_state) (self : GesturesApp.t) :
  snd (GesturesApp.display_config false fs self) = fs
  /\ fst (fst (GesturesApp.display_config false fs self))
     = if existsb parse_rejects (read_config fs) then Raise SystemExit else Ok tt.
Proof.
  unfold GesturesApp.display_config, GesturesApp.prepare_config_for_displaying.
  destruct (existsb parse_rejects (read_config fs)) eqn:E.
  - destruct (prepare_loop_rejects (read_config fs) GesturesApp.empty E) as [e He].
    destruct (GesturesApp.prepare_loop (read_config fs) GesturesApp.empty)
      as [[u|e'] self1]; [discriminate|]. now split.
  - pose proof (prepare_loop_accepts (read_config fs) GesturesApp.empty E) as H.
    destruct (GesturesApp.prepare_loop (read_config fs) GesturesApp.empty)
      as [[u|e'] self1] eqn:E1; [|discriminate].
    split; [reflexivity|]. cbn [fst]. now apply (sort_config_after_prepare fs u).
Qed.

(** X12.  When the answer is Yes, [display_config] returns or raises
    [IndexError] or [KeyError], never [SystemExit]; when it raises
    [IndexError] the file is as it was. *)
Theorem display_config_accepted (fs : file_state) (self : GesturesApp.t) :
  (fst (fst (GesturesApp.display_config true fs self)) = Ok tt
   \/ fst (fst (GesturesApp.display_config true fs self)) = Raise IndexError
   \/ fst (fst (GesturesApp.display_config true fs self)) = Raise KeyError)
  /\ (fst (fst (GesturesApp.display_config true fs self)) = Raise IndexError ->
      snd (GesturesApp.display_config true fs self) = fs).
Proof.
  unfold GesturesApp.display_config, GesturesApp.prepare_config_for_displaying.
  destruct (GesturesApp.prepare_loop (read_config fs) GesturesApp.empty)
    as [[u|e] self1] eqn:E1.
  - cbn [fst snd]. rewrite (sort_config_after_prepare fs u self1 E1).
    split; [now left | reflexivity].
  - destruct (existsb out_of_range (read_config fs)) eqn:Eo.
    + rewrite (fix_config_out_of_range fs Eo). cbn [fst snd].
      split; [right; now left | reflexivity].
    + rewrite existsb_forallb_negb in Eo. apply negb_false_iff in Eo.
      rewrite (fix_config_in_range fs Eo).
      pose proof (prepare_loop_kept (filter kept (read_config fs)) GesturesApp.empty
                    (forallb_filter_same kept (read_config fs))) as Hk.
      pose proof (sort_config_after_prepare
                    (write_config (filter kept (read_config fs)))) as Hsort.
      rewrite read_write_filter in *.
      destruct (GesturesApp.prepare_loop (filter kept (read_config fs))
                  GesturesApp.empty) as [[u|e2] self2].
      * cbn [fst snd]. rewrite (Hsort u self2 eq_refl).
        split; [now left | discriminate].
      * cbn [fst snd] in *. destruct Hk as [Hk|Hk]; [discriminate|].
        rewrite Hk. split; [right; now right | discriminate].
Qed.

(** X13.  When [display_config] returns, the rows it shows are the rows read
    from the file as it is then, each with its own fields, in ascending
    order. *)
Theorem display_config_shows_sorted_rows (reply_yes : bool) (fs : file_state)
  (self : GesturesApp.t) :
  fst (fst (GesturesApp.display_config reply_yes fs self)) = Ok tt ->
  Permutation
    (rows (rows_of (snd (GesturesApp.display_config reply_yes fs self))))
    (rows (snd (fst (GesturesApp.display_config reply_yes fs self))))
  /\ StronglySorted (fun r1 r2 => row_leb r1 r2 = true)
       (rows (snd (fst (GesturesApp.display_config reply_yes fs self)))).
Proof.
  intros H.
  destruct (display_config_shows_whole_file reply_yes fs self H) as [Hp Hs].
  cbn zeta in Hp, Hs. rewrite <- Hs.
  set (fs' := snd (GesturesApp.display_config reply_yes fs self)) in *.
  assert (row_count (rows_of fs')
            (List.length (filter starts_gesture (read_config fs')))) as Hc.
  { apply rows_of_count.
    unfold GesturesApp.prepare_config_for_displaying in Hp. now rewrite Hp. }
  destruct (sort_config_rows _ _ Hc) as (_ & Hrows & _).
  rewrite Hrows. split; [apply sorted_perm | apply sorted_sorted].
Qed.

(** X13 at an example. *)
Lemma display_config_shows_sorted_rows_witness :
  Permutation
    (rows (rows_of (snd (GesturesApp.display_config true mixed_file GesturesApp.empty))))
    (rows (snd (fst (GesturesApp.display_config true mixed_file GesturesApp.empty))))
  /\ StronglySorted (fun r1 r2 => row_leb r1 r2 = true)
       (rows (snd (fst (GesturesApp.display_config true mixed_file GesturesApp.empty)))).
Proof.
  apply (display_config_shows_sorted_rows true mixed_file GesturesApp.empty).
  reflexivity.
Defined.

(** ** [delete_entry] *)

Section Delete.

Local Arguments Py.startswith : simpl never.

Lemma filter_twice {A : Type} (p : A -> bool) (l : list A) :
  filter p (filter p l) = filter p l.
Proof.
  induction l as [|a l IH]; [reflexivity|].
  cbn [filter]. destruct (p a) eqn:E; [|exact IH].
  cbn [filter]. now rewrite E, IH.
Qed.

Lemma filter_swap {A : Type} (p q : A -> bool) (l : list A) :
  filter p (filter q l) = filter q (filter p l).
Proof.
  induction l as [|a l IH]; [reflexivity|].
  cbn [filter]. destruct (q a) eqn:Eq, (p a) eqn:Ep; cbn [filter];
    rewrite ?Eq, ?Ep, IH; reflexivity.
Qed.

Lemma filter_same {A : Type} (p : A -> bool) (l : list A) :
  (forall a, p a = true) -> filter p l = l.
Proof.
  intros H. rewrite (filter_ext p (fun _ => true)) by exact H. apply filter_all.
Qed.

Lemma existsb_filter {A : Type} (p q : A -> bool) (l : list A) :
  existsb p l = false -> existsb p (filter q l) = false.
Proof.
  induction l as [|a l IH]; [reflexivity|].
  cbn [existsb filter]. intros [Ha Hl]%orb_false_elim.
  destruct (q a); cbn [existsb]; [rewrite Ha|]; now apply IH.
Qed.

Lemma deleted_read (name : string) (fs : file_state) :
  read_config (deleted name fs) = filter (not_named name) (read_config fs).
Proof. unfold deleted. apply read_write_filter. Qed.

Lemma deleted_written_back (name : string) (fs : file_state) :
  write_config (read_config (deleted name fs)) = deleted name fs.
Proof. now rewrite deleted_read. Qed.

Lemma deleted_twice (a b : string) (fs : file_state) :
  deleted a (deleted b fs)
  = write_config (filter (not_named a) (filter (not_named b) (read_config fs))).
Proof.
  unfold deleted at 1. fold (not_named a). now rewrite deleted_read.
Qed.

Lemma deleted_readable (name : string) (fs : file_state) :
  readable fs = true -> readable (deleted name fs) = true.
Proof.
  unfold readable. intros H%negb_true_iff. apply negb_true_iff.
  rewrite deleted_read. now apply existsb_filter.
Qed.

(** A deletion that leaves a file that can be read leaves the file that it
    wrote. *)
Lemma delete_entry_readable (name : string) (reply_fix : bool) (fs : file_state)
  (self : GesturesApp.t) :
  readable (deleted name fs) = true ->
  file_after (GesturesApp.delete_entry name true reply_fix fs self)
  = deleted name fs.
Proof.
  intros H. now rewrite delete_entry_file, display_config_readable.
Qed.

(** The lines of the file after a deletion. *)
Lemma delete_entry_read (name : string) (reply_fix : bool) (fs : file_state)
  (self : GesturesApp.t) :
  read_config (file_after (GesturesApp.delete_entry name true reply_fix fs self))
  = filter (survives reply_fix (deleted name fs))
      (filter (not_named name) (read_config fs)).
Proof.
  now rewrite delete_entry_file, display_config_lines, deleted_read.
Qed.

Lemma startswith_shorter (s p q : string) :
  Py.startswith s (p ++ q) = true -> Py.startswith s p = true.
Proof.
  intros [r ->]%startswith_split. rewrite append_assoc. apply startswith_app.
Qed.

End Delete.

(** X14.  After a deletion that was confirmed, whatever the answer to
    "Fix it?", the lines of the file are earlier lines that do not start with
    the name, in their order: none starts with the name, and every such line
    that [fix_config] keeps is among them.  They are all of those lines when
    [display_config] can read the file that was written, or when the repair is
    declined. *)
Theorem delete_entry_lines (name : string) (reply_fix : bool) (fs : file_state)
  (self : GesturesApp.t) :
  let after :=
    file_after (GesturesApp.delete_entry name true reply_fix fs self) in
  (exists keep : string -> bool,
     read_config after = filter keep (filter (not_named name) (read_config fs))
     /\ forall line, kept line = true -> keep line = true)
  /\ forallb (not_named name) (read_config after) = true
  /\ (readable (deleted name fs) = true \/ reply_fix = false ->
      read_config after = filter (not_named name) (read_config fs)).
Proof.
  intros after. subst after. rewrite delete_entry_read. split; [|split].
  - exists (survives reply_fix (deleted name fs)).
    split; [reflexivity | intros line; apply survives_kept].
  - apply forallb_filter, forallb_filter_same.
  - intros H. apply filter_same. intros line. now apply survives_all.
Qed.

(** X15.  Deleting twice with the same name, and the same answer to
    "Fix it?", leaves the file as deleting once does.  Two deletions leave the
    same file in either order when the repair is declined, and when
    [display_config] can read the file that each of them writes first. *)
Theorem delete_entry_composes (a b : string) (reply_fix reply_fix' : bool)
  (fs : file_state) (self self' : GesturesApp.t) :
  file_after
    (GesturesApp.delete_entry a true reply_fix
       (file_after (GesturesApp.delete_entry a true reply_fix fs self)) self')
  = file_after (GesturesApp.delete_entry a true reply_fix fs self)
  /\ file_after
       (GesturesApp.delete_entry a true false
          (file_after (GesturesApp.delete_entry b true false fs self)) self')
     = file_after
         (GesturesApp.delete_entry b true false
            (file_after (GesturesApp.delete_entry a true false fs self)) self')
  /\ (readable (deleted a fs) = true ->
      readable (deleted b fs) = true ->
      file_after
        (GesturesApp.delete_entry a true reply_fix'
           (file_after (GesturesApp.delete_entry b true reply_fix fs self)) self')
      = file_after
          (GesturesApp.delete_entry b true reply_fix'
             (file_after (GesturesApp.delete_entry a true reply_fix fs self))
             self')).
Proof.
  split; [|split].
  - rewrite (delete_entry_file a reply_fix (file_after _)).
    assert (deleted a
              (file_after (GesturesApp.delete_entry a true reply_fix fs self))
            = file_after (GesturesApp.delete_entry a true reply_fix fs self)) as ->.
    { unfold deleted at 1. fold (not_named a). rewrite delete_entry_read.
      rewrite filter_swap, filter_twice, <- (delete_entry_read a reply_fix fs self).
      rewrite delete_entry_file.
      apply display_config_written, deleted_written_back. }
    rewrite delete_entry_file. apply display_config_again.
  - rewrite !delete_entry_file, !display_config_file, !andb_false_r.
    rewrite !deleted_twice. now rewrite filter_swap.
  - intros Ha Hb.
    rewrite (delete_entry_readable b reply_fix fs self Hb).
    rewrite (delete_entry_readable a reply_fix fs self Ha).
    rewrite !delete_entry_readable by now apply deleted_readable.
    rewrite !deleted_twice. now rewrite filter_swap.
Qed.

(** X16.  With the name of a Delete button, [delete_entry] removes a line
    that does not start with [gesture] only through the repair that may
    follow: such a line stays when [fix_config] keeps it, when
    [display_config] can read the file that was written, and when the repair
    is declined. *)
Theorem delete_entry_removes_gesture_lines (fs : file_state) (name line : string)
  (reply_yes reply_fix : bool) (self : GesturesApp.t) :
  In name (Py.keys reversed_mapping) ->
  In line (read_config fs) ->
  starts_gesture line = false ->
  kept line = true \/ readable (deleted name fs) = true \/ reply_fix = false ->
  In line
    (read_config
       (file_after (GesturesApp.delete_entry name reply_yes reply_fix fs self))).
Proof.
  intros Hn Hin Hg Hk. destruct reply_yes; [|exact Hin].
  rewrite delete_entry_read. apply filter_In. split.
  - apply filter_In. split; [exact Hin|].
    unfold not_named. destruct (Py.startswith line name) eqn:E; [|reflexivity].
    destruct (token_starts_with_gesture name (or_intror Hn)) as [rest ->].
    apply startswith_shorter in E. unfold starts_gesture in Hg. congruence.
  - destruct Hk as [Hk|Hk]; [now apply survives_kept | now apply survives_all].
Qed.

(** X16 at an example. *)
Lemma delete_entry_removes_gesture_lines_witness :
  In ("# comment" ++ nl)
    (read_config
       (file_after
          (GesturesApp.delete_entry "gesture swipe up" true true sideways_file
             GesturesApp.empty))).
Proof.
  apply (delete_entry_removes_gesture_lines sideways_file "gesture swipe up"
           ("# comment" ++ nl) true true GesturesApp.empty).
  - simpl. tauto.
  - vm_compute. tauto.
  - reflexivity.
  - left. reflexivity.
Defined.

(** ** [save_changes] *)

Section Save.

Local Arguments String.eqb : simpl never.
Local Arguments Py.startswith : simpl never.

Lemma filter_not_replaced_again (self : EditGestures.t) (l : list string) :
  filter (not_replaced self) (filter (not_replaced self) l ++ [EditGestures.new_line self])
  = filter (not_replaced self) l \/
  replaced_by self (EditGestures.new_line self) = false.
Proof.
  destruct (replaced_by self (EditGestures.new_line self)) eqn:E; [left | now right].
  rewrite filter_app, filter_twice. cbn [filter]. unfold not_replaced at 2.
  rewrite E. cbn [negb]. apply app_nil_r.
Qed.

(** Tabs read as spaces do not change whether a line starts with [gesture]. *)
Lemma starts_gesture_replace (line : string) :
  Py.startswith (Py.replace Py.TAB Py.SPACE line) "gesture" = starts_gesture line.
Proof.
  unfold starts_gesture.
  assert (forall p s,
            all_chars (fun c => negb (Ascii.eqb c Py.TAB) && negb (Ascii.eqb c Py.SPACE)) p
            = true ->
            Py.startswith (Py.replace Py.TAB Py.SPACE s) p = Py.startswith s p) as H.
  { induction p as [|d p IH]; intros s Hp.
    - now destruct s.
    - destruct s as [|c s]; [reflexivity|].
      cbn [all_chars] in Hp. apply andb_prop in Hp as [[Ht Hsp]%andb_prop Hp].
      cbn [Py.replace]. rewrite !startswith_cons, IH by assumption.
      destruct (Ascii.eqb_spec c Py.TAB) as [->|_]; [|reflexivity].
      apply negb_true_iff in Ht, Hsp. now rewrite Ht, Hsp. }
  now apply H.
Qed.

Lemma replaced_starts_gesture (self : EditGestures.t) (line : string) :
  In (EditGestures.action self) (map snd actions_mapping) ->
  replaced_by self line = true -> starts_gesture line = true.
Proof.
  intros Ha H. rewrite <- starts_gesture_replace.
  destruct (token_starts_with_gesture _ (or_introl Ha)) as [rest E].
  unfold replaced_by, EditGestures.line_prefix in H. rewrite E in H.
  rewrite append_assoc in H. now apply startswith_shorter in H.
Qed.

(** Written back as it is read, the file that [save_changes] writes is the
    same file. *)
Lemma written_written_back (self : EditGestures.t) (fs : file_state) :
  In (EditGestures.action self) (map snd actions_mapping) ->
  one_line (EditGestures.shortcut self) = true ->
  forallb terminated_line (read_config fs) = true ->
  write_config (read_config (written self fs)) = written self fs.
Proof.
  intros Ha Hs Ht. rewrite written_lines by assumption.
  unfold written. now rewrite save_loop_filter.
Qed.

(** The lines of the file after a save. *)
Lemma save_changes_read (reply_fix : bool) (self : EditGestures.t)
  (parent : GesturesApp.t) (fs : file_state) :
  EditGestures.all_filled self = true ->
  read_config (file_after (EditGestures.save_changes reply_fix self parent fs))
  = filter (survives reply_fix (written self fs)) (read_config (written self fs)).
Proof. intros Hf. rewrite save_changes_file, Hf. apply display_config_lines. Qed.

Lemma saved_terminated (reply_fix : bool) (self : EditGestures.t)
  (parent : GesturesApp.t) (fs : file_state) :
  EditGestures.all_filled self = true ->
  forallb terminated_line
    (read_config (file_after (EditGestures.save_changes reply_fix self parent fs)))
  = true.
Proof.
  intros Hf. rewrite save_changes_read by assumption.
  apply forallb_filter, written_terminated.
Qed.

(** The lines after a save to a file whose lines all have their line end:
    the new line is there when it passes [survives]. *)
Lemma saved_lines (reply_fix : bool) (self : EditGestures.t)
  (parent : GesturesApp.t) (fs : file_state) :
  In (EditGestures.action self) (map snd actions_mapping) ->
  EditGestures.all_filled self = true ->
  one_line (EditGestures.shortcut self) = true ->
  forallb terminated_line (read_config fs) = true ->
  survives reply_fix (written self fs) (EditGestures.new_line self) = true ->
  read_config (file_after (EditGestures.save_changes reply_fix self parent fs))
  = (filter (survives reply_fix (written self fs))
       (filter (not_replaced self) (read_config fs))
     ++ [EditGestures.new_line self])%list.
Proof.
  intros Ha Hf Hs Ht Hk. rewrite save_changes_read by assumption.
  rewrite (written_lines self fs Ha Hs Ht). fold (not_replaced self).
  rewrite filter_app. cbn [filter]. now rewrite Hk.
Qed.

End Save.

(** C5, as it holds of the code.  [save_changes] for [b], then for [b'],
    which has the gesture token and the finger count of [b], every field
    filled, an action of one line, and a line that [fix_config] keeps.  Whatever
    the answers to "Fix it?", the file then holds lines of the file after the
    first save that do not start with the prefix [<token> <count>] (tabs read
    as spaces), in their order, among them all that [fix_config] keeps,
    followed by the line of [b']: that line is the last one and the only one
    with the prefix, and the line of [b] had the prefix.  The lines before it
    are all the lines without the prefix when [display_config] can read the
    file that the second save writes, or when the repair is declined. *)
Theorem save_changes_twice (fs : file_state) (b b' : EditGestures.t)
  (reply_fix reply_fix' : bool) (parent parent' : GesturesApp.t) :
  In (EditGestures.action b') (map snd actions_mapping) ->
  EditGestures.action b = EditGestures.action b' ->
  EditGestures.fingers b = EditGestures.fingers b' ->
  EditGestures.all_filled b = true ->
  EditGestures.all_filled b' = true ->
  one_line (EditGestures.shortcut b') = true ->
  kept (EditGestures.new_line b') = true ->
  let fs1 := file_after (EditGestures.save_changes reply_fix b parent fs) in
  let fs2 := file_after (EditGestures.save_changes reply_fix' b' parent' fs1) in
  (exists keep : string -> bool,
     read_config fs2
     = (filter keep (filter (fun l => negb (replaced_by b' l)) (read_config fs1))
        ++ [EditGestures.new_line b'])%list
     /\ forall line, kept line = true -> keep line = true)
  /\ (readable (written b' fs1) = true \/ reply_fix' = false ->
      read_config fs2
      = (filter (fun l => negb (replaced_by b' l)) (read_config fs1)
         ++ [EditGestures.new_line b'])%list)
  /\ filter (replaced_by b') (read_config fs2) = [EditGestures.new_line b']
  /\ replaced_by b' (EditGestures.new_line b) = true.
Proof.
  intros Ha Eact Efin Hb Hb' Hs Hk fs1 fs2.
  assert (forallb terminated_line (read_config fs1) = true) as Ht
    by now apply saved_terminated.
  assert (read_config fs2
          = (filter (survives reply_fix' (written b' fs1))
               (filter (not_replaced b') (read_config fs1))
             ++ [EditGestures.new_line b'])%list) as E.
  { apply saved_lines; auto. now apply survives_kept. }
  split; [|split; [|split]].
  - exists (survives reply_fix' (written b' fs1)).
    split; [exact E | intros line; apply survives_kept].
  - intros H. rewrite E. f_equal. apply filter_same.
    intros line. now apply survives_all.
  - rewrite E, filter_app, filter_swap. unfold not_replaced.
    rewrite filter_filter_negb. cbn [filter app].
    now rewrite new_line_replaced.
  - unfold replaced_by, EditGestures.line_prefix. rewrite <- Eact, <- Efin.
    apply new_line_replaced. now rewrite Eact.
Qed.

(** C5 at [wide_file], for two commands on "Swipe Up" with 3 fingers. *)
Lemma save_changes_twice_witness :
  (exists keep : string -> bool,
     read_config saved_twice
     = (filter keep
          (filter (fun l => negb (replaced_by second_edit l)) (read_config saved_once))
        ++ [EditGestures.new_line second_edit])%list
     /\ forall line, kept line = true -> keep line = true)
  /\ (readable (written second_edit saved_once) = true \/ true = false ->
      read_config saved_twice
      = (filter (fun l => negb (replaced_by second_edit l)) (read_config saved_once)
         ++ [EditGestures.new_line second_edit])%list)
  /\ filter (replaced_by second_edit) (read_config saved_twice)
     = [EditGestures.new_line second_edit]
  /\ replaced_by second_edit (EditGestures.new_line first_edit) = true.
Proof.
  apply (save_changes_twice wide_file first_edit second_edit true true
           GesturesApp.empty
           (window_after
              (EditGestures.save_changes true first_edit GesturesApp.empty
                 wide_file)));
    try reflexivity.
  simpl. tauto.
Defined.

(** C5 in the words of the specification does not hold: a line written with two
    spaces before the finger count is not replaced, and the file ends up with
    two rows for "Swipe Up" with 3 fingers. *)
Lemma save_changes_twice_two_rows :
  fst (GesturesApp.prepare_config_for_displaying saved_twice GesturesApp.empty)
  = Ok tt
  /\ GesturesApp.shortcuts (rows_of saved_twice) = ["echo old"; "echo b"]
  /\ rows_with_key (rows_of saved_twice) "Swipe Up" "3" = 2.
Proof. repeat split; reflexivity. Qed.

(** A line that [fix_config] does not keep can be lost to the repair: the
    binding saved with an empty key sequence is written, the file cannot be
    read, and with the answer Yes the repair drops it again, together with the
    other lines that [fix_config] does not keep. *)
Example save_changes_repair_drops_line :
  EditGestures.shortcut_chosen "" EditGestures.init = Ok empty_key_edit
  /\ kept (EditGestures.new_line empty_key_edit) = false
  /\ In (EditGestures.new_line empty_key_edit)
       (read_config (written empty_key_edit mixed_file))
  /\ read_config
       (file_after
          (EditGestures.save_changes true empty_key_edit GesturesApp.empty
             mixed_file))
     = [ "# comment, preserved" ++ nl;
         "gesture pinch in 2 notify-send pinch" ++ nl;
         "device touchpad" ++ nl ].
Proof. vm_compute. repeat split. tauto. Qed.

(** X17.  [save_changes] with every field filled, on a file whose lines all
    have their line end.  When [display_config] can read the file that was
    written, or the repair is declined, the lines that do not start with the
    prefix [<token> <count>] (tabs read as spaces) stay, in their order, and
    the new line comes last.  In every case, a new line that [fix_config]
    keeps comes last, after earlier lines without the prefix, in their order,
    among them all that [fix_config] keeps. *)
Theorem save_changes_appends (reply_fix : bool) (self : EditGestures.t)
  (parent : GesturesApp.t) (fs : file_state) :
  In (EditGestures.action self) (map snd actions_mapping) ->
  EditGestures.all_filled self = true ->
  one_line (EditGestures.shortcut self) = true ->
  forallb terminated_line (read_config fs) = true ->
  let after :=
    file_after (EditGestures.save_changes reply_fix self parent fs) in
  (readable (written self fs) = true \/ reply_fix = false ->
   read_config after
   = (filter (not_replaced self) (read_config fs)
      ++ [EditGestures.new_line self])%list)
  /\ (kept (EditGestures.new_line self) = true ->
      exists keep : string -> bool,
        read_config after
        = (filter keep (filter (not_replaced self) (read_config fs))
           ++ [EditGestures.new_line self])%list
        /\ forall line, kept line = true -> keep line = true).
Proof.
  intros Ha Hf Hs Ht after. subst after. split.
  - intros H. rewrite saved_lines by (auto; now apply survives_all).
    f_equal. apply filter_same. intros line. now apply survives_all.
  - intros Hk. exists (survives reply_fix (written self fs)). split.
    + apply saved_lines; auto. now apply survives_kept.
    + intros line. apply survives_kept.
Qed.

(** X17 at an example. *)
Lemma save_changes_appends_witness :
  (readable (written pinch_edit pinch_file) = true \/ true = false ->
   read_config
     (file_after
        (EditGestures.save_changes true pinch_edit GesturesApp.empty pinch_file))
   = (filter (not_replaced pinch_edit) (read_config pinch_file)
      ++ [EditGestures.new_line pinch_edit])%list)
  /\ (kept (EditGestures.new_line pinch_edit) = true ->
      exists keep : string -> bool,
        read_config
          (file_after
             (EditGestures.save_changes true pinch_edit GesturesApp.empty
                pinch_file))
        = (filter keep (filter (not_replaced pinch_edit) (read_config pinch_file))
           ++ [EditGestures.new_line pinch_edit])%list
        /\ forall line, kept line = true -> keep line = true).
Proof.
  apply (save_changes_appends true pinch_edit GesturesApp.empty pinch_file);
    try reflexivity.
  simpl. tauto.
Defined.

(** X18.  After [save_changes] with every field filled, whatever the file
    was and whatever the answer to "Fix it?", every line of the file has its
    line end. *)
Theorem save_changes_ends_lines (reply_fix : bool) (self : EditGestures.t)
  (parent : GesturesApp.t) (fs : file_state) :
  EditGestures.all_filled self = true ->
  forallb terminated_line
    (read_config (file_after (EditGestures.save_changes reply_fix self parent fs)))
  = true.
Proof. apply saved_terminated. Qed.

(** X18 at an example. *)
Lemma save_changes_ends_lines_witness :
  forallb terminated_line
    (read_config
       (file_after
          (EditGestures.save_changes true pinch_edit GesturesApp.empty
             unterminated_file))) = true.
Proof.
  apply (save_changes_ends_lines true pinch_edit GesturesApp.empty
           unterminated_file).
  reflexivity.
Defined.

(** X19.  Saving the same binding a second time, with the same answer to
    "Fix it?", leaves the file as the first save left it, when the line of the
    binding is one that [fix_config] keeps. *)
Theorem save_changes_again (reply_fix : bool) (self : EditGestures.t)
  (parent parent' : GesturesApp.t) (fs : file_state) :
  In (EditGestures.action self) (map snd actions_mapping) ->
  EditGestures.all_filled self = true ->
  one_line (EditGestures.shortcut self) = true ->
  forallb terminated_line (read_config fs) = true ->
  kept (EditGestures.new_line self) = true ->
  file_after
    (EditGestures.save_changes reply_fix self parent'
       (file_after (EditGestures.save_changes reply_fix self parent fs)))
  = file_after (EditGestures.save_changes reply_fix self parent fs).
Proof.
  intros Ha Hf Hs Ht Hk.
  pose proof (saved_lines reply_fix self parent fs Ha Hf Hs Ht
                (survives_kept _ _ _ Hk)) as E.
  pose proof (saved_terminated reply_fix self parent fs Hf) as Ht1.
  set (fs1 := file_after (EditGestures.save_changes reply_fix self parent fs)) in *.
  assert (write_config (read_config fs1) = fs1) as Hw.
  { subst fs1. rewrite save_changes_file, Hf.
    now apply display_config_written, written_written_back. }
  assert (written self fs1 = fs1) as Hsame.
  { rewrite <- Hw at 2. unfold written. rewrite save_loop_filter. cbn [app].
    fold (not_replaced self). rewrite E at 1.
    rewrite filter_app, filter_swap, filter_twice. cbn [filter].
    unfold not_replaced at 2. rewrite new_line_replaced by assumption.
    cbn [negb]. rewrite app_nil_r. now rewrite E. }
  rewrite (save_changes_file reply_fix self parent' fs1), Hf, Hsame.
  subst fs1. rewrite save_changes_file, Hf. apply display_config_again.
Qed.

(** X19 at an example. *)
Lemma save_changes_again_witness :
  file_after
    (EditGestures.save_changes true pinch_edit GesturesApp.empty
       (file_after
          (EditGestures.save_changes true pinch_edit GesturesApp.empty pinch_file)))
  = file_after
      (EditGestures.save_changes true pinch_edit GesturesApp.empty pinch_file).
Proof.
  apply (save_changes_again true pinch_edit GesturesApp.empty GesturesApp.empty
           pinch_file); try reflexivity.
  simpl. tauto.
Defined.

(** X20.  On a file whose lines all have their line end, [save_changes]
    removes a line that does not start with [gesture] only through the repair
    that may follow: such a line stays when [fix_config] keeps it, when
    [display_config] can read the file that was written, and when the repair
    is declined. *)
Theorem save_changes_removes_gesture_lines (reply_fix : bool)
  (self : EditGestures.t) (parent : GesturesApp.t) (fs : file_state)
  (line : string) :
  In (EditGestures.action self) (map snd actions_mapping) ->
  forallb terminated_line (read_config fs) = true ->
  In line (read_config fs) ->
  starts_gesture line = false ->
  kept line = true \/ readable (written self fs) = true \/ reply_fix = false ->
  In line
    (read_config (file_after (EditGestures.save_changes reply_fix self parent fs))).
Proof.
  intros Ha Ht Hin Hg Hk.
  destruct (EditGestures.all_filled self) eqn:Hf;
    [|rewrite save_changes_file, Hf; exact Hin].
  rewrite save_changes_read by assumption. apply filter_In. split.
  - rewrite written_content. cbn [read_config].
    rewrite readlines_join_app by now apply forallb_filter.
    apply in_or_app. left. apply filter_In. split; [exact Hin|].
    destruct (replaced_by self line) eqn:E; [|reflexivity].
    apply (replaced_starts_gesture self line Ha) in E. congruence.
  - destruct Hk as [Hk|Hk]; [now apply survives_kept | now apply survives_all].
Qed.

(** X20 at an example. *)
Lemma save_changes_removes_gesture_lines_witness :
  In ("# comment" ++ nl)
    (read_config
       (file_after
          (EditGestures.save_changes true pinch_edit GesturesApp.empty
             sideways_file))).
Proof.
  apply (save_changes_removes_gesture_lines true pinch_edit GesturesApp.empty
           sideways_file ("# comment" ++ nl)).
  - simpl. tauto.
  - reflexivity.
  - vm_compute. tauto.
  - reflexivity.
  - left. reflexivity.
Defined.





(** ** How [save_changes] and [delete_entry] end *)

Section Ends.

Lemma sort_config_readable (fs : file_state) :
  readable fs = true -> fst (GesturesApp.sort_config (rows_of fs)) = Ok tt.
Proof.
  unfold readable, rows_of, GesturesApp.prepare_config_for_displaying.
  intros H%negb_true_iff.
  pose proof (prepare_loop_accepts _ GesturesApp.empty H) as E.
  destruct (GesturesApp.prepare_loop (read_config fs) GesturesApp.empty)
    as [[u|e] self1] eqn:E1; [|discriminate E].
  cbn [snd]. now apply (sort_config_after_prepare fs u).
Qed.

Lemma prepare_readable (fs : file_state) (self : GesturesApp.t) :
  readable fs = true ->
  GesturesApp.prepare_config_for_displaying fs self = (Ok tt, rows_of fs).
Proof.
  unfold readable, rows_of, GesturesApp.prepare_config_for_displaying.
  intros H%negb_true_iff.
  pose proof (prepare_loop_accepts _ GesturesApp.empty H) as E.
  destruct (GesturesApp.prepare_loop (read_config fs) GesturesApp.empty)
    as [[[]|e] self1]; [reflexivity | discriminate E].
Qed.

Lemma display_config_ends (reply_fix : bool) (fs : file_state)
  (self : GesturesApp.t) :
  ends_with_display reply_fix fs (GesturesApp.display_config reply_fix fs self).
Proof.
  unfold ends_with_display, outcome, file_after.
  destruct (readable fs) eqn:Er.
  - rewrite display_config_readable by assumption. cbn [fst snd].
    rewrite (sort_config_readable fs Er), Er.
    repeat split; try discriminate; auto.
  - rewrite display_config_unreadable by assumption.
    destruct reply_fix.
    + destruct (existsb out_of_range (read_config fs)) eqn:Eo.
      * rewrite (fix_config_out_of_range fs Eo). cbn [fst snd]. rewrite Er.
        repeat split; try discriminate; auto.
      * rewrite existsb_forallb_negb in Eo. apply negb_false_iff in Eo.
        rewrite (fix_config_in_range fs Eo). cbn [snd].
        set (fs' := write_config (filter kept (read_config fs))).
        destruct (readable fs') eqn:Er'.
        -- rewrite (prepare_readable fs' self Er'). cbn [fst snd].
           rewrite (sort_config_readable fs' Er'), Er'.
           repeat split; try discriminate; auto.
        -- pose proof (prepare_loop_kept (filter kept (read_config fs))
                         GesturesApp.empty
                         (forallb_filter_same kept (read_config fs))) as Hk.
           pose proof (prepare_raises_kind fs' self Er') as Hr.
           unfold GesturesApp.prepare_config_for_displaying in *.
           subst fs'. rewrite read_write_filter in *.
           destruct (GesturesApp.prepare_loop (filter kept (read_config fs))
                       GesturesApp.empty) as [[u|e] self2].
           ++ cbn [fst] in Hr. destruct Hr; discriminate.
           ++ cbn [fst snd] in *. destruct Hk as [Hk|Hk]; [discriminate|].
              rewrite Hk, Er'.
              repeat split; try discriminate; auto.
    + cbn [fst snd]. rewrite Er. repeat split; try discriminate; auto.
Qed.

End Ends.

(** X30.  [save_changes] with every field filled, and [delete_entry] once
    confirmed, return exactly when the file they leave can be read.  Otherwise
    they raise [SystemExit], when the repair is declined, or [IndexError],
    from [fix_config], both with the file as they wrote it, or [KeyError],
    from reading the file that [fix_config] left.  With a field left empty
    [save_changes] returns and changes nothing; so does [delete_entry] when
    it is not confirmed. *)
Theorem edits_end_with_display (reply_fix : bool) (name : string)
  (self : EditGestures.t) (window : GesturesApp.t) (fs : file_state) :
  (if EditGestures.all_filled self
   then ends_with_display reply_fix (written self fs)
          (EditGestures.save_changes reply_fix self window fs)
   else EditGestures.save_changes reply_fix self window fs
        = ((Ok tt, window), fs))
  /\ ends_with_display reply_fix (deleted name fs)
       (GesturesApp.delete_entry name true reply_fix fs window)
  /\ GesturesApp.delete_entry name false reply_fix fs window
     = ((Ok tt, window), fs).
Proof.
  split; [|split].
  - rewrite save_changes_file.
    destruct (EditGestures.all_filled self); [apply display_config_ends | reflexivity].
  - rewrite delete_entry_file. apply display_config_ends.
  - reflexivity.
Qed.

(** ** [find_key_combo], key by key *)

Section Keys.

Local Arguments String.eqb : simpl never.

Lemma without_app (c : ascii) (s t : string) :
  without c (s ++ t) = without c s && without c t.
Proof. apply all_chars_app. Qed.

Lemma split_on_from_piece (sep : ascii) (a w rest : string) :
  without sep a = true ->
  Py.split_on_from sep w (a ++ rest) = Py.split_on_from sep (w ++ a) rest.
Proof.
  unfold without. revert w; induction a as [|c a IH]; intros w; cbn [all_chars].
  - intros _. now rewrite append_nil_r.
  - intros [Hc Ha]%andb_prop. apply negb_true_iff in Hc.
    cbn [append Py.split_on_from]. rewrite Hc, IH by assumption.
    now rewrite append_snoc.
Qed.

Lemma split_on_from_pieces (sep : ascii) (w s : string) :
  without sep w = true ->
  Forall (fun p => without sep p = true) (Py.split_on_from sep w s).
Proof.
  revert w; induction s as [|c s IH]; intros w Hw; cbn [Py.split_on_from].
  - now repeat constructor.
  - destruct (Ascii.eqb c sep) eqn:E.
    + constructor; [exact Hw | now apply IH].
    + apply IH. rewrite without_app, Hw. unfold without. cbn. now rewrite E.
Qed.

(** Pieces without the separator, joined and split again, are the pieces. *)
Lemma split_on_join (sep : ascii) (pieces : list string) :
  pieces <> [] ->
  Forall (fun p => without sep p = true) pieces ->
  Py.split_on sep (Py.join (String sep "") pieces) = pieces.
Proof.
  intros Hne H. induction H as [|p ps Hp Hps IH]; [congruence|].
  unfold Py.split_on in *. destruct ps as [|q qs].
  - cbn [Py.join String.concat].
    rewrite <- (append_nil_r p) at 1. rewrite split_on_from_piece by assumption.
    reflexivity.
  - change (Py.join (String sep "") (p :: q :: qs))
      with (p ++ String sep (Py.join (String sep "") (q :: qs))).
    rewrite split_on_from_piece by assumption. cbn [Py.split_on_from append].
    rewrite Ascii.eqb_refl. now rewrite IH by discriminate.
Qed.

Lemma lower_char_plus (c : ascii) :
  Ascii.eqb (Py.lower_char c) "+"%char = Ascii.eqb c "+"%char.
Proof. destruct c as [[] [] [] [] [] [] [] []]; reflexivity. Qed.

Lemma lower_char_twice (c : ascii) :
  Py.lower_char (Py.lower_char c) = Py.lower_char c.
Proof. destruct c as [[] [] [] [] [] [] [] []]; reflexivity. Qed.

Lemma lower_twice (s : string) : Py.lower (Py.lower s) = Py.lower s.
Proof.
  induction s as [|c s IH]; [reflexivity|].
  cbn [Py.lower]. now rewrite lower_char_twice, IH.
Qed.

Lemma lower_app (s t : string) : Py.lower (s ++ t) = Py.lower s ++ Py.lower t.
Proof. induction s as [|c s IH]; cbn; [reflexivity | now rewrite IH]. Qed.

Lemma lower_without_plus (s : string) :
  without "+"%char (Py.lower s) = without "+"%char s.
Proof.
  unfold without. induction s as [|c s IH]; [reflexivity|].
  cbn [Py.lower all_chars]. now rewrite lower_char_plus, IH.
Qed.

Lemma split_on_from_lower (w s : string) :
  Py.split_on_from "+"%char (Py.lower w) (Py.lower s)
  = map Py.lower (Py.split_on_from "+"%char w s).
Proof.
  revert w; induction s as [|c s IH]; intros w; cbn [Py.lower Py.split_on_from map].
  - reflexivity.
  - rewrite lower_char_plus. destruct (Ascii.eqb c "+"%char).
    + cbn [map]. f_equal. apply (IH "").
    + rewrite <- IH. now rewrite lower_app.
Qed.

Lemma spec_key_lower (k : string) : spec_key (Py.lower k) = spec_key k.
Proof. unfold spec_key. now rewrite lower_twice. Qed.

(** The translation of a key without [+] has no [+]. *)
Lemma spec_key_without_plus (k : string) :
  without "+"%char k = true -> without "+"%char (spec_key k) = true.
Proof.
  intros Hk. unfold spec_key.
  destruct (Py.get keys_mapping (Py.lower k)) as [v|] eqn:E.
  - apply get_In in E. cbn [keys_mapping In] in E.
    repeat destruct E as [[= _ <-]|E]; try reflexivity. destruct E.
  - now rewrite lower_without_plus.
Qed.

Lemma join_lower (pieces : list string) :
  Py.join "+" (map Py.lower pieces) = Py.lower (Py.join "+" pieces).
Proof.
  induction pieces as [|p ps IH]; [reflexivity|].
  destruct ps as [|q qs]; [reflexivity|].
  change (Py.join "+" (p :: q :: qs)) with (p ++ "+" ++ Py.join "+" (q :: qs)).
  rewrite !lower_app, <- IH. reflexivity.
Qed.

End Keys.

(** X23.  The keys of the translated chord are the translations of the keys
    of the chord, one by one: [find_key_combo] neither adds nor drops a key. *)
Theorem find_key_combo_keys (chord : string) :
  Py.split_on "+"%char (find_key_combo chord)
  = map spec_key (Py.split_on "+"%char chord).
Proof.
  unfold find_key_combo. rewrite find_key_combo_loop_map. cbn [app].
  apply split_on_join.
  - intros E. apply map_eq_nil in E. now apply split_on_from_not_nil in E.
  - apply Forall_map.
    pose proof (split_on_from_pieces "+"%char "" chord eq_refl) as H.
    revert H. apply Forall_impl. intros k. apply spec_key_without_plus.
Qed.

(** X24.  The case of the letters of the chord plays no part. *)
Theorem find_key_combo_ignores_case (chord : string) :
  find_key_combo (Py.lower chord) = find_key_combo chord.
Proof.
  unfold find_key_combo. rewrite !find_key_combo_loop_map. cbn [app].
  unfold Py.split_on. pose proof (split_on_from_lower "" chord) as E.
  cbn [Py.lower] in E. rewrite E, map_map. f_equal.
  apply map_ext. intros k. apply spec_key_lower.
Qed.

(** X25.  A chord none of whose keys is in the key table is lower-cased, and
    nothing else. *)
Theorem find_key_combo_unmapped (chord : string) :
  forallb unmapped (Py.split_on "+"%char chord) = true ->
  find_key_combo chord = Py.lower chord.
Proof.
  intros H. unfold find_key_combo. rewrite find_key_combo_loop_map. cbn [app].
  rewrite <- (join_split_on "+"%char chord) at 2. rewrite <- join_lower. f_equal.
  apply map_ext_in. intros k Hk.
  apply (proj1 (forallb_forall _ _) H) in Hk.
  unfold unmapped, Py.contains, spec_key in *.
  now destruct (Py.get keys_mapping (Py.lower k)).
Qed.

(** X25 at an example. *)
Lemma find_key_combo_unmapped_witness :
  find_key_combo "Ctrl+Alt+T" = Py.lower "Ctrl+Alt+T".
Proof. apply (find_key_combo_unmapped "Ctrl+Alt+T"). reflexivity. Defined.

(** ** The editing window *)

Section Editing.

Local Arguments String.eqb : simpl never.
Local Arguments Py.startswith : simpl never.
Local Arguments Py.get : simpl never.
Local Arguments tokens : simpl never.

Lemma subscript_value (d : Py.dict) (k v : string) :
  Py.subscript d k = Ok v -> In v (map snd d).
Proof.
  unfold Py.subscript. destruct (Py.get d k) as [v'|] eqn:E; [|discriminate].
  intros [= <-]. apply get_In in E. now apply (in_map snd) in E.
Qed.

Lemma split_on_first (sep : ascii) (chord rest : string) :
  without sep chord = true ->
  Py.split_on sep chord = [chord]
  /\ exists more, Py.split_on sep (chord ++ String sep rest) = chord :: more.
Proof.
  intros H. unfold Py.split_on. split.
  - rewrite <- (append_nil_r chord) at 1.
    now rewrite split_on_from_piece by assumption.
  - rewrite split_on_from_piece by assumption. cbn [Py.split_on_from append].
    rewrite Ascii.eqb_refl. eexists. reflexivity.
Qed.

(** The tokens of the line saved for a shortcut or a command. *)
Lemma tokens_saved_line (action : string) (n : N) (words : list string) :
  forallb is_word words = true ->
  tokens (EditGestures.new_line (EditGestures.mk action n (Py.join " " words)))
  = (tokens action ++ Py.str n :: words)%list.
Proof.
  intros H. rewrite tokens_new_line.
  cbn [EditGestures.action EditGestures.fingers EditGestures.shortcut].
  now rewrite tokens_words.
Qed.


Lemma saved_line_not_comment (self : EditGestures.t) :
  In (EditGestures.action self) (map snd actions_mapping) ->
  Py.startswith (EditGestures.new_line self) "#" = false.
Proof.
  intros Ha. destruct (token_starts_with_gesture _ (or_introl Ha)) as [rest E].
  unfold EditGestures.new_line. rewrite E. reflexivity.
Qed.

(** The tokens of the twelve tokens: [gesture], a kind and a direction that
    [reversed_mapping] knows. *)
Lemma tokens_of_action (action : string) :
  In action (map snd actions_mapping) ->
  exists b c,
    tokens action = ["gesture"; b; c]
    /\ Py.contains reversed_mapping (format_triple "gesture" b c) = true.
Proof.
  cbn [map snd actions_mapping In].
  intros H; repeat destruct H as [<-|H]; try destruct H;
    do 2 eexists; split; reflexivity.
Qed.

End Editing.

(** X26.  The gesture token of the editing window is one of the twelve
    tokens of [actions_mapping]: it is after [__init__], it is after every
    [action_chosen] that returns, and the other handlers leave it alone. *)
Theorem editor_keeps_known_action :
  known_action EditGestures.init
  /\ (forall text self self',
        EditGestures.action_chosen text self = Ok self' -> known_action self')
  /\ (forall value self,
        known_action self -> known_action (EditGestures.fingers_chosen value self))
  /\ (forall text self,
        known_action self -> known_action (EditGestures.command_chosen text self))
  /\ (forall text self self',
        known_action self ->
        EditGestures.shortcut_chosen text self = Ok self' -> known_action self').
Proof.
  unfold known_action. repeat split.
  - simpl. tauto.
  - intros text self self'. unfold EditGestures.action_chosen, bind.
    destruct (Py.subscript actions_mapping text) as [token|] eqn:E; [|discriminate].
    intros [= <-]. cbn [EditGestures.action]. now apply subscript_value in E.
  - intros value self H. exact H.
  - intros text self H. exact H.
  - intros text self self' H. unfold EditGestures.shortcut_chosen, bind.
    destruct (Py.getitem _ 0); [|discriminate]. intros [= <-]. exact H.
Qed.

(** X27.  [shortcut_chosen] keeps the first chord of the key sequence, what
    comes before the first comma, and sets the action to [xdotool key] and
    its translation. *)
Theorem shortcut_chosen_first_chord (chord rest : string) (self : EditGestures.t) :
  without ","%char chord = true ->
  EditGestures.shortcut_chosen chord self
  = Ok (EditGestures.mk (EditGestures.action self) (EditGestures.fingers self)
          ("xdotool key " ++ find_key_combo chord))
  /\ EditGestures.shortcut_chosen (chord ++ String ","%char rest) self
     = EditGestures.shortcut_chosen chord self.
Proof.
  intros H. destruct (split_on_first ","%char chord rest H) as [E1 [more E2]].
  unfold EditGestures.shortcut_chosen. now rewrite E1, E2.
Qed.

(** X27 at an example. *)
Lemma shortcut_chosen_first_chord_witness :
  EditGestures.shortcut_chosen "Ctrl+A" EditGestures.init
  = Ok (EditGestures.mk (EditGestures.action EditGestures.init)
          (EditGestures.fingers EditGestures.init)
          ("xdotool key " ++ find_key_combo "Ctrl+A"))
  /\ EditGestures.shortcut_chosen ("Ctrl+A" ++ String ","%char " Ctrl+B")
       EditGestures.init
     = EditGestures.shortcut_chosen "Ctrl+A" EditGestures.init.
Proof.
  apply (shortcut_chosen_first_chord "Ctrl+A" " Ctrl+B" EditGestures.init).
  reflexivity.
Defined.



(** X29.  [fix_config] keeps the line that the editing window saves for a
    shortcut whose key combination is one word, and for a command whose first
    word is not [xdotool]. *)
Theorem fix_config_keeps_saved_line (action : string) (n : N) :
  In action (map snd actions_mapping) ->
  (forall combo, is_word combo = true ->
     kept (EditGestures.new_line
             (EditGestures.mk action n (Py.join " " ["xdotool"; "key"; combo])))
     = true)
  /\ (forall first words,
        forallb is_word (first :: words) = true -> first <> "xdotool" ->
        kept (EditGestures.new_line
                (EditGestures.mk action n (Py.join " " (first :: words))))
        = true).
Proof.
  intros Ha. destruct (tokens_of_action _ Ha) as (b & c & Et & _).
  split.
  - intros combo Hc. rewrite kept_line_ok. unfold line_ok.
    rewrite saved_line_not_comment by exact Ha.
    rewrite tokens_saved_line by (cbn [forallb]; now rewrite Hc).
    rewrite Et. reflexivity.
  - intros first words Hw Hne. rewrite kept_line_ok. unfold line_ok.
    rewrite saved_line_not_comment by exact Ha.
    rewrite tokens_saved_line by assumption.
    rewrite Et. cbn. apply String.eqb_neq in Hne. now rewrite Hne.
Qed.

(** X29 at an example. *)
Lemma fix_config_keeps_saved_line_witness :
  kept (EditGestures.new_line
          (EditGestures.mk "gesture pinch in" 2
             (Py.join " " ["xdotool"; "key"; "ctrl+minus"]))) = true
  /\ kept (EditGestures.new_line
             (EditGestures.mk "gesture pinch in" 2
                (Py.join " " ["notify-send"; "pinch"]))) = true.
Proof.
  assert (In "gesture pinch in" (map snd actions_mapping)) as Ha
    by (simpl; tauto).
  destruct (fix_config_keeps_saved_line "gesture pinch in" 2 Ha) as [Hs Hc].
  split.
  - apply Hs. reflexivity.
  - apply Hc; [reflexivity | discriminate].
Defined.
